(** * Streaming worksheet writer (stream.go): a shallow embedding

    The development follows the layout of [stream.go]:
    - the operating-system files and the in-memory [bytes.Buffer] that
      [bufferedWriter] is built from;
    - [bufferedWriter] (Write, WriteString, Reader, Bytes, Sync, Flush,
      Close);
    - the cell encoder dispatch ([setCellValFunc], [setCellIntFunc]),
      [writeCell] and [StreamWriter.SetRow];
    - the partial scanner ([getRowElement], [StreamWriter.getRowValues]);
    - [StreamWriter.AddTable] and [StreamWriter.Flush].

    Go strings and byte slices are sequences of 8-bit bytes and are both
    carried by [string].  Storage failures are decided by the operating
    system, not by the program: every system call consults a script of
    outcomes that is threaded through the stateful operations. *)

From Stdlib Require Import ZArith List String Ascii Bool Lia.
From Stdlib Require Import DecimalString DecimalPos.
From stdpp Require Import base gmap strings.

Import ListNotations.
Local Open Scope string_scope.
Local Open Scope Z_scope.

Set Default Proof Using "Type".

(* stdpp freezes [String.append] under [simpl]; the proofs below unfold
   it on constructors. *)
#[local] Arguments String.append !_ _ / : simpl nomatch.

(** ** Errors *)

(** The error kinds of the specification (section 7).  The code itself
    only ever forwards the errors of its collaborators and of the
    operating system. *)
Inductive ErrKind :=
| AddressingError
| EncodingError
| StorageError
| StructuralError
| ProtocolError
| FormatError
| DecodeError
| RuntimePanic.

Record error := mkError { kind : ErrKind; msg : string }.

(** A Go result pair [(v, err)]. *)
Inductive result (A : Type) :=
| Ok (a : A)
| Err (e : error).
Arguments Ok {A} a.
Arguments Err {A} e.

Definition is_Ok {A} (r : result A) : bool :=
  match r with Ok _ => true | Err _ => false end.

(** ** Machine integers *)

(** Two's complement wrap-around of [z] to [w] bits. *)
Definition wrap (w : Z) (z : Z) : Z :=
  (z + 2 ^ (w - 1)) mod 2 ^ w - 2 ^ (w - 1).

(** [int] is 64 bits wide on the platforms the package is built for. *)
Definition intSize : Z := 64.
Definition to_int (z : Z) : Z := wrap intSize z.
Definition to_int64 (z : Z) : Z := wrap 64 z.

(** ** Byte strings *)

Definition Len (s : string) : Z := Z.of_nat (String.length s).

Fixpoint take (n : nat) (s : string) : string :=
  match n, s with
  | O, _ => EmptyString
  | S _, EmptyString => EmptyString
  | S n', String c s' => String c (take n' s')
  end.

Fixpoint drop (n : nat) (s : string) : string :=
  match n, s with
  | O, _ => s
  | S _, EmptyString => EmptyString
  | S n', String _ s' => drop n' s'
  end.

(** [strconv.Itoa] and the [%d] verb of [fmt]: the decimal form, with a
    leading minus sign for negative numbers. *)
Definition Itoa (z : Z) : string := NilZero.string_of_int (Z.to_int z).

(** The double quote character. *)
Definition dq : string := String (ascii_of_nat 34) EmptyString.

(** ** The operating system *)

(** The outcome the operating system gives to one system call: success,
    or a failure after [partial] bytes were transferred (the count only
    matters to reads and writes). *)
Inductive IOFault :=
| IOok
| IOfail (partial : nat).

(** The script of outcomes still to come; once it is exhausted every
    call succeeds. *)
Definition World := list IOFault.

Definition IO (A : Type) := World -> A * World.

Definition ret {A} (a : A) : IO A := fun w => (a, w).
Definition bind {A B} (m : IO A) (k : A -> IO B) : IO B :=
  fun w => let (a, w') := m w in k a w'.

Notation "'let*' x ':=' m 'in' k" := (bind m (fun x => k))
  (at level 10, x pattern, m at level 100, k at level 200).

Definition syscall : IO IOFault :=
  fun w => match w with
           | [] => (IOok, [])
           | f :: w' => (f, w')
           end.

Definition errIO (op : string) : error := mkError StorageError op.
Definition ErrClosed : error := mkError StorageError "file already closed".
Definition ErrTooLarge : error := mkError StorageError "bytes.Buffer: too large".

(** An [*os.File]: its content, the cursor of the descriptor, and
    whether it was closed and whether its name was removed. *)
Record OSFile := mkOSFile {
  fdata : string;
  fpos : nat;
  fclosed : bool;
  fremoved : bool
}.

Module os.

(** [ioutil.TempFile(os.TempDir(), "excelize-")]: a new, empty file
    opened for reading and writing. *)
Definition TempFile : IO (result OSFile) :=
  let* f := syscall in
  match f with
  | IOok => ret (Ok (mkOSFile EmptyString 0 false false))
  | IOfail _ => ret (Err (errIO "open"))
  end.

(** The content after [p] was written at offset [pos]. *)
Definition pwrite (data : string) (pos : nat) (p : string) : string :=
  take pos data ++ p ++ drop (pos + String.length p) data.

(** [f.Write(p)]: writes at the cursor and advances it; returns the
    number of bytes written.  A failing write may have transferred a
    proper prefix of [p]. *)
Definition Write (f : OSFile) (p : string) : IO (nat * option error * OSFile) :=
  if fclosed f then ret (O, Some ErrClosed, f)
  else
    let* o := syscall in
    match o with
    | IOok =>
        ret (String.length p, None,
             mkOSFile (pwrite (fdata f) (fpos f) p)
                      (fpos f + String.length p) (fclosed f) (fremoved f))
    | IOfail m =>
        let n := Nat.min m (String.length p) in
        ret (n, Some (errIO "write"),
             mkOSFile (pwrite (fdata f) (fpos f) (take n p))
                      (fpos f + n) (fclosed f) (fremoved f))
    end.

(** [f.Stat()], of which only [Size()] is used. *)
Definition Stat (f : OSFile) : IO (result Z) :=
  if fclosed f then ret (Err ErrClosed)
  else
    let* o := syscall in
    match o with
    | IOok => ret (Ok (Len (fdata f)))
    | IOfail _ => ret (Err (errIO "stat"))
    end.

(** [f.Seek(0, 0)]. *)
Definition Seek0 (f : OSFile) : IO (option error * OSFile) :=
  if fclosed f then ret (Some ErrClosed, f)
  else
    let* o := syscall in
    match o with
    | IOok => ret (None, mkOSFile (fdata f) 0 (fclosed f) (fremoved f))
    | IOfail _ => ret (Some (errIO "seek"), f)
    end.

(** Reading from the cursor up to the end of the file, as
    [bytes.Buffer.ReadFrom] does: the bytes read, and the error that
    stopped the reading if it was not the end of the file. *)
Definition ReadAll (f : OSFile) : IO (string * option error * OSFile) :=
  if fclosed f then ret (EmptyString, Some ErrClosed, f)
  else
    let* o := syscall in
    let rest := drop (fpos f) (fdata f) in
    match o with
    | IOok =>
        ret (rest, None,
             mkOSFile (fdata f) (fpos f + String.length rest)
                      (fclosed f) (fremoved f))
    | IOfail m =>
        let got := take m rest in
        ret (got, Some (errIO "read"),
             mkOSFile (fdata f) (fpos f + String.length got)
                      (fclosed f) (fremoved f))
    end.

(** [f.Close()]: the descriptor is released whatever the outcome. *)
Definition Close (f : OSFile) : IO (option error * OSFile) :=
  if fclosed f then ret (Some ErrClosed, f)
  else
    let* o := syscall in
    let f' := mkOSFile (fdata f) (fpos f) true (fremoved f) in
    match o with
    | IOok => ret (None, f')
    | IOfail _ => ret (Some (errIO "close"), f')
    end.

(** [os.Remove(f.Name())]; its error is dropped by the caller. *)
Definition Remove (f : OSFile) : IO OSFile :=
  let* o := syscall in
  match o with
  | IOok => ret (mkOSFile (fdata f) (fpos f) (fclosed f) true)
  | IOfail _ => ret f
  end.

End os.

(** ** bufferedWriter *)

(** [tmp] is the nil-able [*os.File]; [buf] is the unread content of the
    [bytes.Buffer]. *)
Record bufferedWriter := mkBW {
  tmp : option OSFile;
  buf : string
}.

(** What an [io.Reader] delivers: the bytes, then the end of the stream
    or an error. *)
Record Reader := mkReader {
  rdata : string;
  rerr : option error
}.

Module bufferedWriter.

Definition empty : bufferedWriter := mkBW None EmptyString.

(** [bw.buf.Write(p)]; the error is always nil. *)
Definition Write (bw : bufferedWriter) (p : string) : bufferedWriter :=
  mkBW (tmp bw) (buf bw ++ p).

Definition WriteString (bw : bufferedWriter) (p : string) : bufferedWriter :=
  mkBW (tmp bw) (buf bw ++ p).

(** [bw.buf.WriteTo(f)] of [bytes.Buffer]: one [Write] of the whole
    content; the bytes written are consumed; the buffer is reset once
    everything was written. *)
Definition buf_WriteTo (b : string) (f : OSFile)
  : IO (option error * string * OSFile) :=
  if (0 <? Len b)%Z then
    let* (m, e, f') := os.Write f b in
    match e with
    | Some e => ret (Some e, drop m b, f')
    | None => ret (None, EmptyString, f')
    end
  else ret (None, EmptyString, f).

(** Flush the entire in-memory buffer to the temp file, if a temp file
    is being used. *)
Definition Flush (bw : bufferedWriter) : IO (option error * bufferedWriter) :=
  match tmp bw with
  | None => ret (None, bw)
  | Some f =>
      let* (err, b', f') := buf_WriteTo (buf bw) f in
      match err with
      | Some e => ret (Some e, mkBW (Some f') b')
      | None => ret (None, mkBW (Some f') EmptyString)
      end
  end.

Definition chunk : Z := Z.shiftl 1 24.

(** Sync writes the in-memory buffer to a temp file once it has grown
    to [chunk] bytes. *)
Definition Sync (bw : bufferedWriter) : IO (option error * bufferedWriter) :=
  if (Len (buf bw) <? chunk)%Z then ret (None, bw)
  else
    match tmp bw with
    | None =>
        let* r := os.TempFile in
        match r with
        | Err _ =>
            (* can not use local storage *)
            ret (None, bw)
        | Ok f => Flush (mkBW (Some f) (buf bw))
        end
    | Some _ => Flush bw
    end.

(** Reader provides read-access to the underlying buffer/file.  The
    section reader over the file reads at explicit offsets and leaves
    the cursor alone; its reads are one more system call. *)
Definition Reader (bw : bufferedWriter) : IO (result Reader * bufferedWriter) :=
  match tmp bw with
  | None => ret (Ok (mkReader (buf bw) None), bw)
  | Some _ =>
      let* (err, bw1) := Flush bw in
      match err with
      | Some e => ret (Err e, bw1)
      | None =>
          match tmp bw1 with
          | None => ret (Ok (mkReader (buf bw1) None), bw1)
          | Some f =>
              let* r := os.Stat f in
              match r with
              | Err e => ret (Err e, bw1)
              | Ok size =>
                  let* o := syscall in
                  let view := take (Z.to_nat size) (fdata f) in
                  match o with
                  | IOok => ret (Ok (mkReader view None), bw1)
                  | IOfail m =>
                      ret (Ok (mkReader (take m view) (Some (errIO "read"))), bw1)
                  end
              end
          end
      end
  end.

Definition MinRead : Z := 512.

(** Bytes returns the entire content of the bufferedWriter. *)
Definition Bytes (bw : bufferedWriter) : IO (result string * bufferedWriter) :=
  match tmp bw with
  | None => ret (Ok (buf bw), bw)
  | Some _ =>
      let* (err, bw1) := Flush bw in
      match err with
      | Some e => ret (Err e, bw1)
      | None =>
          match tmp bw1 with
          | None => ret (Ok (buf bw1), bw1)
          | Some f =>
              let* st := os.Stat f in
              let tooLarge :=
                match st with
                | Ok fsize =>
                    let size := to_int64 (fsize + MinRead) in
                    (size >? MinRead)%Z && negb (to_int64 (to_int size) =? size)%Z
                | Err _ => false
                end in
              if tooLarge then ret (Err ErrTooLarge, bw1)
              else
                let* (e, f1) := os.Seek0 f in
                match e with
                | Some e => ret (Err e, mkBW (Some f1) (buf bw1))
                | None =>
                    let* (b, e, f2) := os.ReadAll f1 in
                    match e with
                    | Some e => ret (Err e, mkBW (Some f2) (buf bw1))
                    | None => ret (Ok b, mkBW (Some f2) (buf bw1))
                    end
                end
          end
      end
  end.

(** Close the underlying temp file and reset the in-memory buffer.
    The removal of the file is deferred, so it runs after the close
    and whatever the close returned. *)
Definition Close (bw : bufferedWriter) : IO (option error * bufferedWriter) :=
  match tmp bw with
  | None => ret (None, mkBW None EmptyString)
  | Some f =>
      let* (e, f1) := os.Close f in
      let* f2 := os.Remove f1 in
      ret (e, mkBW (Some f2) EmptyString)
  end.

End bufferedWriter.

(** ** Cells and cell values *)

(** [xml.Name] and [xml.Attr]. *)
Record xmlName := mkName { Space : string; Local : string }.
Record xmlAttr := mkAttr { Name : xmlName; Value : string }.

Definition noAttr : xmlAttr := mkAttr (mkName EmptyString EmptyString) EmptyString.

(** The fields of [xlsxC] that the stream writer reads or writes. *)
Module xlsxC.
Record t := mk {
  XMLSpace : xmlAttr;
  R : string;
  S : Z;
  T : string;
  V : string
}.
End xlsxC.

(** The dynamic types that [setCellValFunc] and [setCellIntFunc]
    distinguish. *)
Inductive IntKind :=
| Kint | Kint8 | Kint16 | Kint32 | Kint64
| Kuint | Kuint8 | Kuint16 | Kuint32 | Kuint64.

(** A [time.Time]: an instant and the name of its location. *)
Record Time := mkTime { instant : Z; location : string }.

(** An [interface{}] value handed to [SetRow].  A floating-point number
    is carried by its IEEE-754 binary64 bit pattern (the conversion
    [float64(val)] of a [float32] is exact); [Vother] stands for a value
    of any other dynamic type, [VCell] for a [Cell], [VCellPtr] for a
    non-nil [*Cell] and [VCellNil] for a nil [*Cell]. *)
Inductive CellValue :=
| Vint (k : IntKind) (n : Z)
| Vfloat32 (f : Z)
| Vfloat64 (f : Z)
| Vstring (s : string)
| Vbytes (b : string)
| Vduration (d : Z)
| Vtime (t : Time)
| Vbool (b : bool)
| Vnil
| VCell (StyleID : Z) (v : CellValue)
| VCellPtr (StyleID : Z) (v : CellValue)
| VCellNil
| Vother (tag : string).

(** ** The owning document *)

(** The worksheet skeleton: its fields in declaration order, each
    carried by the markup that [xml.Encoder.Encode] produces for it (a
    nil field produces none). *)
Record xlsxWorksheet := mkWorksheet { wsFields : list string }.

Record formatTable := mkFormatTable {
  TableName : string;
  TableStyle : string;
  ShowFirstColumn : bool;
  ShowLastColumn : bool;
  ShowRowStripes : bool;
  ShowColumnStripes : bool
}.

Record xlsxTableColumn := mkTableColumn { tcID : Z; tcName : string }.

Record xlsxTable := mkTable {
  tblID : Z;
  tblName : string;
  tblDisplayName : string;
  tblRef : string;
  tblAutoFilterRef : string;
  tblColumnsCount : Z;
  tblColumns : list xlsxTableColumn;
  tblStyle : formatTable
}.

(** The parts of [File] that the stream writer touches; [packaging]
    stands for the relationship and content-type registries, which only
    the packaging helpers read and write. *)
Record File := mkFile {
  XLSX : gmap string string;
  Sheet : gmap string xlsxWorksheet;
  checked : gmap string bool;
  sheetMap : gmap string string;
  packaging : list string
}.

(** The rectangle [coordinates] of [AddTable]: a slice of exactly four
    integers, [col1, row1, col2, row2]. *)
Definition Coordinates : Type := Z * Z * Z * Z.

(** ** Collaborators outside stream.go

    Functions of the package that [stream.go] calls and that live in
    other files.  The development is parametric in them; they never see
    the stream writer's buffer. *)
Class Package := {
  CellNameToCoordinates : string -> result (Z * Z);
  CoordinatesToCellName : Z -> Z -> result string;
  setCellInt : Z -> string * string;
  setCellFloat : Z -> Z -> Z -> string * string;
  setCellStr : string -> string * string * xmlAttr;
  setCellDuration : Z -> string * string;
  setCellTime : Time -> string * string * bool * option error;
  setCellBool : bool -> string * string;
  Sprint : CellValue -> string;
  parseFormatTableSet : string -> result formatTable;
  areaRangeToCoordinates : string -> string -> result Coordinates;
  coordinatesToAreaRef : Coordinates -> result string;
  countTables : File -> Z;
  trimSheetName : string -> string;
  addRels : File -> string -> string -> string -> string -> Z * File;
  addContentTypePart : File -> Z -> string -> File;
  saveFileList : File -> string -> string -> File;
  marshalTable : xlsxTable -> string;
  GetSheetIndex : File -> string -> Z;
  workSheetReader : File -> string -> result xlsxWorksheet * File;
  XMLHeader : string;
  templateNamespaceIDMap : string;
  SourceRelationshipTable : string
}.

(** ** StreamWriter *)

Record StreamWriter := mkSW {
  SWFile : File;
  SWSheet : string;
  SheetID : Z;
  worksheet : xlsxWorksheet;
  rawData : bufferedWriter;
  tableParts : string
}.

Definition set_rawData (sw : StreamWriter) (bw : bufferedWriter) : StreamWriter :=
  mkSW (SWFile sw) (SWSheet sw) (SheetID sw) (worksheet sw) bw (tableParts sw).

Definition set_File (sw : StreamWriter) (f : File) : StreamWriter :=
  mkSW f (SWSheet sw) (SheetID sw) (worksheet sw) (rawData sw) (tableParts sw).

Definition set_tableParts (sw : StreamWriter) (tp : string) : StreamWriter :=
  mkSW (SWFile sw) (SWSheet sw) (SheetID sw) (worksheet sw) (rawData sw) tp.

(** ** The cell encoder *)

Section Encoder.
Context `{Package}.

(** setCellIntFunc is a wrapper of SetCellInt: every integer kind is
    converted to [int] first. *)
Definition setCellIntFunc (c : xlsxC.t) (k : IntKind) (n : Z)
  : xlsxC.t * option error :=
  let '(t, v) := setCellInt (to_int n) in
  (xlsxC.mk (xlsxC.XMLSpace c) (xlsxC.R c) (xlsxC.S c) t v, None).

Definition withTV (c : xlsxC.t) (tv : string * string) : xlsxC.t :=
  xlsxC.mk (xlsxC.XMLSpace c) (xlsxC.R c) (xlsxC.S c) (fst tv) (snd tv).

Definition withStr (c : xlsxC.t) (r : string * string * xmlAttr) : xlsxC.t :=
  let '(t, v, ns) := r in
  xlsxC.mk ns (xlsxC.R c) (xlsxC.S c) t v.

(** setCellValFunc provides a function to set value of a cell. *)
Definition setCellValFunc (c : xlsxC.t) (val : CellValue)
  : xlsxC.t * option error :=
  match val with
  | Vint k n => setCellIntFunc c k n
  | Vfloat32 f => (withTV c (setCellFloat f (-1) 32), None)
  | Vfloat64 f => (withTV c (setCellFloat f (-1) 64), None)
  | Vstring s => (withStr c (setCellStr s), None)
  | Vbytes b => (withStr c (setCellStr b), None)
  | Vduration d => (withTV c (setCellDuration d), None)
  | Vtime t =>
      let '(ty, v, _, err) := setCellTime t in
      (withTV c (ty, v), err)
  | Vbool b => (withTV c (setCellBool b), None)
  | Vnil => (withStr c (setCellStr EmptyString), None)
  | _ => (withStr c (setCellStr (Sprint val)), None)
  end.

(** The two type assertions of [SetRow] that unwrap a [Cell] or a
    non-nil [*Cell] into its style and its value. *)
Definition unwrapCell (c : xlsxC.t) (val : CellValue) : xlsxC.t * CellValue :=
  match val with
  | VCell s v => (xlsxC.mk (xlsxC.XMLSpace c) (xlsxC.R c) s (xlsxC.T c) (xlsxC.V c), v)
  | VCellPtr s v =>
      (xlsxC.mk (xlsxC.XMLSpace c) (xlsxC.R c) s (xlsxC.T c) (xlsxC.V c), v)
  | _ => (c, val)
  end.

End Encoder.

(** ** Writing cells and rows *)

Definition byteZ (c : ascii) : Z := Z.of_N (N_of_ascii c).
Definition byteOf (z : Z) : ascii := ascii_of_N (Z.to_N z).

Definition isEmpty (s : string) : bool :=
  match s with EmptyString => true | _ => false end.

Definition RuneError : Z := 0xFFFD.

(** [utf8.DecodeRune]: the first rune of [s] and its width in bytes;
    [(RuneError, 1)] for an invalid encoding. *)
Definition DecodeRune (s : string) : Z * nat :=
  match s with
  | EmptyString => (RuneError, O)
  | String p0 rest =>
      let b0 := byteZ p0 in
      if b0 <? 0x80 then (b0, 1%nat)
      else if (b0 <? 0xC2) || (0xF4 <? b0) then (RuneError, 1%nat)
      else
        let lo := if b0 =? 0xE0 then 0xA0 else if b0 =? 0xF0 then 0x90 else 0x80 in
        let hi := if b0 =? 0xED then 0x9F else if b0 =? 0xF4 then 0x8F else 0xBF in
        let cont (c : ascii) := (0x80 <=? byteZ c) && (byteZ c <=? 0xBF) in
        let low6 (c : ascii) := Z.land (byteZ c) 0x3F in
        match rest with
        | EmptyString => (RuneError, 1%nat)
        | String p1 rest1 =>
            if negb ((lo <=? byteZ p1) && (byteZ p1 <=? hi)) then (RuneError, 1%nat)
            else if b0 <? 0xE0 then
              (Z.lor (Z.shiftl (Z.land b0 0x1F) 6) (low6 p1), 2%nat)
            else
              match rest1 with
              | EmptyString => (RuneError, 1%nat)
              | String p2 rest2 =>
                  if negb (cont p2) then (RuneError, 1%nat)
                  else if b0 <? 0xF0 then
                    (Z.lor (Z.shiftl (Z.land b0 0x0F) 12)
                       (Z.lor (Z.shiftl (low6 p1) 6) (low6 p2)), 3%nat)
                  else
                    match rest2 with
                    | EmptyString => (RuneError, 1%nat)
                    | String p3 _ =>
                        if negb (cont p3) then (RuneError, 1%nat)
                        else
                          (Z.lor (Z.shiftl (Z.land b0 0x07) 18)
                             (Z.lor (Z.shiftl (low6 p1) 12)
                                (Z.lor (Z.shiftl (low6 p2) 6) (low6 p3))), 4%nat)
                    end
              end
        end
  end.

(** The character range of XML 1.0 (section 2.2), as [encoding/xml]
    checks it. *)
Definition isInCharacterRange (r : Z) : bool :=
  (r =? 0x09) || (r =? 0x0A) || (r =? 0x0D)
  || ((0x20 <=? r) && (r <=? 0xD7FF))
  || ((0xE000 <=? r) && (r <=? 0xFFFD))
  || ((0x10000 <=? r) && (r <=? 0x10FFFF)).

(** The UTF-8 encoding of U+FFFD. *)
Definition escFFFD : string :=
  String (byteOf 0xEF) (String (byteOf 0xBF) (String (byteOf 0xBD) EmptyString)).

(** What [xml.EscapeText] writes for one rune [r] that was decoded from
    the [width] bytes [raw]. *)
Definition escapeRune (r : Z) (width : nat) (raw : string) : string :=
  if r =? 34 then "&#34;"
  else if r =? 39 then "&#39;"
  else if r =? 38 then "&amp;"
  else if r =? 60 then "&lt;"
  else if r =? 62 then "&gt;"
  else if r =? 9 then "&#x9;"
  else if r =? 10 then "&#xA;"
  else if r =? 13 then "&#xD;"
  else if negb (isInCharacterRange r) || ((r =? RuneError) && (width =? 1)%nat)
       then escFFFD
       else raw.

(** [xml.EscapeText]: rune by rune; [skip] counts the bytes of the
    current rune that are still to be passed over. *)
Fixpoint escapeFrom (skip : nat) (s : string) : string :=
  match s with
  | EmptyString => EmptyString
  | String _ rest =>
      match skip with
      | S k => escapeFrom k rest
      | O =>
          let (r, width) := DecodeRune s in
          escapeRune r width (take width s) ++ escapeFrom (width - 1) rest
      end
  end.

Definition EscapeText (s : string) : string := escapeFrom 0 s.

Section RowEmitter.
Context `{Package}.

Import bufferedWriter.

Definition writeCell (buf : bufferedWriter) (c : xlsxC.t) : bufferedWriter :=
  let buf := WriteString buf "<c" in
  let buf :=
    if negb (isEmpty (Value (xlsxC.XMLSpace c))) then
      Write buf (" xml:" ++ Local (Name (xlsxC.XMLSpace c)) ++ "=" ++ dq
                 ++ Value (xlsxC.XMLSpace c) ++ dq)
    else buf in
  let buf := Write buf (" r=" ++ dq ++ xlsxC.R c ++ dq) in
  let buf :=
    if negb (xlsxC.S c =? 0) then
      Write buf (" s=" ++ dq ++ Itoa (xlsxC.S c) ++ dq)
    else buf in
  let buf :=
    if negb (isEmpty (xlsxC.T c)) then
      Write buf (" t=" ++ dq ++ xlsxC.T c ++ dq)
    else buf in
  let buf := WriteString buf ">" in
  let buf :=
    if negb (isEmpty (xlsxC.V c)) then
      let buf := WriteString buf "<v>" in
      let buf := Write buf (EscapeText (xlsxC.V c)) in
      WriteString buf "</v>"
    else buf in
  WriteString buf "</c>".

Definition newC (axis : string) : xlsxC.t :=
  xlsxC.mk noAttr axis 0 EmptyString EmptyString.

(** The loop of [SetRow] over [values], from index [i] on.  The result
    tells whether the loop returned from [SetRow] ([Some err]) or ran
    to its end ([None]). *)
Fixpoint setRowCells (col row i : Z) (values : list CellValue)
    (buf : bufferedWriter) : option error * bufferedWriter :=
  match values with
  | [] => (None, buf)
  | val :: rest =>
      match CoordinatesToCellName (col + i) row with
      | Err err => (Some err, buf)
      | Ok axis =>
          let (c, val) := unwrapCell (newC axis) val in
          match setCellValFunc c val with
          | (_, Some err) => (Some err, WriteString buf "</row>")
          | (c, None) => setRowCells col row (i + 1) rest (writeCell buf c)
          end
      end
  end.

(** SetRow writes an array to stream rows by giving a starting
    coordinate and the values. *)
Definition SetRow (sw : StreamWriter) (axis : string) (values : list CellValue)
  : IO (option error * StreamWriter) :=
  match CellNameToCoordinates axis with
  | Err err => ret (Some err, sw)
  | Ok (col, row) =>
      let buf := Write (rawData sw) ("<row r=" ++ dq ++ Itoa row ++ dq ++ ">") in
      match setRowCells col row 0 values buf with
      | (Some err, buf) => ret (Some err, set_rawData sw buf)
      | (None, buf) =>
          let buf := WriteString buf "</row>" in
          let* (err, buf) := Sync buf in
          ret (err, set_rawData sw buf)
      end
  end.

End RowEmitter.

(** ** encoding/xml: the decoder

    [getRowValues] reads the buffer through an [xml.Decoder].  The
    decoder is modelled for the markup that matters here: processing
    instructions, start, end and self-closing tags with quoted
    attributes, and character data with the predefined and the numeric
    entities, in strict mode.  Input that leaves this fragment (comments,
    CDATA sections, directives, names or entities beyond ASCII) ends the
    token stream with an error of kind [OutsideModel], about which
    nothing is stated.  Namespace prefixes are kept as written in
    [Space]; the stream writer only ever reads [Local]. *)

Inductive Token :=
| StartElement (name : xmlName) (attr : list xmlAttr)
| EndElement (name : xmlName)
| CharData (data : string)
| ProcInst (target : string) (inst : string).

(** How a token stream ends: [io.EOF], or an error. *)
Inductive Terminal :=
| EOF
| Failed (e : error).

Module xml.

Definition OutsideModel : error :=
  mkError DecodeError "outside the modelled fragment of XML".
Definition SyntaxError (m : string) : error :=
  mkError DecodeError ("XML syntax error: " ++ m).
Definition UnexpectedEOF : error := SyntaxError "unexpected EOF".

Definition snoc (s : string) (c : ascii) : string := s ++ String c EmptyString.

Definition inRange (lo hi : Z) (c : ascii) : bool :=
  (lo <=? byteZ c) && (byteZ c <=? hi).

Definition isLetter (c : ascii) : bool := inRange 65 90 c || inRange 97 122 c.
Definition isDigit (c : ascii) : bool := inRange 48 57 c.
Definition isHexDigit (c : ascii) : bool :=
  isDigit c || inRange 97 102 c || inRange 65 70 c.
Definition isByte (n : Z) (c : ascii) : bool := byteZ c =? n.

(** [isNameByte], for ASCII. *)
Definition isNameByte (c : ascii) : bool :=
  isLetter c || isDigit c || isByte 95 c || isByte 58 c || isByte 46 c || isByte 45 c.

(** The bytes skipped by [d.space()]. *)
Definition isSpace (c : ascii) : bool :=
  isByte 32 c || isByte 13 c || isByte 10 c || isByte 9 c.

(** [isName], for ASCII: a letter, an underscore or a colon first. *)
Definition isName (s : string) : bool :=
  match s with
  | EmptyString => false
  | String c _ => isLetter c || isByte 95 c || isByte 58 c
  end.

Fixpoint countColons (s : string) : nat :=
  match s with
  | EmptyString => O
  | String c s' => ((if isByte 58 c then 1 else 0) + countColons s')%nat
  end.

Fixpoint splitColon (acc s : string) : string * string :=
  match s with
  | EmptyString => (acc, EmptyString)
  | String c s' => if isByte 58 c then (acc, s') else splitColon (snoc acc c) s'
  end.

(** [d.nsname()]: the name split at its colon; [None] where the
    versions of the library disagree. *)
Definition nsname (s : string) : option xmlName :=
  match countColons s with
  | O => Some (mkName EmptyString s)
  | 1%nat =>
      let (sp, lo) := splitColon EmptyString s in
      if isEmpty sp || isEmpty lo then None else Some (mkName sp lo)
  | _ => None
  end.

(** *** Character data and attribute values: [d.text] *)

Fixpoint digitsValue (base : Z) (acc : Z) (s : string) : option Z :=
  match s with
  | EmptyString => Some acc
  | String c s' =>
      let d :=
        if isDigit c then Some (byteZ c - 48)
        else if (base =? 16) && inRange 97 102 c then Some (byteZ c - 87)
        else if (base =? 16) && inRange 65 70 c then Some (byteZ c - 55)
        else None in
      match d with
      | Some d => digitsValue base (acc * base + d) s'
      | None => None
      end
  end.

Definition MaxRune : Z := 0x10FFFF.

(** The replacement of the entity [&body;]. *)
Definition entity (body : string) : result string :=
  let bad := Err (SyntaxError "invalid character entity") in
  let numeric (base : Z) (ds : string) :=
    if isEmpty ds then bad
    else match digitsValue base 0 ds with
         | None => bad
         | Some n =>
             if MaxRune <? n then bad
             else if n <? 128 then Ok (String (byteOf n) EmptyString)
             else Err OutsideModel
         end in
  match body with
  | "lt" => Ok "<"
  | "gt" => Ok ">"
  | "amp" => Ok "&"
  | "apos" => Ok "'"
  | "quot" => Ok dq
  | String "#" (String "x" ds) => numeric 16 ds
  | String "#" ds => numeric 10 ds
  | _ => bad
  end.

(** Every rune is valid UTF-8 and in the character range. *)
Fixpoint validFrom (skip : nat) (s : string) : bool :=
  match s with
  | EmptyString => true
  | String _ rest =>
      match skip with
      | S k => validFrom k rest
      | O =>
          let (r, width) := DecodeRune s in
          negb ((r =? RuneError) && (width =? 1)%nat)
          && isInCharacterRange r && validFrom (width - 1) rest
      end
  end.

(** The state of [d.text] between two bytes: the text decoded so far,
    the entity being read if any, and the last two raw bytes [b0] and
    [b1] (zero after an entity). *)
Record TextState := mkTS {
  tsOut : string;
  tsEnt : option string;
  tsB0 : ascii;
  tsB1 : ascii;
  tsErr : option error
}.

Definition textInit : TextState := mkTS EmptyString None zero zero None.

Definition textStep (st : TextState) (b : ascii) : TextState :=
  match tsErr st with
  | Some _ => st
  | None =>
      match tsEnt st with
      | Some body =>
          if isByte 59 b then
            match entity body with
            | Ok t => mkTS (tsOut st ++ t) None zero zero None
            | Err e => mkTS (tsOut st) None zero zero (Some e)
            end
          else if isNameByte b || isByte 35 b then
            mkTS (tsOut st) (Some (snoc body b)) zero zero None
          else if inRange 128 255 b then
            mkTS (tsOut st) None zero zero (Some OutsideModel)
          else
            mkTS (tsOut st) None zero zero
                 (Some (SyntaxError "invalid character entity (no semicolon)"))
      | None =>
          if isByte 93 (tsB0 st) && isByte 93 (tsB1 st) && isByte 62 b then
            mkTS (tsOut st) None zero zero
                 (Some (SyntaxError "unescaped ]]> not in CDATA section"))
          else if isByte 38 b then
            mkTS (tsOut st) (Some EmptyString) zero zero None
          else if isByte 13 b then
            mkTS (snoc (tsOut st) (byteOf 10)) None (tsB1 st) b None
          else if isByte 13 (tsB1 st) && isByte 10 b then
            mkTS (tsOut st) None (tsB1 st) b None
          else
            mkTS (snoc (tsOut st) b) None (tsB1 st) b None
      end
  end.

Fixpoint textRun (st : TextState) (raw : string) : TextState :=
  match raw with
  | EmptyString => st
  | String b raw' => textRun (textStep st b) raw'
  end.

(** The text that [d.text] returns for the raw bytes [raw]. *)
Definition decodeText (raw : string) : result string :=
  let st := textRun textInit raw in
  match tsErr st with
  | Some e => Err e
  | None =>
      match tsEnt st with
      | Some _ => Err (SyntaxError "invalid character entity")
      | None =>
          if validFrom 0 (tsOut st) then Ok (tsOut st)
          else Err (SyntaxError "illegal character code")
      end
  end.

End xml.

(** *** The tokenizer: [Decoder.Token]

    One pass over the bytes.  [Mode] says where in the markup the
    decoder stands; a byte that ends a name is handed on to the mode
    that follows, as [ungetc] does. *)
Module lexer.

Import xml.

Inductive Mode :=
| MText (raw : string)
| MLt
| MStartName (acc : string)
| MAttrs (name : xmlName) (attrs : list xmlAttr)
| MSlash (name : xmlName) (attrs : list xmlAttr)
| MAttrName (name : xmlName) (attrs : list xmlAttr) (acc : string)
| MAttrEq (name : xmlName) (attrs : list xmlAttr) (an : xmlName)
| MAttrQuote (name : xmlName) (attrs : list xmlAttr) (an : xmlName)
| MAttrVal (name : xmlName) (attrs : list xmlAttr) (an : xmlName)
           (quote : ascii) (raw : string)
| MEndName (acc : string)
| MEndSpace (name : xmlName)
| MPITarget (acc : string)
| MPISpace (target : string)
| MPIBody (target : string) (raw : string) (b0 : ascii)
| MFailed (e : error).

(** The tokens delivered so far, the stack of open elements (innermost
    first) and the mode. *)
Record State := mkState {
  out : list Token;
  stack : list xmlName;
  mode : Mode
}.

Definition init : State := mkState [] [] (MText EmptyString).

Definition fail (st : State) (e : error) : State :=
  mkState (out st) (stack st) (MFailed e).

Definition goto (st : State) (m : Mode) : State :=
  mkState (out st) (stack st) m.

Definition emit (st : State) (t : Token) (stk : list xmlName) (m : Mode) : State :=
  mkState (out st ++ [t])%list stk m.

(** A name that was read completely: valid, and split at its colon. *)
Definition readName (acc : string) (missing : string) : result xmlName :=
  if isEmpty acc then Err (SyntaxError missing)
  else if negb (isName acc) then Err (SyntaxError "invalid XML name")
  else match nsname acc with
       | Some n => Ok n
       | None => Err OutsideModel
       end.

Definition nameEq (a b : xmlName) : bool :=
  String.eqb (Space a) (Space b) && String.eqb (Local a) (Local b).

(** The header that the package writes in front of every part. *)
Definition xmlDecl : string :=
  "version=" ++ dq ++ "1.0" ++ dq ++ " encoding=" ++ dq ++ "UTF-8" ++ dq
  ++ " standalone=" ++ dq ++ "yes" ++ dq.

Definition stepAttrQuote (st : State) name attrs an (c : ascii) : State :=
  if isSpace c then goto st (MAttrQuote name attrs an)
  else if isByte 34 c || isByte 39 c then
    goto st (MAttrVal name attrs an c EmptyString)
  else fail st (SyntaxError "unquoted or missing attribute value in element").

Definition stepAttrEq (st : State) name attrs an (c : ascii) : State :=
  if isSpace c then goto st (MAttrEq name attrs an)
  else if isByte 61 c then goto st (MAttrQuote name attrs an)
  else fail st (SyntaxError "attribute name without = in element").

Definition stepAttrName (st : State) name attrs acc (c : ascii) : State :=
  if isNameByte c then goto st (MAttrName name attrs (snoc acc c))
  else if inRange 128 255 c then fail st OutsideModel
  else match readName acc "expected attribute name in element" with
       | Err e => fail st e
       | Ok an => stepAttrEq st name attrs an c
       end.

Definition stepAttrs (st : State) name attrs (c : ascii) : State :=
  if isSpace c then goto st (MAttrs name attrs)
  else if isByte 47 c then goto st (MSlash name attrs)
  else if isByte 62 c then
    emit st (StartElement name attrs) (name :: stack st) (MText EmptyString)
  else stepAttrName st name attrs EmptyString c.

Definition stepStartName (st : State) acc (c : ascii) : State :=
  if isNameByte c then goto st (MStartName (snoc acc c))
  else if inRange 128 255 c then fail st OutsideModel
  else match readName acc "expected element name after <" with
       | Err e => fail st e
       | Ok name => stepAttrs st name [] c
       end.

Definition stepEndSpace (st : State) name (c : ascii) : State :=
  if isSpace c then goto st (MEndSpace name)
  else if isByte 62 c then
    match stack st with
    | [] => fail st (SyntaxError "unexpected end element")
    | top :: stk =>
        if nameEq top name then emit st (EndElement name) stk (MText EmptyString)
        else if String.eqb (Local top) (Local name) then fail st OutsideModel
        else fail st (SyntaxError "element closed by another")
    end
  else fail st (SyntaxError "invalid characters between </ and >").

Definition stepEndName (st : State) acc (c : ascii) : State :=
  if isNameByte c then goto st (MEndName (snoc acc c))
  else if inRange 128 255 c then fail st OutsideModel
  else match readName acc "expected element name after </" with
       | Err e => fail st e
       | Ok name => stepEndSpace st name c
       end.

Definition stepPIBody (st : State) target raw (b0 c : ascii) : State :=
  if isByte 63 b0 && isByte 62 c then
    let inst := take (String.length raw - 1) raw in
    if String.eqb target "xml" && negb (String.eqb inst xmlDecl)
    then fail st OutsideModel
    else emit st (ProcInst target inst) (stack st) (MText EmptyString)
  else goto st (MPIBody target (snoc raw c) c).

Definition stepPISpace (st : State) target (c : ascii) : State :=
  if isSpace c then goto st (MPISpace target)
  else stepPIBody st target EmptyString zero c.

Definition stepPITarget (st : State) acc (c : ascii) : State :=
  if isNameByte c then goto st (MPITarget (snoc acc c))
  else if inRange 128 255 c then fail st OutsideModel
  else if isEmpty acc || negb (isName acc) then
    fail st (SyntaxError "expected target name after <?")
  else stepPISpace st acc c.

Definition step (st : State) (c : ascii) : State :=
  match mode st with
  | MFailed _ => st
  | MText raw =>
      if isByte 60 c then
        if isEmpty raw then goto st MLt
        else match decodeText raw with
             | Ok data => emit st (CharData data) (stack st) MLt
             | Err e => fail st e
             end
      else goto st (MText (snoc raw c))
  | MLt =>
      if isByte 47 c then goto st (MEndName EmptyString)
      else if isByte 63 c then goto st (MPITarget EmptyString)
      else if isByte 33 c then fail st OutsideModel
      else stepStartName st EmptyString c
  | MStartName acc => stepStartName st acc c
  | MAttrs name attrs => stepAttrs st name attrs c
  | MSlash name attrs =>
      if isByte 62 c then
        mkState (out st ++ [StartElement name attrs; EndElement name])%list
                (stack st) (MText EmptyString)
      else fail st (SyntaxError "expected /> in element")
  | MAttrName name attrs acc => stepAttrName st name attrs acc c
  | MAttrEq name attrs an => stepAttrEq st name attrs an c
  | MAttrQuote name attrs an => stepAttrQuote st name attrs an c
  | MAttrVal name attrs an quote raw =>
      if Ascii.eqb c quote then
        match decodeText raw with
        | Ok v => goto st (MAttrs name (attrs ++ [mkAttr an v])%list)
        | Err e => fail st e
        end
      else if isByte 60 c then
        fail st (SyntaxError "unescaped < inside quoted string")
      else goto st (MAttrVal name attrs an quote (snoc raw c))
  | MEndName acc => stepEndName st acc c
  | MEndSpace name => stepEndSpace st name c
  | MPITarget acc => stepPITarget st acc c
  | MPISpace target => stepPISpace st target c
  | MPIBody target raw b0 => stepPIBody st target raw b0 c
  end.

Fixpoint run (st : State) (s : string) : State :=
  match s with
  | EmptyString => st
  | String c s' => run (step st c) s'
  end.

(** The end of the input: [rerr] is the error of the reader, if it
    failed.  Pending character data is delivered at a clean end only;
    an element still open then makes the end unexpected. *)
Definition finish (rerr : option error) (st : State) : list Token * Terminal :=
  match mode st with
  | MFailed e => (out st, Failed e)
  | MText raw =>
      match rerr with
      | Some e => (out st, Failed e)
      | None =>
          let close (toks : list Token) :=
            match stack st with
            | [] => (toks, EOF)
            | _ => (toks, Failed UnexpectedEOF)
            end in
          if isEmpty raw then close (out st)
          else match decodeText raw with
               | Ok data => close (out st ++ [CharData data])%list
               | Err e => (out st, Failed e)
               end
      end
  | _ =>
      match rerr with
      | Some e => (out st, Failed e)
      | None => (out st, Failed UnexpectedEOF)
      end
  end.

(** All the tokens of a reader, and how the stream ends. *)
Definition tokens (r : Reader) : list Token * Terminal :=
  finish (rerr r) (run init (rdata r)).

End lexer.

(** ** The partial scanner *)

Definition MaxInt64 : Z := 2 ^ 63 - 1.
Definition MinInt64 : Z := - 2 ^ 63.

(** A decimal number with an optional sign, as [strconv] reads it in
    base 10. *)
Definition parseDecimal (s : string) : option Z :=
  let digits (ds : string) :=
    if isEmpty ds then None else xml.digitsValue 10 0 ds in
  match s with
  | String "+" ds => digits ds
  | String "-" ds => option_map Z.opp (digits ds)
  | _ => digits s
  end.

(** [n, _ := strconv.Atoi(s)]: zero on a syntax error, the nearest
    bound when the number is out of range. *)
Definition Atoi (s : string) : Z :=
  match parseDecimal s with
  | None => 0
  | Some n => Z.max MinInt64 (Z.min MaxInt64 n)
  end.

(** The part of [xlsxRow] that the scanner reads. *)
Module xlsxRow.
Record t := mk { R : Z; C : list xlsxC.t }.
End xlsxRow.

Definition errEOF : error := mkError DecodeError "EOF".
Definition errPanic (m : string) : error := mkError RuntimePanic m.

Module unmarshal.

Import xml.

(** An integer attribute, for values written as plain decimals. *)
Definition intAttr (v : string) : result Z :=
  match parseDecimal v with
  | Some n => if (MinInt64 <=? n) && (n <=? MaxInt64) then Ok n else Err OutsideModel
  | None => Err OutsideModel
  end.

(** The attributes of a [c] element, copied into the fields [r], [s],
    [t] and [space] of [xlsxC]. *)
Fixpoint cellAttrs (c : xlsxC.t) (attrs : list xmlAttr) : result xlsxC.t :=
  match attrs with
  | [] => Ok c
  | a :: rest =>
      let n := Local (Name a) in
      if String.eqb n "r" then
        cellAttrs (xlsxC.mk (xlsxC.XMLSpace c) (Value a) (xlsxC.S c) (xlsxC.T c) (xlsxC.V c)) rest
      else if String.eqb n "s" then
        match intAttr (Value a) with
        | Ok s => cellAttrs (xlsxC.mk (xlsxC.XMLSpace c) (xlsxC.R c) s (xlsxC.T c) (xlsxC.V c)) rest
        | Err e => Err e
        end
      else if String.eqb n "t" then
        cellAttrs (xlsxC.mk (xlsxC.XMLSpace c) (xlsxC.R c) (xlsxC.S c) (Value a) (xlsxC.V c)) rest
      else if String.eqb n "space" then
        cellAttrs (xlsxC.mk a (xlsxC.R c) (xlsxC.S c) (xlsxC.T c) (xlsxC.V c)) rest
      else Err OutsideModel
  end.

(** The attributes of the [row] element: only [r] is modelled. *)
Fixpoint rowAttrs (r : Z) (attrs : list xmlAttr) : result Z :=
  match attrs with
  | [] => Ok r
  | a :: rest =>
      if String.eqb (Local (Name a)) "r" then
        match intAttr (Value a) with
        | Ok r => rowAttrs r rest
        | Err e => Err e
        end
      else Err OutsideModel
  end.

(** Where [DecodeElement] stands below the [row] element. *)
Inductive Where :=
| InRow
| InCell (c : xlsxC.t) (hasV : bool)
| InV (c : xlsxC.t) (data : string).

Definition emptyC : xlsxC.t := xlsxC.mk noAttr EmptyString 0 EmptyString EmptyString.

(** The children of the [row] element, up to its end tag. *)
Fixpoint children (w : Where) (cells : list xlsxC.t)
    (toks : list Token) (term : Terminal) : result (list xlsxC.t) :=
  match toks with
  | [] => Err (match term with Failed e => e | EOF => errEOF end)
  | t :: rest =>
      match w, t with
      | InRow, EndElement _ => Ok cells
      | InRow, StartElement n attrs =>
          if String.eqb (Local n) "c" then
            match cellAttrs emptyC attrs with
            | Ok c => children (InCell c false) cells rest term
            | Err e => Err e
            end
          else Err OutsideModel
      | InRow, _ => children InRow cells rest term
      | InCell c _, EndElement _ => children InRow (cells ++ [c])%list rest term
      | InCell c hasV, StartElement n attrs =>
          if String.eqb (Local n) "v" && negb hasV
             && match attrs with [] => true | _ => false end
          then children (InV c EmptyString) cells rest term
          else Err OutsideModel
      | InCell c hasV, _ => children (InCell c hasV) cells rest term
      | InV c data, CharData d => children (InV c (data ++ d)) cells rest term
      | InV c data, EndElement _ =>
          children
            (InCell (xlsxC.mk (xlsxC.XMLSpace c) (xlsxC.R c) (xlsxC.S c) (xlsxC.T c) data) true)
            cells rest term
      | InV c data, StartElement _ _ => Err OutsideModel
      | InV c data, ProcInst _ _ => children (InV c data) cells rest term
      end
  end.

(** [dec.DecodeElement(&row, &startElement)] for an [xlsxRow]. *)
Definition DecodeElement (attrs : list xmlAttr) (toks : list Token) (term : Terminal)
  : result xlsxRow.t :=
  match rowAttrs 0 attrs with
  | Err e => Err e
  | Ok r =>
      match children InRow [] toks term with
      | Err e => Err e
      | Ok cells => Ok (xlsxRow.mk r cells)
      end
  end.

End unmarshal.

(** The attribute loop of [getRowElement]. *)
Fixpoint rowAttrMatches (attrs : list xmlAttr) (hrow : Z) : bool :=
  match attrs with
  | [] => false
  | attr :: rest =>
      if negb (String.eqb (Local (Name attr)) "r") then rowAttrMatches rest hrow
      else if Atoi (Value attr) =? hrow then true
      else rowAttrMatches rest hrow
  end.

(** Check if the token is an XLSX row with the matching row number. *)
Definition getRowElement (token : Token) (hrow : Z) : bool :=
  match token with
  | StartElement name attr =>
      String.eqb (Local name) "row" && rowAttrMatches attr hrow
  | _ => false
  end.

Definition startAttrs (token : Token) : list xmlAttr :=
  match token with
  | StartElement _ attr => attr
  | _ => []
  end.

Section Scanner.
Context `{Package}.

(** The loop over [row.C]. *)
Fixpoint fillCells (cells : list xlsxC.t) (hcol vcol : Z) (res : list string)
  : result (list string) :=
  match cells with
  | [] => Ok res
  | c :: rest =>
      match CellNameToCoordinates (xlsxC.R c) with
      | Err err => Err err
      | Ok (col, _) =>
          if (col <? hcol) || (col >? vcol) then fillCells rest hcol vcol res
          else fillCells rest hcol vcol (<[Z.to_nat (col - hcol) := xlsxC.V c]> res)
      end
  end.

(** The token loop of [getRowValues]. *)
Fixpoint scanTokens (toks : list Token) (term : Terminal) (hrow hcol vcol : Z)
    (res : list string) : result (list string) :=
  match toks with
  | [] =>
      match term with
      | EOF => Ok res
      | Failed err => Err err
      end
  | token :: rest =>
      if getRowElement token hrow then
        match unmarshal.DecodeElement (startAttrs token) rest term with
        | Err err => Err err
        | Ok row => fillCells (xlsxRow.C row) hcol vcol res
        end
      else scanTokens rest term hrow hcol vcol res
  end.

(** Extract values from a row in the StreamWriter. *)
Definition getRowValues (sw : StreamWriter) (hrow hcol vcol : Z)
  : IO (result (list string) * StreamWriter) :=
  if vcol - hcol + 1 <? 0 then
    ret (Err (errPanic "makeslice: len out of range"), sw)
  else
    let res := replicate (Z.to_nat (vcol - hcol + 1)) EmptyString in
    let* (r, buf) := bufferedWriter.Reader (rawData sw) in
    let sw := set_rawData sw buf in
    match r with
    | Err err => ret (Err err, sw)
    | Ok r =>
        let (toks, term) := lexer.tokens r in
        ret (scanTokens toks term hrow hcol vcol res, sw)
    end.

End Scanner.

(** ** Table registration and the end of the stream *)

(** Modelled from the spec: [sortCoordinates] lives outside stream.go.
    The rectangle "must be normalized so top-left precedes bottom-right":
    the two columns are put in ascending order, and so are the two
    rows. *)
Definition sortCoordinates (coordinates : Coordinates) : Coordinates :=
  let '(c0, c1, c2, c3) := coordinates in
  let '(c0, c2) := if c2 <? c0 then (c2, c0) else (c0, c2) in
  let '(c1, c3) := if c3 <? c1 then (c3, c1) else (c1, c3) in
  (c0, c1, c2, c3).

(** Lines 118 to 123 of [AddTable]: the rectangle is sorted, and then
    the minimum number of rows is corrected, the table at least two
    lines. *)
Definition tableArea (coordinates : Coordinates) : Coordinates :=
  let '(c0, c1, c2, c3) := sortCoordinates coordinates in
  if c1 =? c3 then (c0, c1, c2, c3 + 1) else (c0, c1, c2, c3).

(** [strings.TrimPrefix]. *)
Definition TrimPrefix (s prefix : string) : string :=
  if String.prefix prefix s then drop (String.length prefix) s else s.

(** bulkAppendFields bulk-appends fields in a worksheet by specified
    field names order range. *)
Fixpoint bulkAppendFrom (i : Z) (fields : list string) (from to : Z)
    (w : bufferedWriter) : bufferedWriter :=
  match fields with
  | [] => w
  | f :: rest =>
      bulkAppendFrom (i + 1) rest from to
        (if (from <=? i) && (i <=? to) then bufferedWriter.Write w f else w)
  end.

Definition bulkAppendFields (w : bufferedWriter) (ws : xlsxWorksheet) (from to : Z)
  : bufferedWriter :=
  bulkAppendFrom 0 (wsFields ws) from to w.

Section Session.
Context `{Package}.

Import bufferedWriter.

(** NewStreamWriter return stream writer struct by given worksheet
    name. *)
Definition NewStreamWriter (f : File) (sheet : string)
  : result StreamWriter * File :=
  let sheetID := GetSheetIndex f sheet in
  if sheetID =? 0 then
    (Err (mkError AddressingError ("sheet " ++ sheet ++ " is not exist")), f)
  else
    match workSheetReader f sheet with
    | (Err err, f) => (Err err, f)
    | (Ok ws, f) =>
        let buf := WriteString empty (XMLHeader ++ "<worksheet" ++ templateNamespaceIDMap) in
        let buf := bulkAppendFields buf ws 1 5 in
        let buf := WriteString buf "<sheetData>" in
        (Ok (mkSW f sheet sheetID ws buf EmptyString), f)
    end.

(** The table columns, one per header, numbered from one. *)
Fixpoint tableColumns (i : Z) (tableHeaders : list string) : list xlsxTableColumn :=
  match tableHeaders with
  | [] => []
  | name :: rest => mkTableColumn (i + 1) name :: tableColumns (i + 1) rest
  end.

(** Lines 136 to 186 of [AddTable]: once the headers were read, the
    table is built, related to the sheet, kept for [Flush] and saved.
    None of these steps can fail. *)
Definition registerTable (sw : StreamWriter) (formatSet : formatTable)
    (ref : string) (tableHeaders : list string) : StreamWriter :=
  let tableColumn := tableColumns 0 tableHeaders in
  let tableID := countTables (SWFile sw) + 1 in
  let name :=
    if isEmpty (TableName formatSet)
    then "Table" ++ Itoa tableID
    else TableName formatSet in
  let table :=
    mkTable tableID name name ref ref
            (Z.of_nat (List.length tableColumn)) tableColumn formatSet in
  let sheetRelationshipsTableXML := "../tables/table" ++ Itoa tableID ++ ".xml" in
  let tableXML := "xl/tables/table" ++ Itoa tableID ++ ".xml" in
  let sheetPath :=
    default EmptyString (sheetMap (SWFile sw) !! trimSheetName (SWSheet sw)) in
  let sheetRels :=
    "xl/worksheets/_rels/" ++ TrimPrefix sheetPath "xl/worksheets/" ++ ".rels" in
  let '(rID, f) :=
    addRels (SWFile sw) sheetRels SourceRelationshipTable
            sheetRelationshipsTableXML EmptyString in
  let sw := set_File sw f in
  let sw :=
    set_tableParts sw
      ("<tableParts count=" ++ dq ++ "1" ++ dq ++ "><tablePart r:id="
       ++ dq ++ "rId" ++ Itoa rID ++ dq ++ "></tablePart></tableParts>") in
  let f := addContentTypePart (SWFile sw) tableID "table" in
  let b := marshalTable table in
  set_File sw (saveFileList f tableXML b).

(** AddTable creates an Excel table for the StreamWriter using the
    given coordinate area and format set. *)
Definition AddTable (sw : StreamWriter) (hcell vcell format : string)
  : IO (option error * StreamWriter) :=
  match parseFormatTableSet format with
  | Err err => ret (Some err, sw)
  | Ok formatSet =>
      match areaRangeToCoordinates hcell vcell with
      | Err err => ret (Some err, sw)
      | Ok coordinates =>
          let coordinates := tableArea coordinates in
          let '(c0, c1, c2, c3) := coordinates in
          match coordinatesToAreaRef coordinates with
          | Err err => ret (Some err, sw)
          | Ok ref =>
              let* (r, sw) := getRowValues sw c1 c0 c2 in
              match r with
              | Err err => ret (Some err, sw)
              | Ok tableHeaders =>
                  ret (None, registerTable sw formatSet ref tableHeaders)
              end
          end
      end
  end.

Definition sheetXMLPath (sheetID : Z) : string :=
  "xl/worksheets/sheet" ++ Itoa sheetID ++ ".xml".

(** Flush ending the streaming writing process.  The call of [Close]
    is deferred after the buffer was flushed: it runs on the two
    returns that follow it, not on the return before it. *)
Definition Flush (sw : StreamWriter) : IO (option error * StreamWriter) :=
  let buf := WriteString (rawData sw) "</sheetData>" in
  let buf := bulkAppendFields buf (worksheet sw) 7 37 in
  let buf := WriteString buf (tableParts sw) in
  let buf := bulkAppendFields buf (worksheet sw) 39 39 in
  let buf := WriteString buf "</worksheet>" in
  let* (err, buf) := bufferedWriter.Flush buf in
  match err with
  | Some err => ret (Some err, set_rawData sw buf)
  | None =>
      let sheetXML := sheetXMLPath (SheetID sw) in
      let f := SWFile sw in
      let f := mkFile (XLSX f) (delete sheetXML (Sheet f))
                      (delete sheetXML (checked f)) (sheetMap f) (packaging f) in
      let* (r, buf) := Bytes buf in
      match r with
      | Err err =>
          let* (_, buf) := Close buf in
          ret (Some err, set_rawData (set_File sw f) buf)
      | Ok b =>
          let f := mkFile (<[sheetXML := b]> (XLSX f)) (Sheet f)
                          (checked f) (sheetMap f) (packaging f) in
          let* (_, buf) := Close buf in
          ret (None, set_rawData (set_File sw f) buf)
      end
  end.

End Session.

(** ** A reference package

    The collaborators, written out so that the definitions above can be
    run on concrete inputs. *)
Module Reference.

Definition TotalRows : Z := 1048576.
Definition TotalColumns : Z := 16384.

Definition invalidCell (cell : string) : error :=
  mkError AddressingError ("invalid cell name " ++ cell).

(** The leading letters of a cell name and what follows them. *)
Fixpoint splitLetters (acc s : string) : string * string :=
  match s with
  | String c s' =>
      if xml.isLetter c then splitLetters (xml.snoc acc c) s' else (acc, s)
  | EmptyString => (acc, EmptyString)
  end.

Fixpoint columnNumber (acc : Z) (name : string) : Z :=
  match name with
  | EmptyString => acc
  | String c name' =>
      let d := if xml.inRange 65 90 c then byteZ c - 64 else byteZ c - 96 in
      columnNumber (acc * 26 + d) name'
  end.

(** Modelled from the spec: the conversion of an alphanumeric cell
    reference to its 1-based (column, row) pair; the function lives
    outside stream.go. *)
Definition CellNameToCoordinates (cell : string) : result (Z * Z) :=
  let (letters, digits) := splitLetters EmptyString cell in
  if isEmpty letters || isEmpty digits then Err (invalidCell cell)
  else
    match xml.digitsValue 10 0 digits with
    | None => Err (invalidCell cell)
    | Some row =>
        if (row <=? 0) || (TotalRows <? row) then Err (invalidCell cell)
        else
          let col := columnNumber 0 letters in
          if TotalColumns <? col then Err (invalidCell cell)
          else Ok (col, row)
    end.

(** The letters of column [num], most significant first; [fuel]
    bounds the number of letters. *)
Fixpoint columnName (fuel : nat) (num : Z) (acc : string) : string :=
  match fuel with
  | O => acc
  | S fuel' =>
      if num <=? 0 then acc
      else columnName fuel' ((num - 1) / 26)
             (String (byteOf ((num - 1) mod 26 + 65)) acc)
  end.

(** Modelled from the spec: the conversion of a 1-based (column, row)
    pair to its alphanumeric cell reference; the function lives
    outside stream.go. *)
Definition CoordinatesToCellName (col row : Z) : result string :=
  if (col <? 1) || (row <? 1) || (TotalColumns <? col) then
    Err (mkError AddressingError "invalid cell coordinates")
  else Ok (columnName 4 col EmptyString ++ Itoa row).

(** Modelled from the spec: text maps to an explicit string tag, with
    a language-space marker when it starts or ends with a space. *)
Definition setCellStr (value : string) : string * string * xmlAttr :=
  let value := take (Z.to_nat 32767) value in
  let first := match value with String c _ => xml.isByte 32 c | _ => false end in
  let last :=
    match drop (String.length value - 1) value with
    | String c _ => xml.isByte 32 c
    | _ => false
    end in
  ("str", value,
   if first || last then mkAttr (mkName "xml" "space") "preserve" else noAttr).

Definition defaultFormat : formatTable :=
  mkFormatTable EmptyString EmptyString false false true false.

Definition areaRangeToCoordinates (firstCell lastCell : string) : result Coordinates :=
  match CellNameToCoordinates firstCell with
  | Err e => Err e
  | Ok (c0, c1) =>
      match CellNameToCoordinates lastCell with
      | Err e => Err e
      | Ok (c2, c3) => Ok (c0, c1, c2, c3)
      end
  end.

Definition coordinatesToAreaRef (coordinates : Coordinates) : result string :=
  let '(c0, c1, c2, c3) := coordinates in
  match CoordinatesToCellName c0 c1 with
  | Err e => Err e
  | Ok firstCell =>
      match CoordinatesToCellName c2 c3 with
      | Err e => Err e
      | Ok lastCell => Ok (firstCell ++ ":" ++ lastCell)
      end
  end.

Definition countTables (f : File) : Z :=
  Z.of_nat (List.length
    (List.filter (fun kv => String.prefix "xl/tables/table" (fst kv))
                 (map_to_list (XLSX f)))).

Definition header : string :=
  "<?xml " ++ lexer.xmlDecl ++ "?>" ++ String (byteOf 10) EmptyString.

(** The remaining collaborators are kept as small as their types
    allow: numbers are written in decimal, a time is accepted in UTC
    only, the format set is the default one, and the packaging
    registry is a list of the targets it was given. *)
Definition setCellTime (t : Time) : string * string * bool * option error :=
  if String.eqb (location t) "UTC"
  then (EmptyString, Itoa (instant t), true, None)
  else (EmptyString, EmptyString, false,
        Some (mkError EncodingError "only UTC time expected")).

Definition parseFormatTableSet (format : string) : result formatTable :=
  if isEmpty format then Ok defaultFormat
  else Err (mkError FormatError "unexpected format set").

Definition addRels (f : File) (rels relType target targetMode : string) : Z * File :=
  (Z.of_nat (List.length (packaging f)) + 1,
   mkFile (XLSX f) (Sheet f) (checked f) (sheetMap f) (packaging f ++ [target])%list).

Definition saveFileList (f : File) (name content : string) : File :=
  mkFile (<[name := header ++ content]> (XLSX f)) (Sheet f) (checked f)
         (sheetMap f) (packaging f).

Definition workSheetReader (f : File) (sheet : string) : result xlsxWorksheet * File :=
  match sheetMap f !! sheet with
  | None => (Err (mkError AddressingError "sheet is not exist"), f)
  | Some path => (Ok (default (mkWorksheet []) (Sheet f !! path)), f)
  end.

#[global] Instance package : Package :=
  Build_Package
    CellNameToCoordinates
    CoordinatesToCellName
    (fun n => (EmptyString, Itoa n))
    (fun f _ _ => (EmptyString, Itoa f))
    setCellStr
    (fun d => (EmptyString, Itoa d))
    setCellTime
    (fun b => ("b", if b then "1" else "0"))
    (fun _ => "<nil>")
    parseFormatTableSet
    areaRangeToCoordinates
    coordinatesToAreaRef
    countTables
    (fun s => s)
    addRels
    (fun f _ _ => f)
    saveFileList
    (fun t => "<table name=" ++ dq ++ tblName t ++ dq ++ " ref=" ++ dq
              ++ tblRef t ++ dq ++ "></table>")
    (fun f sheet => match sheetMap f !! sheet with Some _ => 1 | None => 0 end)
    workSheetReader
    header
    (" xmlns=" ++ dq ++ "http://schemas.openxmlformats.org/spreadsheetml/2006/main"
     ++ dq ++ ">")
    "http://schemas.openxmlformats.org/officeDocument/2006/relationships/table".

(** A document with one empty sheet, and the session opened on it. *)
Definition file : File :=
  mkFile ∅ ∅ ∅ {[ "Sheet1" := "xl/worksheets/sheet1.xml" ]} [].

Definition session : StreamWriter :=
  match NewStreamWriter file "Sheet1" with
  | (Ok sw, _) => sw
  | (Err _, _) => mkSW file EmptyString 0 (mkWorksheet []) bufferedWriter.empty EmptyString
  end.

End Reference.

(** ** Runs of the elastic buffer *)

(** The operations a caller performs on the buffer between its creation
    and the final [Bytes]. *)
Inductive BufOp :=
| OpWrite (p : string)
| OpSync.

(** The bytes written by a run, in write order. *)
Fixpoint written (ops : list BufOp) : string :=
  match ops with
  | [] => EmptyString
  | OpWrite p :: ops' => p ++ written ops'
  | OpSync :: ops' => written ops'
  end.

(** The run itself; the errors of [Sync] are collected. *)
Fixpoint runOps (ops : list BufOp) (bw : bufferedWriter)
  : IO (list error * bufferedWriter) :=
  match ops with
  | [] => ret ([], bw)
  | OpWrite p :: ops' => runOps ops' (bufferedWriter.Write bw p)
  | OpSync :: ops' =>
      let* (err, bw) := bufferedWriter.Sync bw in
      let* (errs, bw) := runOps ops' bw in
      ret (match err with Some e => e :: errs | None => errs end, bw)
  end.

(** A world in which no system call fails. *)
Definition healthy (w : World) : Prop := Forall (fun f => f = IOok) w.

(** The logical content of the buffer: what is on the file, followed by
    what is in memory. *)
Definition content (bw : bufferedWriter) : string :=
  match tmp bw with
  | None => buf bw
  | Some f => fdata f ++ buf bw
  end.

(** The temp file, if any, is open and its cursor is at its end. *)
Definition appending (bw : bufferedWriter) : Prop :=
  match tmp bw with
  | None => True
  | Some f => fpos f = String.length (fdata f) /\ fclosed f = false
  end.


(** A buffer of [2 ^ n] copies of [s]; it is only ever measured, never
    spelled out. *)
Fixpoint double (n : nat) (s : string) : string :=
  match n with
  | O => s
  | S n' => double n' s ++ double n' s
  end.

(** Sixteen mebibytes of data: exactly the spill threshold. *)
Definition big : string := double 24 "x".

(** ** What a row looks like in the buffer *)

Section Markup.
Context `{Package}.

(** The markup that [writeCell] appends for the cell [c]. *)
Definition cellMarkup (c : xlsxC.t) : string :=
  buf (writeCell bufferedWriter.empty c).

(** One turn of the loop of [SetRow] up to [writeCell]: [None] when
    the cell name cannot be built, else the cell and the error of the
    encoder. *)
Definition cellAt (col row i : Z) (val : CellValue) : option (xlsxC.t * option error) :=
  match CoordinatesToCellName (col + i) row with
  | Err _ => None
  | Ok axis =>
      let (c, val) := unwrapCell (newC axis) val in
      Some (setCellValFunc c val)
  end.

(** The cells of [values], from index [i] on, when every one of them
    is named and encoded without error. *)
Fixpoint encodedCells (col row i : Z) (values : list CellValue) : option (list xlsxC.t) :=
  match values with
  | [] => Some []
  | val :: rest =>
      match cellAt col row i val with
      | Some (c, None) =>
          match encodedCells col row (i + 1) rest with
          | Some cs => Some (c :: cs)
          | None => None
          end
      | _ => None
      end
  end.

Fixpoint cellsMarkup (cs : list xlsxC.t) : string :=
  match cs with
  | [] => EmptyString
  | c :: cs' => cellMarkup c ++ cellsMarkup cs'
  end.

Definition rowOpen (row : Z) : string := "<row r=" ++ dq ++ Itoa row ++ dq ++ ">".

Definition rowMarkup (row : Z) (cs : list xlsxC.t) : string :=
  rowOpen row ++ cellsMarkup cs ++ "</row>".

End Markup.

(** The buffer [bw] with [s] appended to its in-memory part. *)
Definition appended (bw : bufferedWriter) (s : string) : bufferedWriter :=
  mkBW (tmp bw) (buf bw ++ s).

(** A session whose buffer has spilled: the sixteen mebibytes written
    so far are on the temp file and the in-memory region is empty. *)
Definition spilledSession : StreamWriter :=
  set_rawData Reference.session
    (mkBW (Some (mkOSFile big (String.length big) false false)) EmptyString).

(** The buffer was disposed of: the in-memory region is empty and the
    temp file, if there is one, is closed. *)
Definition disposed (bw : bufferedWriter) : Prop :=
  buf bw = EmptyString
  /\ match tmp bw with
     | None => True
     | Some f => fclosed f = true
     end.

(** The buffer of [sw] with the closing markup of [Flush] written to
    it. *)
Definition closingBuffer (sw : StreamWriter) : bufferedWriter :=
  bufferedWriter.WriteString
    (bulkAppendFields
       (bufferedWriter.WriteString
          (bulkAppendFields
             (bufferedWriter.WriteString (rawData sw) "</sheetData>")
             (worksheet sw) 7 37)
          (tableParts sw))
       (worksheet sw) 39 39)
    "</worksheet>".

Section ScanContent.
Context `{Package}.

(** What [getRowValues] returns when the reader delivers [data] and
    then the end of the stream. *)
Definition scanContent (data : string) (hrow hcol vcol : Z) : result (list string) :=
  if vcol - hcol + 1 <? 0 then Err (errPanic "makeslice: len out of range")
  else
    let (toks, term) := lexer.tokens (mkReader data None) in
    scanTokens toks term hrow hcol vcol
      (replicate (Z.to_nat (vcol - hcol + 1)) EmptyString).

(** The markup of the table reference that [AddTable] stores for
    [Flush]. *)
Definition tablePartsMarkup (rID : Z) : string :=
  "<tableParts count=" ++ dq ++ "1" ++ dq ++ "><tablePart r:id="
  ++ dq ++ "rId" ++ Itoa rID ++ dq ++ "></tablePart></tableParts>".

End ScanContent.

(** The reference session after the two rows of the specification's
    scenario. *)
Definition twoRows : StreamWriter :=
  let sw := snd (fst (SetRow Reference.session "A1" [Vstring "Name"; Vstring "Age"] [])) in
  snd (fst (SetRow sw "A2" [Vstring "Ana"; Vint Kint 30] [])).

Section Headers.
Context `{Package}.

(** The text of the last cell of [cells] that stands in column [col],
    and [acc] when there is none. *)
Fixpoint lastAt (cells : list xlsxC.t) (col : Z) (acc : string) : string :=
  match cells with
  | [] => acc
  | c :: rest =>
      match CellNameToCoordinates (xlsxC.R c) with
      | Ok (k, _) => lastAt rest col (if k =? col then xlsxC.V c else acc)
      | Err _ => lastAt rest col acc
      end
  end.

(** Every cell reference of [cells] parses. *)
Definition cellsParse (cells : list xlsxC.t) : bool :=
  forallb (fun c => is_Ok (CellNameToCoordinates (xlsxC.R c))) cells.

End Headers.

(** No token of [toks] is a row element numbered [hrow]. *)
Definition noRow (hrow : Z) (toks : list Token) : bool :=
  forallb (fun t => negb (getRowElement t hrow)) toks.

(** Evaluates the code of a byte that is given by a literal. *)
Ltac eval_byteZ :=
  repeat match goal with
         | |- context [byteZ ?c] =>
             let v := eval vm_compute in (byteZ c) in
             change (byteZ c) with v
         end.

(** ** Rows that can be read back *)

(** A byte that stands for itself in a quoted attribute value:
    printable ASCII other than the quote and the markup characters. *)
Definition plainByte (c : ascii) : bool :=
  xml.inRange 32 126 c
  && negb (xml.isByte 34 c) && negb (xml.isByte 38 c)
  && negb (xml.isByte 60 c) && negb (xml.isByte 62 c).

Fixpoint plainAttr (s : string) : bool :=
  match s with
  | EmptyString => true
  | String c s' => plainByte c && plainAttr s'
  end.

(** Text that XML can carry: valid UTF-8 made of characters of the XML
    character range. *)
Definition xmlText (v : string) : bool := xml.validFrom 0 v.

Definition hasSpaceAttr (c : xlsxC.t) : bool :=
  negb (isEmpty (Value (xlsxC.XMLSpace c))).

(** The cell can be written as markup that reads back: its reference,
    its type and its space marker are plain, the marker is the
    [xml:space] one, the style fits an [int], the text is XML text. *)
Definition wellFormedCell (c : xlsxC.t) : bool :=
  plainAttr (xlsxC.R c) && plainAttr (xlsxC.T c)
  && (MinInt64 <=? xlsxC.S c) && (xlsxC.S c <=? MaxInt64)
  && (negb (hasSpaceAttr c)
      || (String.eqb (Local (Name (xlsxC.XMLSpace c))) "space"
          && plainAttr (Value (xlsxC.XMLSpace c))))
  && xmlText (xlsxC.V c).

Definition cName : xmlName := mkName EmptyString "c".
Definition vName : xmlName := mkName EmptyString "v".
Definition rowName : xmlName := mkName EmptyString "row".
Definition attrNamed (n v : string) : xmlAttr := mkAttr (mkName EmptyString n) v.

(** The attributes of the start tag that [writeCell] writes. *)
Definition cellStartAttrs (c : xlsxC.t) : list xmlAttr :=
  ((if hasSpaceAttr c
    then [mkAttr (mkName "xml" "space") (Value (xlsxC.XMLSpace c))] else [])
   ++ [attrNamed "r" (xlsxC.R c)]
   ++ (if negb (xlsxC.S c =? 0) then [attrNamed "s" (Itoa (xlsxC.S c))] else [])
   ++ (if negb (isEmpty (xlsxC.T c)) then [attrNamed "t" (xlsxC.T c)] else []))%list.

(** The tokens that the decoder delivers for the markup of a cell. *)
Definition cellTokens (c : xlsxC.t) : list Token :=
  (StartElement cName (cellStartAttrs c)
   :: (if negb (isEmpty (xlsxC.V c))
       then [StartElement vName []; CharData (xlsxC.V c); EndElement vName]
       else [])
   ++ [EndElement cName])%list.

Fixpoint cellsTokens (cs : list xlsxC.t) : list Token :=
  match cs with
  | [] => []
  | c :: cs' => (cellTokens c ++ cellsTokens cs')%list
  end.

Definition rowStart (row : Z) : Token :=
  StartElement rowName [attrNamed "r" (Itoa row)].

Definition rowTokens (row : Z) (cs : list xlsxC.t) : list Token :=
  (rowStart row :: cellsTokens cs ++ [EndElement rowName])%list.

(** The cell that [DecodeElement] builds from the markup of [c]. *)
Definition decodedCell (c : xlsxC.t) : xlsxC.t :=
  xlsxC.mk
    (if hasSpaceAttr c
     then mkAttr (mkName "xml" "space") (Value (xlsxC.XMLSpace c)) else noAttr)
    (xlsxC.R c) (xlsxC.S c) (xlsxC.T c) (xlsxC.V c).

Section ParseBack.
Context `{Package}.

(** The references of [cs] parse back to the columns [col + i],
    [col + i + 1], and so on. *)
Fixpoint namesParseBack (col i : Z) (cs : list xlsxC.t) : bool :=
  match cs with
  | [] => true
  | c :: cs' =>
      match CellNameToCoordinates (xlsxC.R c) with
      | Ok (k, _) => (k =? col + i) && namesParseBack col (i + 1) cs'
      | Err _ => false
      end
  end.

End ParseBack.

(** The bytes of the cell markup, piece by piece. *)
Definition spaceAttrMarkup (c : xlsxC.t) : string :=
  if hasSpaceAttr c
  then " xml:" ++ Local (Name (xlsxC.XMLSpace c)) ++ "=" ++ dq
       ++ Value (xlsxC.XMLSpace c) ++ dq
  else EmptyString.

Definition styleAttrMarkup (c : xlsxC.t) : string :=
  if negb (xlsxC.S c =? 0) then " s=" ++ dq ++ Itoa (xlsxC.S c) ++ dq else EmptyString.

Definition typeAttrMarkup (c : xlsxC.t) : string :=
  if negb (isEmpty (xlsxC.T c)) then " t=" ++ dq ++ xlsxC.T c ++ dq else EmptyString.

Definition valueMarkup (c : xlsxC.t) : string :=
  if negb (isEmpty (xlsxC.V c)) then "<v>" ++ EscapeText (xlsxC.V c) ++ "</v>"
  else EmptyString.

Fixpoint noLt (s : string) : bool :=
  match s with
  | EmptyString => true
  | String c s' => negb (xml.isByte 60 c) && noLt s'
  end.

(** Turns the byte tests of the goal into comparisons of integers. *)
Ltac byte_cases :=
  unfold plainByte, xml.isSpace, xml.isNameByte, xml.isLetter, xml.isDigit,
    xml.inRange, xml.isByte in *;
  repeat match goal with
         | H : (_ && _) = true |- _ => apply andb_prop in H as [? ?]
         | H : negb _ = true |- _ => apply negb_true_iff in H
         | H : (_ <=? _) = true |- _ => apply Z.leb_le in H
         | H : (_ <=? _) = false |- _ => apply Z.leb_gt in H
         | H : (_ <? _) = true |- _ => apply Z.ltb_lt in H
         | H : (_ <? _) = false |- _ => apply Z.ltb_ge in H
         | H : (_ =? _) = true |- _ => apply Z.eqb_eq in H
         | H : (_ =? _) = false |- _ => apply Z.eqb_neq in H
         end.

Ltac byte_decide :=
  repeat match goal with
         | |- context [?a <=? ?b] =>
             destruct (Z.leb_spec a b); try (exfalso; lia)
         | |- context [?a <? ?b] =>
             destruct (Z.ltb_spec a b); try (exfalso; lia)
         | |- context [?a =? ?b] =>
             destruct (Z.eqb_spec a b); try (exfalso; lia)
         end;
  cbn [andb orb negb].

(** Every byte of [s] has its high bit set. *)
Fixpoint highBytes (s : string) : bool :=
  match s with
  | EmptyString => true
  | String c s' => (128 <=? byteZ c) && highBytes s'
  end.

(** Recalls what [x mod m] is, for a literal [m]. *)
Ltac mod_facts x m :=
  let H1 := fresh "Hdiv" in
  let H2 := fresh "Hmod" in
  pose proof (Z.div_mod x m ltac:(lia)) as H1;
  pose proof (Z.mod_pos_bound x m ltac:(lia)) as H2.

(** The double quote, as a byte. *)
Definition dqc : ascii := ascii_of_nat 34.

(** Every cell of [cs] is well formed. *)
Definition wellFormedCells (cs : list xlsxC.t) : bool := forallb wellFormedCell cs.

Definition fitsInt64 (z : Z) : bool := (MinInt64 <=? z) && (z <=? MaxInt64).

(** ** The content seen by the decoder *)

(** The decoder, having read [pre], stands between two tokens: it is in
    text mode with no text pending. *)
Definition atTokenBoundary (pre : string) : bool :=
  match lexer.mode (lexer.run lexer.init pre) with
  | lexer.MText EmptyString => true
  | _ => false
  end.

(** No row element numbered [row] is among the tokens of [pre]. *)
Definition rowAbsent (row : Z) (pre : string) : bool :=
  noRow row (lexer.out (lexer.run lexer.init pre)).

(** ** The cells of a row *)


(** ** The document of a session *)

(** The fields of the worksheet with the indices [from] to [to], one
    after the other. *)
Definition fieldRange (ws : xlsxWorksheet) (from to : Z) : string :=
  String.concat EmptyString
    (firstn (Z.to_nat (to + 1 - from)) (skipn (Z.to_nat from) (wsFields ws))).

(** What [Flush] writes after the rows. *)
Definition closingMarkup (sw : StreamWriter) : string :=
  "</sheetData>" ++ fieldRange (worksheet sw) 7 37 ++ tableParts sw
  ++ fieldRange (worksheet sw) 39 39 ++ "</worksheet>".

Section Document.
Context `{Package}.

(** What [NewStreamWriter] writes before the rows. *)
Definition openingMarkup (ws : xlsxWorksheet) : string :=
  XMLHeader ++ "<worksheet" ++ templateNamespaceIDMap
  ++ fieldRange ws 1 5 ++ "<sheetData>".

(** The calls of [SetRow] of a caller that writes the rows one after
    the other; the errors are collected. *)
Fixpoint setRows (sw : StreamWriter) (rows : list (string * list CellValue))
  : IO (list (option error) * StreamWriter) :=
  match rows with
  | [] => ret ([], sw)
  | (axis, values) :: rest =>
      let* (err, sw) := SetRow sw axis values in
      let* (errs, sw) := setRows sw rest in
      ret (err :: errs, sw)
  end.

(** The markup of the rows, when every starting coordinate parses and
    every value is named and encoded. *)
Fixpoint rowsMarkup (rows : list (string * list CellValue)) : option string :=
  match rows with
  | [] => Some EmptyString
  | (axis, values) :: rest =>
      match CellNameToCoordinates axis with
      | Err _ => None
      | Ok (col, row) =>
          match encodedCells col row 0 values, rowsMarkup rest with
          | Some cs, Some m => Some (rowMarkup row cs ++ m)
          | _, _ => None
          end
      end
  end.

End Document.
(** ** Byte strings: basic facts *)

Lemma append_nil_r (s : string) : s ++ EmptyString = s.
Proof. induction s as [|c s IH]; cbn; [reflexivity | now f_equal]. Qed.

Lemma append_assoc (a b c : string) : (a ++ b) ++ c = a ++ (b ++ c).
Proof. induction a as [|x a IH]; cbn; [reflexivity | now f_equal]. Qed.

Lemma length_append (a b : string) :
  String.length (a ++ b) = (String.length a + String.length b)%nat.
Proof. induction a as [|x a IH]; cbn; [reflexivity | now f_equal]. Qed.

Lemma take_drop (n : nat) (s : string) : take n s ++ drop n s = s.
Proof.
  revert s; induction n as [|n IH]; intros [|c s]; cbn; try reflexivity.
  f_equal; apply IH.
Qed.

Lemma take_length_le (n : nat) (s : string) :
  (n <= String.length s)%nat -> String.length (take n s) = n.
Proof.
  revert s; induction n as [|n IH]; intros [|c s]; simpl; intros Hn;
    try reflexivity; try lia.
  rewrite IH; [reflexivity | lia].
Qed.

Lemma take_app_all (a b : string) : take (String.length a) (a ++ b) = a.
Proof. induction a as [|x a IH]; cbn; [now destruct b | now f_equal]. Qed.

Lemma drop_app_all (a b : string) (n : nat) :
  drop (String.length a + n) (a ++ b) = drop n b.
Proof. induction a as [|x a IH]; cbn; [reflexivity | apply IH]. Qed.

Lemma drop_beyond (n : nat) (s : string) :
  (String.length s <= n)%nat -> drop n s = EmptyString.
Proof.
  revert s; induction n as [|n IH]; intros [|c s]; simpl; intros Hn;
    try reflexivity; try lia.
  apply IH; lia.
Qed.

Lemma take_all (s : string) : take (String.length s) s = s.
Proof. induction s as [|c s IH]; cbn; [reflexivity | now f_equal]. Qed.

Lemma pwrite_at_end (data p : string) :
  os.pwrite data (String.length data) p = data ++ p.
Proof.
  unfold os.pwrite. rewrite take_all.
  rewrite drop_beyond by lia. now rewrite append_nil_r.
Qed.

Lemma Len_nonneg (s : string) : 0 <= Len s.
Proof. unfold Len; lia. Qed.

Lemma Len_zero (s : string) : (0 <? Len s) = false -> s = EmptyString.
Proof.
  unfold Len; destruct s; [reflexivity | simpl; intros H].
  apply Z.ltb_ge in H. lia.
Qed.

Lemma wrap_idem (w z : Z) : 0 < w -> wrap w (wrap w z) = wrap w z.
Proof.
  intros Hw. unfold wrap.
  replace ((z + 2 ^ (w - 1)) mod 2 ^ w - 2 ^ (w - 1) + 2 ^ (w - 1))
    with ((z + 2 ^ (w - 1)) mod 2 ^ w) by lia.
  rewrite Z.mod_mod; [reflexivity |].
  apply Z.pow_nonzero; lia.
Qed.

(** ** The world *)

Lemma healthy_syscall (w : World) :
  healthy w -> fst (syscall w) = IOok /\ healthy (snd (syscall w)).
Proof.
  intros Hw. destruct w as [|f w]; simpl; [split; [reflexivity | constructor] |].
  inversion Hw; subst. split; [reflexivity | assumption].
Qed.

Lemma healthy_nil : healthy [].
Proof. constructor. Qed.

(** ** The elastic buffer keeps its content *)

Lemma Flush_keeps (bw : bufferedWriter) (w : World) :
  appending bw ->
  let r := bufferedWriter.Flush bw w in
  content (snd (fst r)) = content bw
  /\ appending (snd (fst r))
  /\ (tmp bw = None -> snd (fst r) = bw)
  /\ (tmp bw <> None -> tmp (snd (fst r)) <> None)
  /\ (fst (fst r) = None -> tmp bw <> None -> buf (snd (fst r)) = EmptyString).
Proof.
  destruct bw as [[f|] b]; unfold appending, content, bufferedWriter.Flush; simpl.
  2: { intros _. repeat split; try reflexivity; try tauto. }
  intros [Hpos Hopen].
  unfold bufferedWriter.buf_WriteTo, os.Write, bind, ret.
  destruct (0 <? Len b) eqn:Hlen; simpl.
  - rewrite Hopen. unfold syscall.
    destruct w as [|[|m] w]; simpl; rewrite Hpos, pwrite_at_end.
    + rewrite length_append, append_nil_r. repeat split; congruence.
    + rewrite length_append, append_nil_r. repeat split; congruence.
    + rewrite length_append, append_assoc, take_drop.
      rewrite take_length_le by lia.
      repeat split; congruence.
  - apply Len_zero in Hlen; subst b.
    repeat split; try congruence; assumption.
Qed.

Lemma Flush_healthy (bw : bufferedWriter) (w : World) :
  appending bw -> healthy w ->
  fst (fst (bufferedWriter.Flush bw w)) = None
  /\ healthy (snd (bufferedWriter.Flush bw w)).
Proof.
  destruct bw as [[f|] b]; unfold appending, bufferedWriter.Flush; simpl.
  2: { intros _ Hw. split; [reflexivity | assumption]. }
  intros [Hpos Hopen] Hw.
  unfold bufferedWriter.buf_WriteTo, os.Write, bind, ret.
  destruct (0 <? Len b) eqn:Hlen; simpl; [| split; [reflexivity | assumption]].
  rewrite Hopen.
  destruct (healthy_syscall w Hw) as [Hs Hw'].
  destruct (syscall w) as [o w']; simpl in *; subst o; simpl.
  split; [reflexivity | assumption].
Qed.

Lemma Sync_keeps (bw : bufferedWriter) (w : World) :
  appending bw ->
  content (snd (fst (bufferedWriter.Sync bw w))) = content bw
  /\ appending (snd (fst (bufferedWriter.Sync bw w))).
Proof.
  intros Happ. unfold bufferedWriter.Sync.
  destruct (Len (buf bw) <? bufferedWriter.chunk); [simpl; tauto |].
  destruct (tmp bw) as [f|] eqn:Htmp.
  - destruct (Flush_keeps bw w Happ) as (Hc & Ha & _). tauto.
  - unfold bind, os.TempFile, syscall, ret.
    destruct w as [|[|m] w]; simpl; try tauto.
    + assert (Happ' : appending (mkBW (Some (mkOSFile EmptyString 0 false false)) (buf bw)))
        by (unfold appending; simpl; tauto).
      destruct (Flush_keeps _ [] Happ') as (Hc & Ha & _).
      split; [| exact Ha].
      etransitivity; [exact Hc |]. unfold content; simpl. now rewrite Htmp.
    + assert (Happ' : appending (mkBW (Some (mkOSFile EmptyString 0 false false)) (buf bw)))
        by (unfold appending; simpl; tauto).
      destruct (Flush_keeps _ w Happ') as (Hc & Ha & _).
      split; [| exact Ha].
      etransitivity; [exact Hc |]. unfold content; simpl. now rewrite Htmp.
Qed.

Lemma Sync_healthy (bw : bufferedWriter) (w : World) :
  appending bw -> healthy w ->
  fst (fst (bufferedWriter.Sync bw w)) = None
  /\ healthy (snd (bufferedWriter.Sync bw w)).
Proof.
  intros Happ Hw. unfold bufferedWriter.Sync.
  destruct (Len (buf bw) <? bufferedWriter.chunk); [simpl; tauto |].
  destruct (tmp bw) as [f|] eqn:Htmp.
  - now apply Flush_healthy.
  - unfold os.TempFile; unfold bind, ret.
    destruct (healthy_syscall w Hw) as [Hs Hw'].
    destruct (syscall w) as [o w']; simpl in *; subst o; simpl.
    apply Flush_healthy; [unfold appending; simpl; tauto | assumption].
Qed.

Lemma Write_keeps (bw : bufferedWriter) (p : string) :
  content (bufferedWriter.Write bw p) = content bw ++ p
  /\ (appending bw -> appending (bufferedWriter.Write bw p)).
Proof.
  unfold content, appending, bufferedWriter.Write; simpl.
  destruct (tmp bw); [rewrite append_assoc |]; tauto.
Qed.

Lemma runOps_keeps (ops : list BufOp) (bw : bufferedWriter) (w : World) :
  appending bw ->
  content (snd (fst (runOps ops bw w))) = content bw ++ written ops
  /\ appending (snd (fst (runOps ops bw w))).
Proof.
  revert bw w; induction ops as [|[p|] ops IH]; intros bw w Happ; simpl.
  - now rewrite append_nil_r.
  - destruct (Write_keeps bw p) as [Hc Ha].
    destruct (IH (bufferedWriter.Write bw p) w (Ha Happ)) as [Hc' Ha'].
    split; [| exact Ha']. now rewrite Hc', Hc, append_assoc.
  - unfold bind.
    destruct (Sync_keeps bw w Happ) as [Hc Ha].
    destruct (bufferedWriter.Sync bw w) as [[e bw1] w1]; simpl in *.
    destruct (IH bw1 w1 Ha) as [Hc' Ha'].
    destruct (runOps ops bw1 w1) as [[errs bw2] w2]; simpl in *.
    split; [now rewrite Hc', Hc | exact Ha'].
Qed.

Lemma runOps_healthy (ops : list BufOp) (bw : bufferedWriter) (w : World) :
  appending bw -> healthy w ->
  fst (fst (runOps ops bw w)) = [] /\ healthy (snd (runOps ops bw w)).
Proof.
  revert bw w; induction ops as [|[p|] ops IH]; intros bw w Happ Hw; simpl.
  - split; [reflexivity | assumption].
  - apply IH; [now apply Write_keeps | assumption].
  - unfold bind.
    destruct (Sync_keeps bw w Happ) as [_ Ha].
    destruct (Sync_healthy bw w Happ Hw) as [He Hw1].
    destruct (bufferedWriter.Sync bw w) as [[e bw1] w1]; simpl in *; subst e.
    destruct (IH bw1 w1 Ha Hw1) as [He' Hw2].
    destruct (runOps ops bw1 w1) as [[errs bw2] w2]; simpl in *.
    split; assumption.
Qed.

(** Whatever the operating system does, [Bytes] never returns anything
    but the content. *)
Lemma Bytes_sound (bw : bufferedWriter) (w : World) (b : string) :
  appending bw ->
  fst (fst (bufferedWriter.Bytes bw w)) = Ok b -> b = content bw.
Proof.
  intros Happ. unfold bufferedWriter.Bytes.
  destruct (tmp bw) as [f|] eqn:Htmp.
  2: { simpl. unfold content. rewrite Htmp. congruence. }
  unfold bind.
  pose proof (Flush_keeps bw w Happ) as (Hc & Ha & _ & Hsome & Hbuf).
  destruct (bufferedWriter.Flush bw w) as [[e bw1] w1]; simpl in *.
  destruct e as [e|]; [discriminate |].
  assert (Hne : tmp bw <> None) by congruence.
  specialize (Hbuf eq_refl Hne). specialize (Hsome Hne).
  destruct (tmp bw1) as [f1|] eqn:Htmp1; [| congruence].
  unfold appending in Ha. rewrite Htmp1 in Ha. destruct Ha as [Hpos Hopen].
  unfold content in Hc. rewrite Htmp1, Htmp, Hbuf, append_nil_r in Hc.
  unfold os.Stat. rewrite Hopen. unfold bind, ret, syscall.
  assert (Hfit : forall z, negb (to_int64 (to_int (to_int64 z)) =? to_int64 z) = false).
  { intros z. unfold to_int, to_int64, intSize.
    rewrite !wrap_idem by lia. now rewrite Z.eqb_refl. }
  assert (Hread : forall w2,
    fst (fst ((let (a, w') := os.Seek0 f1 w2 in
      (let (e, f2) := a in
        match e with
        | Some e0 => fun w3 => (Err e0, mkBW (Some f2) (buf bw1), w3)
        | None => fun w3 =>
            let (a0, w4) := os.ReadAll f2 w3 in
            (let '(b0, e0, f3) := a0 in
               match e0 with
               | Some e1 => fun w5 => (Err e1, mkBW (Some f3) (buf bw1), w5)
               | None => fun w5 => (Ok b0, mkBW (Some f3) (buf bw1), w5)
               end) w4
        end) w'))) = Ok b -> b = content bw).
  { intros w2. unfold os.Seek0, os.ReadAll. rewrite Hopen. unfold bind, ret, syscall.
    destruct w2 as [|[|m] [|[|m'] w2]]; simpl; try discriminate;
      unfold content; rewrite Htmp; intros Hb; inversion Hb; subst; try assumption. }
  destruct w1 as [|[|m] w1]; simpl; rewrite ?Hfit, ?andb_false_r; apply Hread.
Qed.

(** In a healthy world [Bytes] does return the content. *)
Lemma Bytes_healthy (bw : bufferedWriter) (w : World) :
  appending bw -> healthy w ->
  fst (fst (bufferedWriter.Bytes bw w)) = Ok (content bw).
Proof.
  intros Happ Hw. unfold bufferedWriter.Bytes.
  destruct (tmp bw) as [f|] eqn:Htmp.
  2: { simpl. unfold content. now rewrite Htmp. }
  unfold bind.
  pose proof (Flush_keeps bw w Happ) as (Hc & Ha & _ & Hsome & Hbuf).
  pose proof (Flush_healthy bw w Happ Hw) as [He Hw1].
  destruct (bufferedWriter.Flush bw w) as [[e bw1] w1]; simpl in *; subst e.
  assert (Hne : tmp bw <> None) by congruence.
  specialize (Hbuf eq_refl Hne). specialize (Hsome Hne).
  destruct (tmp bw1) as [f1|] eqn:Htmp1; [| congruence].
  unfold appending in Ha. rewrite Htmp1 in Ha. destruct Ha as [Hpos Hopen].
  unfold content in Hc. rewrite Htmp1, Htmp, Hbuf, append_nil_r in Hc.
  unfold os.Stat. rewrite Hopen. unfold bind, ret.
  destruct (healthy_syscall w1 Hw1) as [Hs Hw2].
  destruct (syscall w1) as [o w2]; simpl in *; subst o.
  unfold to_int, to_int64, intSize. rewrite !wrap_idem by lia.
  rewrite Z.eqb_refl, andb_false_r.
  unfold os.Seek0. rewrite Hopen. unfold bind, ret.
  destruct (healthy_syscall w2 Hw2) as [Hs Hw3].
  destruct (syscall w2) as [o w3]; simpl in *; subst o.
  unfold os.ReadAll; simpl. unfold bind, ret.
  destruct (healthy_syscall w3 Hw3) as [Hs Hw4].
  destruct (syscall w3) as [o w4]; simpl in *; subst o; simpl.
  unfold content. rewrite Htmp. now f_equal.
Qed.

(** ** Spills *)

Lemma Len_append (a b : string) : Len (a ++ b) = Len a + Len b.
Proof. unfold Len. rewrite length_append. lia. Qed.

Lemma Len_double (n : nat) (s : string) : Len (double n s) = 2 ^ Z.of_nat n * Len s.
Proof.
  induction n as [|n IH].
  - simpl. lia.
  - cbn [double]. rewrite Len_append, IH.
    rewrite Nat2Z.inj_succ, Z.pow_succ_r by lia. lia.
Qed.

Lemma Len_big : Len big = bufferedWriter.chunk.
Proof. unfold big. rewrite Len_double. reflexivity. Qed.

Lemma chunk_value : bufferedWriter.chunk = 16777216.
Proof. reflexivity. Qed.

(** Below the threshold [Sync] does nothing. *)
Lemma Sync_below (bw : bufferedWriter) (w : World) :
  Len (buf bw) < bufferedWriter.chunk ->
  bufferedWriter.Sync bw w = (None, bw, w).
Proof.
  intros Hlen. unfold bufferedWriter.Sync.
  apply Z.ltb_lt in Hlen. now rewrite Hlen.
Qed.

(** At the threshold, in a world that works, the content moves to a new
    temp file. *)
Lemma Sync_spills (bw : bufferedWriter) (w : World) :
  bufferedWriter.chunk <= Len (buf bw) -> tmp bw = None -> healthy w ->
  exists f w',
    bufferedWriter.Sync bw w = (None, mkBW (Some f) EmptyString, w')
    /\ fdata f = buf bw /\ fclosed f = false.
Proof.
  intros Hlen Htmp Hw. unfold bufferedWriter.Sync.
  apply Z.ltb_ge in Hlen. rewrite Hlen, Htmp.
  apply Z.ltb_ge in Hlen.
  assert (Hpos : (0 <? Len (buf bw)) = true).
  { apply Z.ltb_lt. rewrite chunk_value in Hlen. lia. }
  unfold os.TempFile; unfold bind, ret.
  destruct (healthy_syscall w Hw) as [Hs Hw1].
  destruct (syscall w) as [o w1]; simpl in *; subst o.
  unfold bufferedWriter.Flush, bufferedWriter.buf_WriteTo, os.Write; simpl.
  rewrite Hpos. unfold bind, ret.
  destruct (healthy_syscall w1 Hw1) as [Hs Hw2].
  destruct (syscall w1) as [o w2]; simpl in *; subst o.
  eexists _, w2. split; [reflexivity |]. simpl. split; [| reflexivity].
  apply (pwrite_at_end EmptyString).
Qed.

(** C2.  Every run of writes and syncs on a new buffer keeps the bytes
    written, in write order, as the content of the buffer, however often
    the buffer spilled: whatever the operating system does, [Bytes]
    returns nothing but these bytes, and where no system call fails no
    [Sync] reports an error and [Bytes] does return them.  The spill
    threshold is the constant [2 ^ 24]. *)
Theorem C2_spill_transparency (ops : list BufOp) (w : World) :
  let '(errs, bw, w') := runOps ops bufferedWriter.empty w in
  bufferedWriter.chunk = 2 ^ 24
  /\ (forall b, fst (fst (bufferedWriter.Bytes bw w')) = Ok b -> b = written ops)
  /\ (healthy w ->
      errs = [] /\ fst (fst (bufferedWriter.Bytes bw w')) = Ok (written ops)).
Proof.
  assert (Happ : appending bufferedWriter.empty) by exact I.
  pose proof (runOps_keeps ops _ w Happ) as [Hc Ha].
  pose proof (runOps_healthy ops _ w Happ) as Hh.
  destruct (runOps ops bufferedWriter.empty w) as [[errs bw] w']; simpl in *.
  split; [reflexivity |]. split.
  - intros b Hb. rewrite (Bytes_sound bw w' b Ha Hb). exact Hc.
  - intros Hw. destruct (Hh Hw) as [He Hw']. split; [exact He |].
    rewrite (Bytes_healthy bw w' Ha Hw'). now rewrite Hc.
Qed.

Lemma C2_spill_transparency_witness :
  healthy []
  /\ fst (fst (bufferedWriter.Bytes
       (snd (fst (runOps [OpWrite "ab"; OpSync; OpWrite "c"] bufferedWriter.empty [])))
       (snd (runOps [OpWrite "ab"; OpSync; OpWrite "c"] bufferedWriter.empty []))))
     = Ok "abc".
Proof.
  split; [exact healthy_nil |].
  pose proof (C2_spill_transparency [OpWrite "ab"; OpSync; OpWrite "c"] []) as H.
  simpl in H. destruct H as (_ & _ & H). exact (proj2 (H healthy_nil)).
Defined.

(** The four sizes of the specification, each written at once and
    followed by a [Sync]: the run spills exactly when the threshold is
    reached, and the content is the data written either way. *)
Lemma spill_at_threshold (data : string) (w : World) :
  healthy w ->
  let bw := snd (fst (runOps [OpWrite data; OpSync] bufferedWriter.empty w)) in
  content bw = data
  /\ (Len data < bufferedWriter.chunk -> tmp bw = None)
  /\ (bufferedWriter.chunk <= Len data -> tmp bw <> None).
Proof.
  intros Hw. simpl. unfold bind.
  set (bw0 := bufferedWriter.Write bufferedWriter.empty data).
  assert (Hbuf : buf bw0 = data) by reflexivity.
  assert (Happ : appending bw0) by exact I.
  pose proof (Sync_keeps bw0 w Happ) as [Hc _].
  split; [| split].
  - destruct (bufferedWriter.Sync bw0 w) as [[e bw1] w1]; simpl in *. exact Hc.
  - intros Hlen. rewrite Sync_below by (rewrite Hbuf; exact Hlen). reflexivity.
  - intros Hlen.
    destruct (Sync_spills bw0 w) as (f & w' & Hs & _); try assumption; try reflexivity.
    rewrite Hs. simpl. discriminate.
Qed.

(** ** Failures of the spill *)

Lemma Sync_create_fails (bw : bufferedWriter) (w : World) (m : nat) :
  bufferedWriter.chunk <= Len (buf bw) -> tmp bw = None ->
  bufferedWriter.Sync bw (IOfail m :: w) = (None, bw, w).
Proof.
  intros Hlen Htmp. unfold bufferedWriter.Sync.
  apply Z.ltb_ge in Hlen. rewrite Hlen, Htmp. reflexivity.
Qed.

Lemma Flush_write_fails (bw : bufferedWriter) (f : OSFile) (w : World) (m : nat) :
  0 < Len (buf bw) -> tmp bw = Some f -> fclosed f = false ->
  exists f',
    bufferedWriter.Flush bw (IOfail m :: w)
    = (Some (errIO "write"),
       mkBW (Some f') (drop (Nat.min m (String.length (buf bw))) (buf bw)), w)
    /\ fclosed f' = false /\ fremoved f' = fremoved f.
Proof.
  intros Hlen Htmp Hopen. unfold bufferedWriter.Flush. rewrite Htmp.
  unfold bufferedWriter.buf_WriteTo, os.Write.
  apply Z.ltb_lt in Hlen. rewrite Hlen, Hopen. unfold bind, ret, syscall.
  eexists. split; [reflexivity |]. split; reflexivity.
Qed.

(** C5, counterexample.  The buffer holds [2 ^ 24] bytes and has no
    backing store yet, so [Sync] goes on to create one; the creation
    fails; [Sync] returns no error. *)
Lemma C5_counterexample :
  bufferedWriter.chunk <= Len (buf (mkBW None big))
  /\ fst (os.TempFile [IOfail 0]) = Err (errIO "open")
  /\ bufferedWriter.Sync (mkBW None big) [IOfail 0] = (None, mkBW None big, []).
Proof.
  assert (Hlen : bufferedWriter.chunk <= Len (buf (mkBW None big))).
  { change (buf (mkBW None big)) with big. rewrite Len_big. lia. }
  split; [exact Hlen |]. split; [reflexivity |].
  apply Sync_create_fails; [exact Hlen | reflexivity].
Qed.

(** C5, as amended.  Once the buffer has reached the threshold: a
    failure to create the backing store is not reported, [Sync] returns
    nil and leaves the buffer as it was, in memory; a failure to write
    the in-memory region to the backing store (just created, or already
    there) is returned to the caller of [Sync]. *)
Theorem C5_sync_failures (bw : bufferedWriter) (w : World) (m : nat) :
  bufferedWriter.chunk <= Len (buf bw) ->
  (tmp bw = None ->
     bufferedWriter.Sync bw (IOfail m :: w) = (None, bw, w))
  /\ (tmp bw = None ->
     fst (fst (bufferedWriter.Sync bw (IOok :: IOfail m :: w))) = Some (errIO "write"))
  /\ (forall f, tmp bw = Some f -> fclosed f = false ->
     fst (fst (bufferedWriter.Sync bw (IOfail m :: w))) = Some (errIO "write"))
  /\ (forall f, tmp bw = Some f -> fclosed f = true ->
     fst (fst (bufferedWriter.Sync bw w)) = Some ErrClosed).
Proof.
  intros Hlen.
  assert (Hpos : 0 < Len (buf bw)) by (rewrite chunk_value in Hlen; lia).
  pose proof Hlen as Hge. apply Z.ltb_ge in Hge.
  split; [| split; [| split]].
  - intros Htmp. now apply Sync_create_fails.
  - intros Htmp. unfold bufferedWriter.Sync. rewrite Hge, Htmp.
    unfold os.TempFile; unfold bind, ret, syscall.
    destruct (Flush_write_fails (mkBW (Some (mkOSFile EmptyString 0 false false)) (buf bw))
                _ w m Hpos eq_refl eq_refl) as (f' & Hf & _).
    cbn [buf] in Hf. rewrite Hf. reflexivity.
  - intros f Htmp Hopen. unfold bufferedWriter.Sync. rewrite Hge, Htmp.
    destruct (Flush_write_fails bw f w m Hpos Htmp Hopen) as (f' & Hf & _).
    rewrite Hf. reflexivity.
  - intros f Htmp Hclosed. unfold bufferedWriter.Sync. rewrite Hge, Htmp.
    unfold bufferedWriter.Flush. rewrite Htmp.
    unfold bufferedWriter.buf_WriteTo, os.Write.
    apply Z.ltb_lt in Hpos. rewrite Hpos, Hclosed. reflexivity.
Qed.

Lemma C5_sync_failures_witness :
  bufferedWriter.chunk <= Len (buf (mkBW None big))
  /\ bufferedWriter.Sync (mkBW None big) [IOfail 3] = (None, mkBW None big, []).
Proof.
  assert (Hlen : bufferedWriter.chunk <= Len (buf (mkBW None big))).
  { change (buf (mkBW None big)) with big. rewrite Len_big. lia. }
  split; [exact Hlen |].
  exact (proj1 (C5_sync_failures (mkBW None big) [] 3 Hlen) eq_refl).
Defined.

(** ** Errors of Flush *)

Lemma bulkAppendFrom_tmp (fields : list string) (i from to : Z) (bw : bufferedWriter) :
  tmp (bulkAppendFrom i fields from to bw) = tmp bw.
Proof.
  revert i bw; induction fields as [|f fields IH]; intros i bw; simpl; [reflexivity |].
  rewrite IH. now destruct ((from <=? i) && (i <=? to)).
Qed.

Lemma closingBuffer_tmp (sw : StreamWriter) :
  tmp (closingBuffer sw) = tmp (rawData sw).
Proof.
  unfold closingBuffer, bulkAppendFields; simpl.
  now rewrite !bulkAppendFrom_tmp; simpl; rewrite !bulkAppendFrom_tmp.
Qed.

Lemma closingBuffer_Len (sw : StreamWriter) : 0 < Len (buf (closingBuffer sw)).
Proof.
  unfold closingBuffer; simpl. rewrite Len_append.
  pose proof (Len_nonneg
    (buf (bulkAppendFields
       (bufferedWriter.WriteString
          (bulkAppendFields
             (bufferedWriter.WriteString (rawData sw) "</sheetData>")
             (worksheet sw) 7 37)
          (tableParts sw))
       (worksheet sw) 39 39))) as Hn.
  change (Len "</worksheet>") with 12. lia.
Qed.

Lemma Close_disposes (bw : bufferedWriter) (w : World) :
  disposed (snd (fst (bufferedWriter.Close bw w))).
Proof.
  unfold bufferedWriter.Close, disposed.
  destruct (tmp bw) as [f|]; simpl; [| tauto].
  unfold os.Close, os.Remove, bind, ret, syscall.
  destruct (fclosed f) eqn:Hc; simpl.
  - destruct w as [|[|m] w]; simpl; tauto.
  - destruct w as [|[|m] [|[|m'] w]]; simpl; tauto.
Qed.

Section FlushErrors.
Context `{Package}.

(** The shape of [Flush]: the closing markup, then the flush of the
    buffer, and only after it the part that disposes of the buffer. *)
Lemma Flush_early_return (sw : StreamWriter) (w : World) (e : error)
    (bw1 : bufferedWriter) (w1 : World) :
  bufferedWriter.Flush (closingBuffer sw) w = (Some e, bw1, w1) ->
  Flush sw w = (Some e, set_rawData sw bw1, w1).
Proof.
  intros Hf. unfold Flush. fold (closingBuffer sw). unfold bind. now rewrite Hf.
Qed.


(** C6, the failing path.  When the session has a temp file and the
    write of the closing markup to it fails, [Flush] returns the error
    from the statement that precedes the deferred [Close]: the temp file
    is left open and its name is not removed, and the in-memory region
    keeps what was not written. *)
Theorem C6_flush_error_leaks_store (sw : StreamWriter) (f : OSFile) (w : World) (m : nat) :
  tmp (rawData sw) = Some f -> fclosed f = false ->
  exists sw' f',
    Flush sw (IOfail m :: w) = (Some (errIO "write"), sw', w)
    /\ tmp (rawData sw') = Some f'
    /\ fclosed f' = false
    /\ fremoved f' = fremoved f
    /\ (m = O -> buf (rawData sw') = buf (closingBuffer sw))
    /\ ~ disposed (rawData sw').
Proof.
  intros Htmp Hopen.
  destruct (Flush_write_fails (closingBuffer sw) f w m (closingBuffer_Len sw))
    as (f' & Hf & Hc & Hr); [now rewrite closingBuffer_tmp | exact Hopen |].
  eexists _, f'. split; [apply Flush_early_return; exact Hf |].
  simpl. repeat split; try assumption.
  - intros ->. reflexivity.
  - unfold disposed; simpl. intros [_ Hd]. congruence.
Qed.

End FlushErrors.

Lemma C6_flush_error_leaks_store_witness :
  tmp (rawData spilledSession) = Some (mkOSFile big (String.length big) false false)
  /\ exists sw' f',
       Flush spilledSession [IOfail 0] = (Some (errIO "write"), sw', [])
       /\ tmp (rawData sw') = Some f' /\ fclosed f' = false /\ fremoved f' = false.
Proof.
  split; [reflexivity |].
  destruct (C6_flush_error_leaks_store spilledSession
              (mkOSFile big (String.length big) false false) [] 0 eq_refl eq_refl)
    as (sw' & f' & Hf & Ht & Hc & Hr & _).
  exists sw', f'. repeat split; assumption.
Defined.

(** ** The rectangle of a table *)




(** ** Writing a row *)

Lemma appended_appended (bw : bufferedWriter) (a b : string) :
  appended (appended bw a) b = appended bw (a ++ b).
Proof. unfold appended; simpl. now rewrite append_assoc. Qed.

Lemma appended_nil (bw : bufferedWriter) : appended bw EmptyString = bw.
Proof. destruct bw; unfold appended; simpl. now rewrite append_nil_r. Qed.

Section Rows.
Context `{Package}.

Lemma writeCell_appended (bw : bufferedWriter) (c : xlsxC.t) :
  writeCell bw c = appended bw (cellMarkup c).
Proof.
  unfold cellMarkup, writeCell, bufferedWriter.WriteString, bufferedWriter.Write.
  destruct (negb (isEmpty (Value (xlsxC.XMLSpace c))));
    destruct (negb (xlsxC.S c =? 0));
    destruct (negb (isEmpty (xlsxC.T c)));
    destruct (negb (isEmpty (xlsxC.V c)));
    unfold appended; cbn [tmp buf bufferedWriter.empty];
    f_equal; rewrite ?append_assoc; reflexivity.
Qed.

Lemma setRowCells_ok (col row : Z) (values : list CellValue) :
  forall (i : Z) (cs : list xlsxC.t) (bw : bufferedWriter),
  encodedCells col row i values = Some cs ->
  setRowCells col row i values bw = (None, appended bw (cellsMarkup cs)).
Proof.
  induction values as [|val rest IH]; intros i cs bw Henc; simpl in *.
  - inversion Henc; subst. simpl. now rewrite appended_nil.
  - unfold cellAt in Henc.
    destruct (CoordinatesToCellName (col + i) row) as [axis|e]; [| discriminate].
    destruct (unwrapCell (newC axis) val) as [c v].
    destruct (setCellValFunc c v) as [c' [e|]]; [discriminate |].
    destruct (encodedCells col row (i + 1) rest) as [cs'|] eqn:Hrest; [| discriminate].
    inversion Henc; subst. simpl.
    rewrite (IH _ _ _ Hrest), writeCell_appended, appended_appended. reflexivity.
Qed.

Lemma setRowCells_fail (col row : Z) (pre : list CellValue) :
  forall (i : Z) (cs : list xlsxC.t) (val : CellValue) (post : list CellValue)
         (c : xlsxC.t) (err : error) (bw : bufferedWriter),
  encodedCells col row i pre = Some cs ->
  cellAt col row (i + Z.of_nat (List.length pre)) val = Some (c, Some err) ->
  setRowCells col row i (pre ++ val :: post)%list bw
  = (Some err, appended bw (cellsMarkup cs ++ "</row>")).
Proof.
  induction pre as [|v pre IH]; intros i cs val post c err bw Henc Hfail; simpl in *.
  - inversion Henc; subst. rewrite Z.add_0_r in Hfail. unfold cellAt in Hfail.
    destruct (CoordinatesToCellName (col + i) row) as [axis|e]; [| discriminate].
    destruct (unwrapCell (newC axis) val) as [c0 v0].
    destruct (setCellValFunc c0 v0) as [c' [e|]]; [| discriminate].
    inversion Hfail; subst. reflexivity.
  - unfold cellAt in Henc.
    destruct (CoordinatesToCellName (col + i) row) as [axis|e]; [| discriminate].
    destruct (unwrapCell (newC axis) v) as [c0 v0].
    destruct (setCellValFunc c0 v0) as [c' [e|]]; [discriminate |].
    destruct (encodedCells col row (i + 1) pre) as [cs'|] eqn:Hrest; [| discriminate].
    inversion Henc; subst.
    assert (Hfail' : cellAt col row (i + 1 + Z.of_nat (List.length pre)) val
                     = Some (c, Some err))
      by (rewrite <- Hfail; f_equal; lia).
    rewrite (IH (i + 1) cs' val post c err _ Hrest Hfail').
    rewrite writeCell_appended, appended_appended. simpl.
    now rewrite append_assoc.
Qed.

(** C10.  When the starting coordinate does not parse, [SetRow] returns
    the error of the parser and nothing else happens: the session, its
    buffer included, and the world are as before. *)
Theorem C10_invalid_axis_is_atomic (sw : StreamWriter) (axis : string)
    (values : list CellValue) (w : World) (err : error) :
  CellNameToCoordinates axis = Err err ->
  SetRow sw axis values w = (Some err, sw, w).
Proof.
  intros Hparse. unfold SetRow. now rewrite Hparse.
Qed.

(** C8.  When the encoder fails on a cell, after the cells before it
    were written, [SetRow] writes none of the cells that follow, still
    writes the closing row marker, and returns the error of the encoder;
    the buffer is not synced. *)
Theorem C8_encoder_failure_closes_row (sw : StreamWriter) (axis : string)
    (col row : Z) (pre post : list CellValue) (val : CellValue)
    (cs : list xlsxC.t) (c : xlsxC.t) (err : error) (w : World) :
  CellNameToCoordinates axis = Ok (col, row) ->
  encodedCells col row 0 pre = Some cs ->
  cellAt col row (Z.of_nat (List.length pre)) val = Some (c, Some err) ->
  SetRow sw axis (pre ++ val :: post)%list w
  = (Some err,
     set_rawData sw (appended (rawData sw) (rowOpen row ++ cellsMarkup cs ++ "</row>")),
     w).
Proof.
  intros Hparse Henc Hfail. unfold SetRow. rewrite Hparse.
  rewrite (setRowCells_fail col row pre 0 cs val post c err _ Henc Hfail).
  unfold appended, bufferedWriter.Write, rowOpen; cbn [tmp buf].
  rewrite ?append_assoc. reflexivity.
Qed.

(** A row whose cells are all encoded is written whole and the buffer
    is synced. *)
Lemma SetRow_ok (sw : StreamWriter) (axis : string) (col row : Z)
    (values : list CellValue) (cs : list xlsxC.t) (w : World) :
  CellNameToCoordinates axis = Ok (col, row) ->
  encodedCells col row 0 values = Some cs ->
  SetRow sw axis values w
  = (let '(err, bw, w') :=
       bufferedWriter.Sync (appended (rawData sw) (rowMarkup row cs)) w in
     (err, set_rawData sw bw, w')).
Proof.
  intros Hparse Henc. unfold SetRow. rewrite Hparse.
  rewrite (setRowCells_ok col row values 0 cs _ Henc).
  unfold appended, bufferedWriter.Write, bufferedWriter.WriteString, rowMarkup, rowOpen;
    cbn [tmp buf].
  unfold bind, ret. rewrite ?append_assoc.
  now destruct (bufferedWriter.Sync _ w) as [[err bw] w'].
Qed.

End Rows.

Lemma C10_invalid_axis_is_atomic_witness :
  CellNameToCoordinates "1A" = Err (Reference.invalidCell "1A")
  /\ SetRow Reference.session "1A" [Vstring "x"] []
     = (Some (Reference.invalidCell "1A"), Reference.session, []).
Proof.
  split; [reflexivity |].
  apply (C10_invalid_axis_is_atomic Reference.session "1A" [Vstring "x"] []).
  reflexivity.
Defined.

Lemma C8_encoder_failure_closes_row_witness :
  CellNameToCoordinates "B3" = Ok (2, 3)
  /\ fst (fst (SetRow Reference.session "B3"
                 [Vint Kint 7; Vtime (mkTime 5 "Local"); Vstring "never written"] []))
     = Some (mkError EncodingError "only UTC time expected").
Proof.
  split; [reflexivity |].
  rewrite (C8_encoder_failure_closes_row Reference.session "B3" 2 3
             [Vint Kint 7] [Vstring "never written"] (Vtime (mkTime 5 "Local"))
             [xlsxC.mk noAttr "B3" 0 EmptyString "7"]
             (xlsxC.mk noAttr "C3" 0 EmptyString EmptyString)
             (mkError EncodingError "only UTC time expected") []);
    reflexivity.
Defined.

(** ** After Flush, and a second table *)


Section Terminal.
Context `{Package}.






Lemma registerTable_keeps (sw : StreamWriter) (formatSet : formatTable)
    (ref : string) (tableHeaders : list string) :
  rawData (registerTable sw formatSet ref tableHeaders) = rawData sw
  /\ exists rID,
       tableParts (registerTable sw formatSet ref tableHeaders) = tablePartsMarkup rID.
Proof.
  unfold registerTable.
  destruct (addRels _ _ _ _ _) as [rID f].
  split; [reflexivity | exists rID; reflexivity].
Qed.


End Terminal.





(** ** The scan *)

Section Scan.
Context `{Package}.

Lemma fillCells_spec (cells : list xlsxC.t) (hcol vcol : Z) :
  forall res : list string,
  cellsParse cells = true ->
  Z.of_nat (List.length res) = vcol - hcol + 1 ->
  exists res',
    fillCells cells hcol vcol res = Ok res'
    /\ List.length res' = List.length res
    /\ forall (j : nat) (old : string),
         res !! j = Some old ->
         res' !! j = Some (lastAt cells (hcol + Z.of_nat j) old).
Proof.
  induction cells as [|c cells IH]; intros res Hparse Hlen; simpl in *.
  - exists res. repeat split; auto.
  - apply andb_prop in Hparse as [Hc Hrest].
    destruct (CellNameToCoordinates (xlsxC.R c)) as [[col r]|e]; [| discriminate].
    destruct ((col <? hcol) || (col >? vcol)) eqn:Hout.
    + destruct (IH res Hrest Hlen) as (res' & Hfill & Hl & Hres).
      exists res'. repeat split; try assumption.
      intros j old Hj. rewrite (Hres j old Hj).
      destruct (Z.eqb_spec col (hcol + Z.of_nat j)) as [->|Hne]; [| reflexivity].
      apply lookup_lt_Some in Hj.
      apply orb_true_iff in Hout as [Hlt|Hgt];
        [apply Z.ltb_lt in Hlt | apply Z.gtb_lt in Hgt]; lia.
    + apply orb_false_iff in Hout as [Hlo Hhi].
      apply Z.ltb_ge in Hlo. rewrite Z.gtb_ltb in Hhi. apply Z.ltb_ge in Hhi.
      destruct (IH (<[Z.to_nat (col - hcol) := xlsxC.V c]> res) Hrest)
        as (res' & Hfill & Hl & Hres).
      { rewrite length_insert. exact Hlen. }
      exists res'. rewrite length_insert in Hl. repeat split; try assumption.
      intros j old Hj.
      destruct (Z.eqb_spec col (hcol + Z.of_nat j)) as [->|Hne].
      * replace (Z.to_nat (hcol + Z.of_nat j - hcol)) with j in Hres by lia.
        apply Hres. apply list_lookup_insert_eq. now apply lookup_lt_Some in Hj.
      * apply Hres. rewrite list_lookup_insert_ne by lia. exact Hj.
Qed.

Lemma scanTokens_skip (pre : list Token) (toks : list Token) (term : Terminal)
    (hrow hcol vcol : Z) (res : list string) :
  noRow hrow pre = true ->
  scanTokens (pre ++ toks)%list term hrow hcol vcol res
  = scanTokens toks term hrow hcol vcol res.
Proof.
  induction pre as [|t pre IH]; intros Hno; simpl in *; [reflexivity |].
  apply andb_prop in Hno as [Ht Hpre].
  apply negb_true_iff in Ht. rewrite Ht. now apply IH.
Qed.



End Scan.



(** ** Decimal numbers *)

Lemma digitsValue_acc (d : Decimal.uint) :
  forall acc : positive,
  xml.digitsValue 10 (Z.pos acc) (NilEmpty.string_of_uint d)
  = Some (Z.pos (Pos.of_uint_acc d acc)).
Proof.
  induction d; intros acc; cbn [NilEmpty.string_of_uint Pos.of_uint_acc];
    [reflexivity | ..];
    cbn [xml.digitsValue];
    match goal with
    | |- context [xml.isDigit ?c] => change (xml.isDigit c) with true
    end; cbv iota;
    rewrite <- IHd; f_equal; eval_byteZ; lia.
Qed.

Lemma digitsValue_of_uint (d : Decimal.uint) :
  xml.digitsValue 10 0 (NilEmpty.string_of_uint d) = Some (Z.of_N (Pos.of_uint d)).
Proof.
  induction d; cbn [NilEmpty.string_of_uint Pos.of_uint];
    [reflexivity | ..];
    cbn [xml.digitsValue];
    match goal with
    | |- context [xml.isDigit ?c] => change (xml.isDigit c) with true
    end; cbv iota; eval_byteZ;
    first [ exact IHd | apply (digitsValue_acc d) ].
Qed.

Lemma string_of_uint_nonempty (p : positive) :
  isEmpty (NilEmpty.string_of_uint (Pos.to_uint p)) = false.
Proof.
  destruct (Pos.to_uint p) eqn:Hp; try reflexivity.
  exfalso. pose proof (DecimalPos.Unsigned.of_to p) as Hof.
  rewrite Hp in Hof. discriminate.
Qed.

Lemma string_of_uint_not_sign (d : Decimal.uint) (s : string) (c : ascii) :
  NilEmpty.string_of_uint d = String c s -> xml.isDigit c = true.
Proof. destruct d; simpl; intros Heq; inversion Heq; reflexivity. Qed.

(** [strconv] reads back what [Itoa] wrote. *)
Lemma parseDecimal_Itoa (z : Z) : parseDecimal (Itoa z) = Some z.
Proof.
  unfold Itoa, NilZero.string_of_int. destruct z as [|p|p]; [reflexivity | |].
  - cbn [Z.to_int]. unfold NilZero.string_of_uint.
    pose proof (string_of_uint_nonempty p) as Hne.
    destruct (Pos.to_uint p) eqn:Hp; try discriminate;
      rewrite <- Hp in *;
      (unfold parseDecimal;
       destruct (NilEmpty.string_of_uint (Pos.to_uint p)) as [|c s] eqn:Hs;
       [discriminate |];
       pose proof (string_of_uint_not_sign _ _ _ Hs) as Hd;
       destruct c as [[|] [|] [|] [|] [|] [|] [|] [|]]; try discriminate;
       cbn [isEmpty]; rewrite <- Hs, digitsValue_of_uint,
         DecimalPos.Unsigned.of_to; reflexivity).
  - cbn [Z.to_int]. unfold NilZero.string_of_uint.
    pose proof (string_of_uint_nonempty p) as Hne.
    destruct (Pos.to_uint p) eqn:Hp; try discriminate;
      rewrite <- Hp in *;
      (unfold parseDecimal; rewrite Hne, digitsValue_of_uint,
         DecimalPos.Unsigned.of_to; reflexivity).
Qed.

(** ** Text that is read back as it was written *)

Lemma byteZ_range (c : ascii) : 0 <= byteZ c < 256.
Proof.
  unfold byteZ. pose proof (N_ascii_bounded c) as Hb.
  split; [apply N2Z.is_nonneg |]. change 256 with (Z.of_N 256). lia.
Qed.

Lemma eqb_isByte (n : Z) (c q : ascii) :
  byteZ q = n -> xml.isByte n c = false -> Ascii.eqb c q = false.
Proof.
  intros Hq Hc. destruct (Ascii.eqb_spec c q) as [->|]; [| reflexivity].
  unfold xml.isByte in Hc. rewrite Hq, Z.eqb_refl in Hc. discriminate.
Qed.

Lemma snoc_append (a : string) (c : ascii) (b : string) :
  xml.snoc a c ++ b = a ++ String c b.
Proof. unfold xml.snoc. now rewrite append_assoc. Qed.

Lemma textRun_app (a b : string) :
  forall st, xml.textRun st (a ++ b) = xml.textRun (xml.textRun st a) b.
Proof. induction a as [|c a IH]; intros st; cbn; [reflexivity | apply IH]. Qed.

(** A byte that is neither markup nor a line break is taken as it
    is. *)
Lemma textStep_literal (o : string) (b0 b1 b : ascii) :
  xml.isByte 62 b = false -> xml.isByte 38 b = false ->
  xml.isByte 13 b = false -> xml.isByte 10 b = false ->
  xml.textStep (xml.mkTS o None b0 b1 None) b
  = xml.mkTS (xml.snoc o b) None b1 b None.
Proof.
  intros H62 H38 H13 H10. unfold xml.textStep; cbn [xml.tsErr xml.tsEnt xml.tsB0 xml.tsB1 xml.tsOut].
  now rewrite H62, H38, H13, H10, !andb_false_r.
Qed.

Lemma textRun_plain (v : string) :
  plainAttr v = true ->
  forall o b0 b1, exists b0' b1',
    xml.textRun (xml.mkTS o None b0 b1 None) v = xml.mkTS (o ++ v) None b0' b1' None.
Proof.
  induction v as [|c v IH]; intros Hv o b0 b1; cbn [xml.textRun plainAttr] in *.
  - exists b0, b1. now rewrite append_nil_r.
  - apply andb_prop in Hv as [Hc Hv].
    rewrite textStep_literal.
    + destruct (IH Hv (xml.snoc o c) b1 c) as (b0' & b1' & Hrun).
      exists b0', b1'. now rewrite Hrun, snoc_append.
    + byte_cases. byte_decide. reflexivity.
    + byte_cases. byte_decide. reflexivity.
    + byte_cases. byte_decide. reflexivity.
    + byte_cases. byte_decide. reflexivity.
Qed.

Lemma DecodeRune_ascii (c : ascii) (s : string) :
  byteZ c < 128 -> DecodeRune (String c s) = (byteZ c, 1%nat).
Proof.
  intros Hc. unfold DecodeRune.
  destruct (Z.ltb_spec (byteZ c) 128); [reflexivity | lia].
Qed.

Lemma validFrom_plain (v : string) : plainAttr v = true -> xml.validFrom 0 v = true.
Proof.
  induction v as [|c v IH]; intros Hv; [reflexivity |].
  cbn [plainAttr] in Hv. apply andb_prop in Hv as [Hc Hv].
  cbn [xml.validFrom]. rewrite DecodeRune_ascii by (byte_cases; lia).
  cbn [Nat.sub]. rewrite (IH Hv), andb_true_r.
  unfold isInCharacterRange, RuneError. byte_cases. byte_decide. reflexivity.
Qed.

(** A plain attribute value is decoded to itself. *)
Lemma decodeText_plain (v : string) : plainAttr v = true -> xml.decodeText v = Ok v.
Proof.
  intros Hv. unfold xml.decodeText, xml.textInit.
  destruct (textRun_plain v Hv EmptyString zero zero) as (b0' & b1' & Hrun).
  rewrite Hrun. cbn. now rewrite (validFrom_plain v Hv).
Qed.

(** ** Runes *)

Lemma lor_ge_pow2 (a b n : Z) :
  0 <= a -> 0 <= b -> 0 <= n -> 2 ^ n <= a \/ 2 ^ n <= b -> 2 ^ n <= Z.lor a b.
Proof.
  intros Ha Hb Hn Hab.
  assert (Hpos : 0 < 2 ^ n) by (apply Z.pow_pos_nonneg; lia).
  assert (Hnn : 0 <= Z.lor a b) by (apply Z.lor_nonneg; tauto).
  assert (Hne : Z.lor a b <> 0).
  { intros H0. apply Z.lor_eq_0_iff in H0. lia. }
  apply Z.log2_le_pow2; [lia |].
  rewrite Z.log2_lor by assumption.
  destruct Hab as [H|H]; apply Z.log2_le_pow2 in H; lia.
Qed.

Lemma land_mask (a n : Z) (m : Z) :
  m = Z.ones n -> 0 <= n -> Z.land a m = a mod 2 ^ n.
Proof. intros -> Hn. now apply Z.land_ones. Qed.

Lemma shiftl_mul (a n : Z) : 0 <= n -> Z.shiftl a n = a * 2 ^ n.
Proof. apply Z.shiftl_mul_pow2. Qed.

(** What [DecodeRune] finds at the head of a string: an ASCII byte, an
    invalid byte, or a rune of several bytes, which is not an ASCII
    character and whose bytes all have their high bit set. *)
Lemma DecodeRune_cases (c : ascii) (rest : string) :
  let '(r, w) := DecodeRune (String c rest) in
  (w = 1%nat /\ r = byteZ c /\ byteZ c < 128)
  \/ (w = 1%nat /\ r = RuneError)
  \/ ((2 <= w <= 4)%nat /\ 128 <= r /\ 128 <= byteZ c
      /\ highBytes (take (w - 1) rest) = true
      /\ (w - 1 <= String.length rest)%nat).
Proof.
  pose proof (byteZ_range c) as Hc.
  unfold DecodeRune. cbv zeta.
  destruct (Z.ltb_spec (byteZ c) 128) as [Hlt|Hge]; [left; auto |].
  destruct ((byteZ c <? 194) || (244 <? byteZ c)) eqn:Hlead; [right; left; auto |].
  apply orb_false_iff in Hlead as [Hlo Hhi].
  apply Z.ltb_ge in Hlo. apply Z.ltb_ge in Hhi.
  destruct rest as [|p1 rest1]; [right; left; auto |].
  pose proof (byteZ_range p1) as Hp1.
  match goal with
  | |- context [negb ?b] => destruct b eqn:H1; cbn [negb]
  end; [| right; left; auto].
  apply andb_prop in H1 as [H1lo H1hi].
  apply Z.leb_le in H1lo. apply Z.leb_le in H1hi.
  assert (Hb1 : 128 <= byteZ p1 <= 191).
  { revert H1lo H1hi.
    destruct (Z.eqb_spec (byteZ c) 224); destruct (Z.eqb_spec (byteZ c) 240);
      destruct (Z.eqb_spec (byteZ c) 237); destruct (Z.eqb_spec (byteZ c) 244); lia. }
  destruct (Z.ltb_spec (byteZ c) 224) as [H2|H2].
  { right; right. cbn [Nat.sub take highBytes String.length].
    repeat split; try lia.
    rewrite (land_mask _ 5 31), (land_mask _ 6 63), (shiftl_mul _ 6) by (reflexivity || lia).
    apply (lor_ge_pow2 _ _ 7); try lia;
      try (apply Z.mul_nonneg_nonneg; [apply Z.mod_pos_bound |]; lia);
      try (apply Z.mod_pos_bound; lia).
    left. change (2 ^ 5) with 32. change (2 ^ 6) with 64. change (2 ^ 7) with 128.
    mod_facts (byteZ c) 32. lia. }
  destruct rest1 as [|p2 rest2]; [right; left; auto |].
  pose proof (byteZ_range p2) as Hp2.
  match goal with
  | |- context [negb ?b] => destruct b eqn:H3; cbn [negb]
  end; [| right; left; auto].
  apply andb_prop in H3 as [H3lo H3hi].
  apply Z.leb_le in H3lo. apply Z.leb_le in H3hi.
  destruct (Z.ltb_spec (byteZ c) 240) as [H4|H4].
  { right; right. cbn [Nat.sub take highBytes String.length].
    repeat split; try lia.
    { rewrite (land_mask _ 4 15), !(land_mask _ 6 63), (shiftl_mul _ 12), (shiftl_mul _ 6)
        by (reflexivity || lia).
      assert (0 <= byteZ c mod 2 ^ 4 * 2 ^ 12)
        by (apply Z.mul_nonneg_nonneg; [apply Z.mod_pos_bound |]; lia).
      assert (0 <= byteZ p1 mod 2 ^ 6 * 2 ^ 6)
        by (apply Z.mul_nonneg_nonneg; [apply Z.mod_pos_bound |]; lia).
      assert (0 <= byteZ p2 mod 2 ^ 6) by (apply Z.mod_pos_bound; lia).
      apply (lor_ge_pow2 _ _ 7); try lia.
      { apply Z.lor_nonneg; tauto. }
      destruct (Z.eqb_spec (byteZ c) 224) as [He|He].
      + right. apply (lor_ge_pow2 _ _ 7); try lia. left.
        assert (160 <= byteZ p1) by (revert H1lo; rewrite ?He; cbn; lia).
        assert (32 <= byteZ p1 mod 2 ^ 6).
        { change (2 ^ 6) with 64. mod_facts (byteZ p1) 64. lia. }
        change (2 ^ 6) with 64 in *. change (2 ^ 7) with 128. lia.
      + left. assert (1 <= byteZ c mod 2 ^ 4).
        { change (2 ^ 4) with 16. mod_facts (byteZ c) 16. lia. }
        change (2 ^ 12) with 4096. change (2 ^ 7) with 128. lia. } }
  destruct rest2 as [|p3 rest3]; [right; left; auto |].
  pose proof (byteZ_range p3) as Hp3.
  match goal with
  | |- context [negb ?b] => destruct b eqn:H5; cbn [negb]
  end; [| right; left; auto].
  apply andb_prop in H5 as [H5lo H5hi].
  apply Z.leb_le in H5lo. apply Z.leb_le in H5hi.
  right; right. cbn [Nat.sub take highBytes String.length].
  repeat split; try lia.
  rewrite (land_mask _ 3 7), !(land_mask _ 6 63), (shiftl_mul _ 18),
      (shiftl_mul _ 12), (shiftl_mul _ 6) by (reflexivity || lia).
    assert (0 <= byteZ c mod 2 ^ 3 * 2 ^ 18)
      by (apply Z.mul_nonneg_nonneg; [apply Z.mod_pos_bound |]; lia).
    assert (0 <= byteZ p1 mod 2 ^ 6 * 2 ^ 12)
      by (apply Z.mul_nonneg_nonneg; [apply Z.mod_pos_bound |]; lia).
    assert (0 <= byteZ p2 mod 2 ^ 6 * 2 ^ 6)
      by (apply Z.mul_nonneg_nonneg; [apply Z.mod_pos_bound |]; lia).
    assert (0 <= byteZ p3 mod 2 ^ 6) by (apply Z.mod_pos_bound; lia).
    assert (0 <= Z.lor (byteZ p2 mod 2 ^ 6 * 2 ^ 6) (byteZ p3 mod 2 ^ 6))
      by (apply Z.lor_nonneg; tauto).
    apply (lor_ge_pow2 _ _ 7); try lia.
    { apply Z.lor_nonneg; tauto. }
    destruct (Z.eqb_spec (byteZ c) 240) as [He|He].
    + right. apply (lor_ge_pow2 _ _ 7); try lia. left.
      assert (144 <= byteZ p1) by (revert H1lo; rewrite ?He; cbn; lia).
      assert (16 <= byteZ p1 mod 2 ^ 6).
      { change (2 ^ 6) with 64. mod_facts (byteZ p1) 64. lia. }
      change (2 ^ 12) with 4096. change (2 ^ 7) with 128. lia.
    + left. assert (1 <= byteZ c mod 2 ^ 3).
      { change (2 ^ 3) with 8. mod_facts (byteZ c) 8. lia. }
      change (2 ^ 18) with 262144. change (2 ^ 7) with 128. lia.
Qed.

(** ** Escaped text *)

Lemma byteOf_byteZ (c : ascii) : byteOf (byteZ c) = c.
Proof. unfold byteOf, byteZ. rewrite N2Z.id. apply ascii_N_embedding. Qed.

Lemma isByte_false (n : Z) (c : ascii) : byteZ c <> n -> xml.isByte n c = false.
Proof. intros Hne. unfold xml.isByte. now destruct (Z.eqb_spec (byteZ c) n). Qed.

Lemma textStep_amp (o : string) (b0 b1 : ascii) :
  xml.textStep (xml.mkTS o None b0 b1 None) "&"
  = xml.mkTS o (Some EmptyString) zero zero None.
Proof.
  unfold xml.textStep; cbn [xml.tsErr xml.tsEnt xml.tsB0 xml.tsB1 xml.tsOut].
  change (xml.isByte 62 "&") with false. rewrite andb_false_r. reflexivity.
Qed.

(** An entity is replaced by the character it stands for. *)
Lemma textRun_entity (body : string) (t : string) (o : string) (b0 b1 : ascii) :
  xml.textRun (xml.mkTS o (Some EmptyString) zero zero None) (body ++ ";")
  = xml.mkTS (o ++ t) None zero zero None ->
  xml.textRun (xml.mkTS o None b0 b1 None) ("&" ++ body ++ ";")
  = xml.mkTS (o ++ t) None zero zero None.
Proof. intros Hrun. cbn [String.append xml.textRun]. now rewrite textStep_amp. Qed.

Lemma textRun_high (v : string) :
  highBytes v = true ->
  forall o b0 b1, exists b0' b1',
    xml.textRun (xml.mkTS o None b0 b1 None) v = xml.mkTS (o ++ v) None b0' b1' None.
Proof.
  induction v as [|c v IH]; intros Hv o b0 b1; cbn [xml.textRun highBytes] in *.
  - exists b0, b1. now rewrite append_nil_r.
  - apply andb_prop in Hv as [Hc Hv]. apply Z.leb_le in Hc.
    rewrite textStep_literal by (apply isByte_false; lia).
    destruct (IH Hv (xml.snoc o c) b1 c) as (b0' & b1' & Hrun).
    exists b0', b1'. now rewrite Hrun, snoc_append.
Qed.

(** What [EscapeText] writes for an ASCII character of the character
    range is read back as that character. *)
Lemma textRun_escapeRune_ascii (c : ascii) (o : string) (b0 b1 : ascii) :
  byteZ c < 128 -> isInCharacterRange (byteZ c) = true ->
  exists b0' b1',
    xml.textRun (xml.mkTS o None b0 b1 None)
      (escapeRune (byteZ c) 1 (String c EmptyString))
    = xml.mkTS (o ++ String c EmptyString) None b0' b1' None.
Proof.
  intros Hc Hr. unfold escapeRune.
  assert (Hspecial : forall n body,
            byteZ c = n ->
            xml.textRun (xml.mkTS o (Some EmptyString) zero zero None) (body ++ ";")
            = xml.mkTS (o ++ String (byteOf n) EmptyString) None zero zero None ->
            exists b0' b1',
              xml.textRun (xml.mkTS o None b0 b1 None) ("&" ++ body ++ ";")
              = xml.mkTS (o ++ String c EmptyString) None b0' b1' None).
  { intros n body He Hrun. exists zero, zero.
    rewrite <- (byteOf_byteZ c), He. now apply textRun_entity. }
  destruct (Z.eqb_spec (byteZ c) 34); [apply (Hspecial 34 "#34"); [assumption | reflexivity] |].
  destruct (Z.eqb_spec (byteZ c) 39); [apply (Hspecial 39 "#39"); [assumption | reflexivity] |].
  destruct (Z.eqb_spec (byteZ c) 38); [apply (Hspecial 38 "amp"); [assumption | reflexivity] |].
  destruct (Z.eqb_spec (byteZ c) 60); [apply (Hspecial 60 "lt"); [assumption | reflexivity] |].
  destruct (Z.eqb_spec (byteZ c) 62); [apply (Hspecial 62 "gt"); [assumption | reflexivity] |].
  destruct (Z.eqb_spec (byteZ c) 9); [apply (Hspecial 9 "#x9"); [assumption | reflexivity] |].
  destruct (Z.eqb_spec (byteZ c) 10); [apply (Hspecial 10 "#xA"); [assumption | reflexivity] |].
  destruct (Z.eqb_spec (byteZ c) 13); [apply (Hspecial 13 "#xD"); [assumption | reflexivity] |].
  destruct (Z.eqb_spec (byteZ c) RuneError); [unfold RuneError in *; lia |].
  rewrite Hr. cbn [negb orb andb].
  exists b1, c. cbn [xml.textRun].
  rewrite textStep_literal by (apply isByte_false; assumption).
  reflexivity.
Qed.

Lemma escapeRune_raw (r : Z) (w : nat) (raw : string) :
  128 <= r -> (2 <= w)%nat -> isInCharacterRange r = true ->
  escapeRune r w raw = raw.
Proof.
  intros Hr Hw Hin. unfold escapeRune.
  repeat match goal with
         | |- context [r =? ?n] => destruct (Z.eqb_spec r n) as [He|?]; [lia |]
         end.
  rewrite Hin. cbn [negb orb].
  destruct (Nat.eqb_spec w 1); [lia |]. now rewrite andb_false_r.
Qed.

Lemma textRun_escapeFrom (s : string) :
  forall (k : nat) (o : string) (b0 b1 : ascii),
  xml.validFrom k s = true ->
  exists b0' b1',
    xml.textRun (xml.mkTS o None b0 b1 None) (escapeFrom k s)
    = xml.mkTS (o ++ drop k s) None b0' b1' None.
Proof.
  induction s as [|c rest IH]; intros k o b0 b1 Hv.
  - exists b0, b1. destruct k; cbn; now rewrite append_nil_r.
  - destruct k as [|k]; [| exact (IH k o b0 b1 Hv)].
    cbn [escapeFrom xml.validFrom drop] in *.
    pose proof (DecodeRune_cases c rest) as Hcases.
    destruct (DecodeRune (String c rest)) as [r w].
    apply andb_prop in Hv as [Hv Hrest]. apply andb_prop in Hv as [Hne Hin].
    rewrite textRun_app.
    destruct Hcases as [(-> & -> & Hc) | [(-> & ->) | (Hw & Hr & Hc & Hhigh & Hlen)]].
    + destruct (textRun_escapeRune_ascii c o b0 b1 Hc Hin) as (b0' & b1' & Hrun).
      cbn [take]. rewrite Hrun. cbn [Nat.sub] in *.
      destruct (IH O (o ++ String c EmptyString) b0' b1' Hrest) as (b0'' & b1'' & Hrun').
      exists b0'', b1''. rewrite Hrun'. cbn [drop]. now rewrite append_assoc.
    + discriminate.
    + rewrite (escapeRune_raw r w _ Hr) by (lia || assumption).
      destruct w as [|w]; [lia |]. cbn [take Nat.sub] in *. rewrite Nat.sub_0_r in *.
      assert (Hraw : highBytes (String c (take w rest)) = true).
      { cbn [highBytes]. rewrite Hhigh, andb_true_r. now apply Z.leb_le. }
      destruct (textRun_high _ Hraw o b0 b1) as (b0' & b1' & Hrun).
      rewrite Hrun.
      destruct (IH w (o ++ String c (take w rest)) b0' b1' Hrest) as (b0'' & b1'' & Hrun').
      exists b0'', b1''. rewrite Hrun'. f_equal.
      rewrite append_assoc. cbn [String.append]. now rewrite take_drop.
Qed.

(** Text that XML can carry is read back as it was before
    [EscapeText]. *)
Lemma decodeText_EscapeText (v : string) :
  xmlText v = true -> xml.decodeText (EscapeText v) = Ok v.
Proof.
  intros Hv. unfold xml.decodeText, EscapeText, xml.textInit.
  destruct (textRun_escapeFrom v O EmptyString zero zero Hv) as (b0' & b1' & Hrun).
  rewrite Hrun. cbn [xml.tsErr xml.tsEnt xml.tsOut drop String.append].
  unfold xmlText in Hv. now rewrite Hv.
Qed.

Lemma noLt_app (a b : string) : noLt (a ++ b) = noLt a && noLt b.
Proof.
  induction a as [|c a IH]; cbn [String.append noLt]; [reflexivity |].
  now rewrite IH, andb_assoc.
Qed.

Lemma noLt_high (v : string) : highBytes v = true -> noLt v = true.
Proof.
  induction v as [|c v IH]; cbn [highBytes noLt]; [reflexivity |].
  intros Hv. apply andb_prop in Hv as [Hc Hv]. apply Z.leb_le in Hc.
  rewrite (IH Hv), andb_true_r. unfold xml.isByte.
  destruct (Z.eqb_spec (byteZ c) 60); [lia | reflexivity].
Qed.

(** [EscapeText] never writes the character that opens a tag. *)
Lemma noLt_escapeFrom (s : string) : forall k : nat, noLt (escapeFrom k s) = true.
Proof.
  induction s as [|c rest IH]; intros k; [now destruct k |].
  destruct k as [|k]; [| exact (IH k)].
  cbn [escapeFrom].
  pose proof (DecodeRune_cases c rest) as Hcases.
  destruct (DecodeRune (String c rest)) as [r w].
  rewrite noLt_app, IH, andb_true_r.
  unfold escapeRune.
  repeat match goal with
         | |- context [r =? ?n] => destruct (Z.eqb_spec r n) as [He|?]; [reflexivity |]
         end.
  match goal with
  | |- context [if ?b then _ else _] => destruct b eqn:Hb; [reflexivity |]
  end.
  destruct Hcases as [(-> & -> & Hc) | [(-> & ->) | (Hw & Hr & Hc & Hhigh & Hlen)]].
  - cbn [take noLt]. rewrite andb_true_r. unfold xml.isByte.
    destruct (Z.eqb_spec (byteZ c) 60); [contradiction | reflexivity].
  - discriminate.
  - destruct w as [|w]; [lia |]. cbn [take Nat.sub] in *. rewrite Nat.sub_0_r in *.
    apply noLt_high. cbn [highBytes]. rewrite Hhigh, andb_true_r. now apply Z.leb_le.
Qed.

(** ** The tokens of a row *)

Lemma run_app (a b : string) :
  forall st, lexer.run st (a ++ b) = lexer.run (lexer.run st a) b.
Proof. induction a as [|c a IH]; intros st; cbn; [reflexivity | apply IH]. Qed.

(** Inside a quoted value plain bytes are collected. *)
Lemma lex_attr_value (v : string) :
  plainAttr v = true ->
  forall o k n attrs an raw,
  lexer.run (lexer.mkState o k (lexer.MAttrVal n attrs an dqc raw)) v
  = lexer.mkState o k (lexer.MAttrVal n attrs an dqc (raw ++ v)).
Proof.
  induction v as [|c v IH]; intros Hv o k n attrs an raw; cbn [lexer.run plainAttr] in *.
  - now rewrite append_nil_r.
  - apply andb_prop in Hv as [Hc Hv].
    assert (Hstep : lexer.step (lexer.mkState o k (lexer.MAttrVal n attrs an dqc raw)) c
                    = lexer.mkState o k (lexer.MAttrVal n attrs an dqc (xml.snoc raw c))).
    { unfold lexer.step; cbn [lexer.mode].
      rewrite (eqb_isByte 34 c dqc) by (reflexivity || (byte_cases; byte_decide; reflexivity)).
      replace (xml.isByte 60 c) with false by (byte_cases; byte_decide; reflexivity).
      reflexivity. }
    rewrite Hstep, IH by exact Hv. now rewrite snoc_append.
Qed.

(** A quoted plain value, up to its closing quote, becomes one more
    attribute. *)
Lemma lex_quoted (v : string) (o : list Token) (k : list xmlName)
    (n : xmlName) (attrs : list xmlAttr) (an : xmlName) :
  plainAttr v = true ->
  lexer.run (lexer.mkState o k (lexer.MAttrVal n attrs an dqc EmptyString)) (v ++ dq)
  = lexer.mkState o k (lexer.MAttrs n (attrs ++ [mkAttr an v])%list).
Proof.
  intros Hv. rewrite run_app, (lex_attr_value v Hv). cbn [String.append].
  unfold dq. cbn [lexer.run]. unfold lexer.step; cbn [lexer.mode].
  change (Ascii.eqb (ascii_of_nat 34) dqc) with true. cbv iota.
  now rewrite (decodeText_plain v Hv).
Qed.

(** Outside markup everything up to the next tag is collected. *)
Lemma lex_text (t : string) :
  noLt t = true ->
  forall o k raw,
  lexer.run (lexer.mkState o k (lexer.MText raw)) t
  = lexer.mkState o k (lexer.MText (raw ++ t)).
Proof.
  induction t as [|c t IH]; intros Ht o k raw; cbn [lexer.run noLt] in *.
  - now rewrite append_nil_r.
  - apply andb_prop in Ht as [Hc Ht]. apply negb_true_iff in Hc.
    unfold lexer.step at 1; cbn [lexer.mode]. rewrite Hc.
    unfold lexer.goto; cbn [lexer.out lexer.stack].
    rewrite IH by exact Ht. now rewrite snoc_append.
Qed.

Lemma lex_open_c (o : list Token) (k : list xmlName) :
  lexer.run (lexer.mkState o k (lexer.MText EmptyString)) "<c"
  = lexer.mkState o k (lexer.MStartName "c").
Proof. reflexivity. Qed.

Lemma lex_space_open (o : list Token) (k : list xmlName) :
  lexer.run (lexer.mkState o k (lexer.MStartName "c")) (" xml:space=" ++ dq)
  = lexer.mkState o k (lexer.MAttrVal cName [] (mkName "xml" "space") dqc EmptyString).
Proof. reflexivity. Qed.

Lemma lex_r_open_first (o : list Token) (k : list xmlName) (n : string) :
  n = "c" \/ n = "row" ->
  lexer.run (lexer.mkState o k (lexer.MStartName n)) (" r=" ++ dq)
  = lexer.mkState o k
      (lexer.MAttrVal (mkName EmptyString n) [] (mkName EmptyString "r") dqc EmptyString).
Proof. intros [->| ->]; reflexivity. Qed.

Lemma lex_attr_open (o : list Token) (k : list xmlName) (n : xmlName)
    (attrs : list xmlAttr) (a : string) :
  a = "r" \/ a = "s" \/ a = "t" ->
  lexer.run (lexer.mkState o k (lexer.MAttrs n attrs)) (" " ++ a ++ "=" ++ dq)
  = lexer.mkState o k (lexer.MAttrVal n attrs (mkName EmptyString a) dqc EmptyString).
Proof. intros [->| [->| ->]]; reflexivity. Qed.

Lemma lex_tag_close (o : list Token) (k : list xmlName) (n : xmlName)
    (attrs : list xmlAttr) :
  lexer.run (lexer.mkState o k (lexer.MAttrs n attrs)) ">"
  = lexer.mkState (o ++ [StartElement n attrs]) (n :: k) (lexer.MText EmptyString).
Proof. reflexivity. Qed.

Lemma lex_open_v (o : list Token) (k : list xmlName) :
  lexer.run (lexer.mkState o k (lexer.MText EmptyString)) "<v>"
  = lexer.mkState (o ++ [StartElement vName []]) (vName :: k) (lexer.MText EmptyString).
Proof. reflexivity. Qed.

Lemma lex_end (o : list Token) (k : list xmlName) (n : string) :
  n = "c" \/ n = "row" ->
  lexer.run (lexer.mkState o (mkName EmptyString n :: k) (lexer.MText EmptyString))
    ("</" ++ n ++ ">")
  = lexer.mkState (o ++ [EndElement (mkName EmptyString n)]) k (lexer.MText EmptyString).
Proof. intros [->| ->]; reflexivity. Qed.

Lemma lex_open_row (o : list Token) (k : list xmlName) :
  lexer.run (lexer.mkState o k (lexer.MText EmptyString)) "<row"
  = lexer.mkState o k (lexer.MStartName "row").
Proof. reflexivity. Qed.

Lemma lex_text_end (o : list Token) (k : list xmlName) (raw data X : string) :
  xml.decodeText raw = Ok data -> isEmpty raw = false ->
  lexer.run (lexer.mkState o (vName :: k) (lexer.MText raw)) ("</v>" ++ X)
  = lexer.run (lexer.mkState (o ++ [CharData data; EndElement vName]) k
      (lexer.MText EmptyString)) X.
Proof.
  intros Hdec Hne. cbn [String.append lexer.run].
  unfold lexer.step at 4; cbn [lexer.mode].
  change (xml.isByte 60 "<") with true. cbv iota. rewrite Hne, Hdec.
  replace (o ++ [CharData data; EndElement vName])%list
    with ((o ++ [CharData data]) ++ [EndElement vName])%list
    by now rewrite <- app_assoc.
  reflexivity.
Qed.

Lemma EscapeText_nonempty (v : string) :
  isEmpty v = false -> isEmpty (EscapeText v) = false.
Proof.
  destruct v as [|c rest]; [discriminate |]. intros _.
  unfold EscapeText. cbn [escapeFrom].
  pose proof (DecodeRune_cases c rest) as Hcases.
  destruct (DecodeRune (String c rest)) as [r w].
  assert (Hrune : isEmpty (escapeRune r w (take w (String c rest))) = false).
  { unfold escapeRune.
    repeat match goal with
           | |- context [if ?b then _ else _] => destruct b; [reflexivity |]
           end.
    destruct Hcases as [(-> & _) | [(-> & _) | (Hw & _)]]; try reflexivity.
    destruct w; [lia | reflexivity]. }
  destruct (escapeRune r w (take w (String c rest))); [discriminate | reflexivity].
Qed.

(** The markup of a cell, piece by piece. *)
Lemma cellMarkup_pieces (c : xlsxC.t) :
  cellMarkup c
  = "<c" ++ spaceAttrMarkup c ++ (" r=" ++ dq ++ xlsxC.R c ++ dq)
    ++ styleAttrMarkup c ++ typeAttrMarkup c ++ ">" ++ valueMarkup c ++ "</c>".
Proof.
  unfold cellMarkup, writeCell, spaceAttrMarkup, styleAttrMarkup, typeAttrMarkup,
    valueMarkup, hasSpaceAttr, bufferedWriter.WriteString, bufferedWriter.Write.
  destruct (negb (isEmpty (Value (xlsxC.XMLSpace c))));
    destruct (negb (xlsxC.S c =? 0));
    destruct (negb (isEmpty (xlsxC.T c)));
    destruct (negb (isEmpty (xlsxC.V c)));
    cbn [tmp buf bufferedWriter.empty];
    rewrite ?append_assoc; cbn [String.append]; reflexivity.
Qed.

Lemma plainAttr_uint (d : Decimal.uint) : plainAttr (NilEmpty.string_of_uint d) = true.
Proof. induction d; cbn [NilEmpty.string_of_uint plainAttr]; [reflexivity | ..]; exact IHd. Qed.

Lemma plainAttr_Itoa (z : Z) : plainAttr (Itoa z) = true.
Proof.
  unfold Itoa, NilZero.string_of_int, NilZero.string_of_uint.
  destruct (Z.to_int z) as [d|d]; destruct d eqn:Hd; try reflexivity;
    rewrite <- Hd; cbn [plainAttr]; apply plainAttr_uint.
Qed.

Lemma wellFormedCell_parts (c : xlsxC.t) :
  wellFormedCell c = true ->
  plainAttr (xlsxC.R c) = true
  /\ plainAttr (xlsxC.T c) = true
  /\ MinInt64 <= xlsxC.S c <= MaxInt64
  /\ (hasSpaceAttr c = true ->
      Local (Name (xlsxC.XMLSpace c)) = "space"
      /\ plainAttr (Value (xlsxC.XMLSpace c)) = true)
  /\ xmlText (xlsxC.V c) = true.
Proof.
  unfold wellFormedCell. intros Hw.
  apply andb_prop in Hw as [Hw HV]. apply andb_prop in Hw as [Hw Hsp].
  apply andb_prop in Hw as [Hw Hhi]. apply andb_prop in Hw as [Hw Hlo].
  apply andb_prop in Hw as [HR HT].
  apply Z.leb_le in Hlo. apply Z.leb_le in Hhi.
  split; [exact HR |]. split; [exact HT |]. split; [lia |]. split; [| exact HV].
  intros Hhas. rewrite Hhas in Hsp. cbn [negb orb] in Hsp.
  apply andb_prop in Hsp as [Hl Hv]. apply String.eqb_eq in Hl. now split.
Qed.

(** The literal pieces of the markup, each followed by whatever comes
    next. *)
Lemma lex_c_space (o : list Token) (k : list xmlName) (X : string) :
  lexer.run (lexer.mkState o k (lexer.MText EmptyString))
    ("<c xml:space=" ++ String dqc X)
  = lexer.run (lexer.mkState o k
      (lexer.MAttrVal cName [] (mkName "xml" "space") dqc EmptyString)) X.
Proof. reflexivity. Qed.

Lemma lex_c_r (o : list Token) (k : list xmlName) (X : string) :
  lexer.run (lexer.mkState o k (lexer.MText EmptyString)) ("<c r=" ++ String dqc X)
  = lexer.run (lexer.mkState o k
      (lexer.MAttrVal cName [] (mkName EmptyString "r") dqc EmptyString)) X.
Proof. reflexivity. Qed.

Lemma lex_row_r (o : list Token) (k : list xmlName) (X : string) :
  lexer.run (lexer.mkState o k (lexer.MText EmptyString)) ("<row r=" ++ String dqc X)
  = lexer.run (lexer.mkState o k
      (lexer.MAttrVal rowName [] (mkName EmptyString "r") dqc EmptyString)) X.
Proof. reflexivity. Qed.

Lemma lex_next_r (o : list Token) (k : list xmlName) (n : xmlName)
    (attrs : list xmlAttr) (X : string) :
  lexer.run (lexer.mkState o k (lexer.MAttrs n attrs)) (" r=" ++ String dqc X)
  = lexer.run (lexer.mkState o k
      (lexer.MAttrVal n attrs (mkName EmptyString "r") dqc EmptyString)) X.
Proof. reflexivity. Qed.

Lemma lex_next_s (o : list Token) (k : list xmlName) (n : xmlName)
    (attrs : list xmlAttr) (X : string) :
  lexer.run (lexer.mkState o k (lexer.MAttrs n attrs)) (" s=" ++ String dqc X)
  = lexer.run (lexer.mkState o k
      (lexer.MAttrVal n attrs (mkName EmptyString "s") dqc EmptyString)) X.
Proof. reflexivity. Qed.

Lemma lex_next_t (o : list Token) (k : list xmlName) (n : xmlName)
    (attrs : list xmlAttr) (X : string) :
  lexer.run (lexer.mkState o k (lexer.MAttrs n attrs)) (" t=" ++ String dqc X)
  = lexer.run (lexer.mkState o k
      (lexer.MAttrVal n attrs (mkName EmptyString "t") dqc EmptyString)) X.
Proof. reflexivity. Qed.

Lemma lex_gt (o : list Token) (k : list xmlName) (n : xmlName)
    (attrs : list xmlAttr) (X : string) :
  lexer.run (lexer.mkState o k (lexer.MAttrs n attrs)) (">" ++ X)
  = lexer.run (lexer.mkState (o ++ [StartElement n attrs]) (n :: k)
      (lexer.MText EmptyString)) X.
Proof. reflexivity. Qed.

Lemma lex_v (o : list Token) (k : list xmlName) (X : string) :
  lexer.run (lexer.mkState o k (lexer.MText EmptyString)) ("<v>" ++ X)
  = lexer.run (lexer.mkState (o ++ [StartElement vName []]) (vName :: k)
      (lexer.MText EmptyString)) X.
Proof. reflexivity. Qed.

Lemma lex_end_c (o : list Token) (k : list xmlName) (X : string) :
  lexer.run (lexer.mkState o (cName :: k) (lexer.MText EmptyString)) ("</c>" ++ X)
  = lexer.run (lexer.mkState (o ++ [EndElement cName]) k (lexer.MText EmptyString)) X.
Proof. reflexivity. Qed.

Lemma lex_end_row (o : list Token) (k : list xmlName) (X : string) :
  lexer.run (lexer.mkState o (rowName :: k) (lexer.MText EmptyString)) ("</row>" ++ X)
  = lexer.run (lexer.mkState (o ++ [EndElement rowName]) k (lexer.MText EmptyString)) X.
Proof. reflexivity. Qed.

Lemma lex_quoted_then (v : string) (o : list Token) (k : list xmlName)
    (n : xmlName) (attrs : list xmlAttr) (an : xmlName) (X : string) :
  plainAttr v = true ->
  lexer.run (lexer.mkState o k (lexer.MAttrVal n attrs an dqc EmptyString))
    (v ++ String dqc X)
  = lexer.run (lexer.mkState o k (lexer.MAttrs n (attrs ++ [mkAttr an v])%list)) X.
Proof.
  intros Hv. rewrite run_app, (lex_attr_value v Hv).
  cbn [String.append lexer.run]. unfold lexer.step at 1; cbn [lexer.mode].
  change (Ascii.eqb dqc dqc) with true. cbv iota.
  now rewrite (decodeText_plain v Hv).
Qed.

Lemma lex_value_then (v : string) (o : list Token) (k : list xmlName) (X : string) :
  xmlText v = true -> isEmpty v = false ->
  lexer.run (lexer.mkState o (vName :: k) (lexer.MText EmptyString))
    (EscapeText v ++ "</v>" ++ X)
  = lexer.run (lexer.mkState (o ++ [CharData v; EndElement vName]) k
      (lexer.MText EmptyString)) X.
Proof.
  intros Hv Hne.
  rewrite run_app, lex_text by apply noLt_escapeFrom.
  cbn [String.append].
  exact (lex_text_end _ _ _ v X (decodeText_EscapeText v Hv) (EscapeText_nonempty v Hne)).
Qed.

Ltac lex_by L := etransitivity; [apply L |].
Ltac lex_with L H := etransitivity; [apply L; exact H |].
Ltac normal_markup := unfold dq; rewrite ?append_assoc; cbn [String.append].

Lemma lex_head_then (c : xlsxC.t) (o : list Token) (k : list xmlName) (X : string) :
  wellFormedCell c = true ->
  lexer.run (lexer.mkState o k (lexer.MText EmptyString))
    ("<c" ++ spaceAttrMarkup c ++ " r=" ++ dq ++ xlsxC.R c ++ dq ++ X)
  = lexer.run (lexer.mkState o k
      (lexer.MAttrs cName
         ((if hasSpaceAttr c
           then [mkAttr (mkName "xml" "space") (Value (xlsxC.XMLSpace c))] else [])
          ++ [attrNamed "r" (xlsxC.R c)])%list)) X.
Proof.
  intros Hw. destruct (wellFormedCell_parts c Hw) as (HR & _ & _ & Hsp & _).
  unfold spaceAttrMarkup. destruct (hasSpaceAttr c).
  - destruct (Hsp eq_refl) as [Hl Hv]. rewrite Hl. normal_markup.
    lex_by lex_c_space. lex_with lex_quoted_then Hv.
    lex_by lex_next_r. lex_with lex_quoted_then HR. reflexivity.
  - normal_markup.
    lex_by lex_c_r. lex_with lex_quoted_then HR. reflexivity.
Qed.

Lemma lex_style_then (c : xlsxC.t) (o : list Token) (k : list xmlName)
    (attrs : list xmlAttr) (X : string) :
  lexer.run (lexer.mkState o k (lexer.MAttrs cName attrs)) (styleAttrMarkup c ++ X)
  = lexer.run (lexer.mkState o k
      (lexer.MAttrs cName
         (attrs ++ (if negb (xlsxC.S c =? 0)
                    then [attrNamed "s" (Itoa (xlsxC.S c))] else []))%list)) X.
Proof.
  unfold styleAttrMarkup. destruct (negb (xlsxC.S c =? 0)).
  - normal_markup. lex_by lex_next_s.
    lex_with lex_quoted_then (plainAttr_Itoa (xlsxC.S c)). reflexivity.
  - now rewrite app_nil_r.
Qed.

Lemma lex_type_then (c : xlsxC.t) (o : list Token) (k : list xmlName)
    (attrs : list xmlAttr) (X : string) :
  plainAttr (xlsxC.T c) = true ->
  lexer.run (lexer.mkState o k (lexer.MAttrs cName attrs)) (typeAttrMarkup c ++ X)
  = lexer.run (lexer.mkState o k
      (lexer.MAttrs cName
         (attrs ++ (if negb (isEmpty (xlsxC.T c))
                    then [attrNamed "t" (xlsxC.T c)] else []))%list)) X.
Proof.
  intros HT. unfold typeAttrMarkup. destruct (negb (isEmpty (xlsxC.T c))).
  - normal_markup. lex_by lex_next_t.
    lex_with lex_quoted_then HT. reflexivity.
  - now rewrite app_nil_r.
Qed.

Lemma lex_valueMarkup_then (c : xlsxC.t) (o : list Token) (k : list xmlName)
    (X : string) :
  xmlText (xlsxC.V c) = true ->
  lexer.run (lexer.mkState o k (lexer.MText EmptyString)) (valueMarkup c ++ X)
  = lexer.run (lexer.mkState
      (o ++ (if negb (isEmpty (xlsxC.V c))
             then [StartElement vName []; CharData (xlsxC.V c); EndElement vName]
             else []))%list k (lexer.MText EmptyString)) X.
Proof.
  intros HV. unfold valueMarkup. destruct (isEmpty (xlsxC.V c)) eqn:HVe; cbn [negb].
  - now rewrite app_nil_r.
  - rewrite !append_assoc. lex_by lex_v.
    etransitivity; [apply lex_value_then; [exact HV | exact HVe] |].
    now rewrite <- app_assoc.
Qed.

(** The decoder reads the markup of a well-formed cell as the tokens of
    that cell, and is outside markup again after it. *)
Lemma lex_cell_then (c : xlsxC.t) (o : list Token) (k : list xmlName) (X : string) :
  wellFormedCell c = true ->
  lexer.run (lexer.mkState o k (lexer.MText EmptyString)) (cellMarkup c ++ X)
  = lexer.run (lexer.mkState (o ++ cellTokens c) k (lexer.MText EmptyString)) X.
Proof.
  intros Hw.
  destruct (wellFormedCell_parts c Hw) as (HR & HT & HS & Hsp & HV).
  rewrite cellMarkup_pieces. rewrite !append_assoc.
  rewrite (lex_head_then c o k _ Hw).
  rewrite lex_style_then, (lex_type_then c _ _ _ _ HT).
  lex_by lex_gt.
  rewrite (lex_valueMarkup_then c _ _ _ HV).
  lex_by lex_end_c.
  unfold cellTokens, cellStartAttrs.
  rewrite <- !app_assoc. reflexivity.
Qed.

Lemma lex_cells_then (cs : list xlsxC.t) :
  wellFormedCells cs = true ->
  forall (o : list Token) (k : list xmlName) (X : string),
  lexer.run (lexer.mkState o k (lexer.MText EmptyString)) (cellsMarkup cs ++ X)
  = lexer.run (lexer.mkState (o ++ cellsTokens cs) k (lexer.MText EmptyString)) X.
Proof.
  induction cs as [|c cs IH]; intros Hw o k X; cbn [cellsMarkup cellsTokens].
  - now rewrite app_nil_r.
  - cbn [wellFormedCells forallb] in Hw. apply andb_prop in Hw as [Hc Hcs].
    rewrite append_assoc, (lex_cell_then c o k _ Hc), (IH Hcs).
    now rewrite app_assoc.
Qed.

(** The decoder reads the markup of a row of well-formed cells as the
    tokens of that row. *)
Lemma lex_row_then (row : Z) (cs : list xlsxC.t) (o : list Token)
    (k : list xmlName) (X : string) :
  wellFormedCells cs = true ->
  lexer.run (lexer.mkState o k (lexer.MText EmptyString)) (rowMarkup row cs ++ X)
  = lexer.run (lexer.mkState (o ++ rowTokens row cs) k (lexer.MText EmptyString)) X.
Proof.
  intros Hw. unfold rowMarkup, rowOpen, rowTokens, rowStart.
  unfold dq; rewrite ?append_assoc; cbn [String.append].
  etransitivity; [apply lex_row_r |].
  etransitivity; [apply lex_quoted_then, plainAttr_Itoa |].
  etransitivity; [apply lex_gt |].
  rewrite (lex_cells_then cs Hw).
  etransitivity; [apply lex_end_row |].
  cbn [app]. rewrite <- !app_assoc. reflexivity.
Qed.

(** The tokens of a buffer that ends with a row, when the decoder is
    outside markup where the row starts. *)
Lemma tokens_with_row (pre : string) (row : Z) (cs : list xlsxC.t)
    (o : list Token) (k : list xmlName) :
  wellFormedCells cs = true ->
  lexer.run lexer.init pre = lexer.mkState o k (lexer.MText EmptyString) ->
  fst (lexer.tokens (mkReader (pre ++ rowMarkup row cs) None))
  = (o ++ rowTokens row cs)%list.
Proof.
  intros Hw Hpre. unfold lexer.tokens; cbn [rdata rerr].
  rewrite run_app, Hpre.
  rewrite <- (append_nil_r (rowMarkup row cs)), (lex_row_then row cs o k _ Hw).
  cbn [lexer.run]. unfold lexer.finish; cbn [lexer.mode lexer.out lexer.stack isEmpty].
  now destruct k.
Qed.

(** ** Decoding the row *)

Lemma Atoi_Itoa (z : Z) : fitsInt64 z = true -> Atoi (Itoa z) = z.
Proof.
  unfold fitsInt64, Atoi. intros Hz. apply andb_prop in Hz as [Hlo Hhi].
  apply Z.leb_le in Hlo. apply Z.leb_le in Hhi.
  rewrite parseDecimal_Itoa. lia.
Qed.

Lemma intAttr_Itoa (z : Z) : fitsInt64 z = true -> unmarshal.intAttr (Itoa z) = Ok z.
Proof.
  unfold unmarshal.intAttr. intros Hz. rewrite parseDecimal_Itoa.
  unfold fitsInt64 in Hz. now rewrite Hz.
Qed.

Lemma getRowElement_rowStart (row : Z) :
  fitsInt64 row = true -> getRowElement (rowStart row) row = true.
Proof.
  intros Hrow. unfold getRowElement, rowStart, rowName, attrNamed.
  cbn [Local rowAttrMatches Name Value negb String.eqb Ascii.eqb Bool.eqb andb].
  change ("row" =? "row")%string with true. change ("r" =? "r")%string with true.
  cbn [negb andb]. now rewrite (Atoi_Itoa row Hrow), Z.eqb_refl.
Qed.

Lemma isEmpty_true (s : string) : isEmpty s = true -> s = EmptyString.
Proof. now destruct s. Qed.

(** The attributes of the start tag give back the fields they were
    written from. *)
Lemma cellAttrs_cellStartAttrs (c : xlsxC.t) :
  wellFormedCell c = true ->
  unmarshal.cellAttrs unmarshal.emptyC (cellStartAttrs c)
  = Ok (xlsxC.mk (xlsxC.XMLSpace (decodedCell c)) (xlsxC.R c) (xlsxC.S c)
                 (xlsxC.T c) EmptyString).
Proof.
  intros Hw. destruct (wellFormedCell_parts c Hw) as (_ & _ & HS & _ & _).
  assert (HSi : unmarshal.intAttr (Itoa (xlsxC.S c)) = Ok (xlsxC.S c)).
  { apply intAttr_Itoa. unfold fitsInt64.
    destruct (Z.leb_spec MinInt64 (xlsxC.S c)); [| lia].
    destruct (Z.leb_spec (xlsxC.S c) MaxInt64); [reflexivity | lia]. }
  unfold cellStartAttrs, decodedCell, unmarshal.emptyC, attrNamed.
  destruct (hasSpaceAttr c);
    destruct (Z.eqb_spec (xlsxC.S c) 0) as [HS0|HS0];
    destruct (isEmpty (xlsxC.T c)) eqn:HT;
    try (apply isEmpty_true in HT);
    cbn [negb app unmarshal.cellAttrs Local Name Value xlsxC.XMLSpace xlsxC.R
         xlsxC.S xlsxC.T xlsxC.V];
    repeat match goal with
           | |- context [String.eqb ?a ?b] =>
               let v := eval vm_compute in (String.eqb a b) in
               change (String.eqb a b) with v
           end;
    cbv iota;
    rewrite ?HSi; cbn [xlsxC.XMLSpace xlsxC.R xlsxC.S xlsxC.T xlsxC.V];
    rewrite <- ?HS0, <- ?HT; reflexivity.
Qed.

Lemma children_cell (c : xlsxC.t) :
  wellFormedCell c = true ->
  forall (acc : list xlsxC.t) (rest : list Token) (term : Terminal),
  unmarshal.children unmarshal.InRow acc (cellTokens c ++ rest)%list term
  = unmarshal.children unmarshal.InRow (acc ++ [decodedCell c])%list rest term.
Proof.
  intros Hw acc rest term. unfold cellTokens.
  cbn [app unmarshal.children]. unfold cName at 1.
  cbn [Local]. change ("c" =? "c")%string with true. cbv iota.
  rewrite (cellAttrs_cellStartAttrs c Hw).
  destruct (isEmpty (xlsxC.V c)) eqn:HV; cbn [negb app unmarshal.children].
  - apply isEmpty_true in HV. unfold decodedCell. now rewrite HV.
  - unfold vName at 1. cbn [Local]. change ("v" =? "v")%string with true.
    cbn [negb andb String.append xlsxC.XMLSpace xlsxC.R xlsxC.S xlsxC.T xlsxC.V].
    reflexivity.
Qed.

Lemma children_cells (cs : list xlsxC.t) :
  wellFormedCells cs = true ->
  forall (acc : list xlsxC.t) (n : xmlName) (rest : list Token) (term : Terminal),
  unmarshal.children unmarshal.InRow acc
    (cellsTokens cs ++ EndElement n :: rest)%list term
  = Ok (acc ++ List.map decodedCell cs)%list.
Proof.
  induction cs as [|c cs IH]; intros Hw acc n rest term; cbn [cellsTokens List.map].
  - cbn. now rewrite app_nil_r.
  - cbn [wellFormedCells forallb] in Hw. apply andb_prop in Hw as [Hc Hcs].
    rewrite <- app_assoc, (children_cell c Hc), (IH Hcs).
    now rewrite <- app_assoc.
Qed.

(** [DecodeElement] gives back the row that was written. *)
Lemma DecodeElement_row (row : Z) (cs : list xlsxC.t) (rest : list Token)
    (term : Terminal) :
  fitsInt64 row = true -> wellFormedCells cs = true ->
  unmarshal.DecodeElement (startAttrs (rowStart row))
    (cellsTokens cs ++ EndElement rowName :: rest)%list term
  = Ok (xlsxRow.mk row (List.map decodedCell cs)).
Proof.
  intros Hrow Hw. unfold unmarshal.DecodeElement, rowStart, startAttrs, attrNamed.
  cbn [unmarshal.rowAttrs Local Name Value]. change ("r" =? "r")%string with true.
  cbv iota. rewrite (intAttr_Itoa row Hrow).
  now rewrite (children_cells cs Hw).
Qed.

(** ** Tokens are only ever added *)

Lemma step_out (st : lexer.State) (c : ascii) :
  exists more, lexer.out (lexer.step st c) = (lexer.out st ++ more)%list.
Proof.
  unfold lexer.step, lexer.stepStartName, lexer.stepAttrs, lexer.stepAttrName,
    lexer.stepAttrEq, lexer.stepAttrQuote, lexer.stepEndName, lexer.stepEndSpace,
    lexer.stepPITarget, lexer.stepPISpace, lexer.stepPIBody,
    lexer.goto, lexer.fail, lexer.emit.
  destruct (lexer.mode st);
    repeat match goal with
           | |- context [if ?b then _ else _] => destruct b
           | |- context [match ?x with _ => _ end] => destruct x
           end;
    cbn [lexer.out];
    first [ now exists [] ; rewrite app_nil_r
          | eexists; reflexivity ].
Qed.

Lemma run_out (s : string) :
  forall st, exists more,
    lexer.out (lexer.run st s) = (lexer.out st ++ more)%list.
Proof.
  induction s as [|c s IH]; intros st; cbn [lexer.run].
  - exists []. now rewrite app_nil_r.
  - destruct (IH (lexer.step st c)) as [m1 H1].
    destruct (step_out st c) as [m2 H2].
    exists (m2 ++ m1)%list. now rewrite H1, H2, app_assoc.
Qed.

Lemma finish_out (rerr : option error) (st : lexer.State) :
  exists more, fst (lexer.finish rerr st) = (lexer.out st ++ more)%list.
Proof.
  unfold lexer.finish.
  destruct (lexer.mode st);
    repeat match goal with
           | |- context [if ?b then _ else _] => destruct b
           | |- context [match ?x with _ => _ end] => destruct x
           end;
    cbn [fst];
    first [ now exists [] ; rewrite app_nil_r
          | eexists; reflexivity ].
Qed.

(** ** Reading does not write *)

Lemma Reader_keeps (bw : bufferedWriter) (w : World) :
  appending bw ->
  content (snd (fst (bufferedWriter.Reader bw w))) = content bw
  /\ appending (snd (fst (bufferedWriter.Reader bw w))).
Proof.
  intros Happ. unfold bufferedWriter.Reader.
  destruct (tmp bw) as [f|] eqn:Htmp; [| simpl; tauto].
  unfold bind.
  pose proof (Flush_keeps bw w Happ) as (Hc & Ha & _).
  destruct (bufferedWriter.Flush bw w) as [[e bw1] w1]; cbn [fst snd] in *.
  destruct e as [e|]; [simpl; tauto |].
  destruct (tmp bw1) as [f1|]; [| simpl; tauto].
  destruct (os.Stat f1 w1) as [[size|e] w2]; [| simpl; tauto].
  unfold syscall, ret. destruct w2 as [|[|m] w2]; simpl; tauto.
Qed.

Lemma Reader_healthy (bw : bufferedWriter) (w : World) :
  appending bw -> healthy w ->
  fst (fst (bufferedWriter.Reader bw w)) = Ok (mkReader (content bw) None)
  /\ healthy (snd (bufferedWriter.Reader bw w)).
Proof.
  intros Happ Hw. unfold bufferedWriter.Reader.
  destruct (tmp bw) as [f|] eqn:Htmp.
  2: { simpl. unfold content. rewrite Htmp. tauto. }
  unfold bind.
  pose proof (Flush_keeps bw w Happ) as (Hc & Ha & _ & Hsome & Hbuf).
  pose proof (Flush_healthy bw w Happ Hw) as [He Hw1].
  destruct (bufferedWriter.Flush bw w) as [[e bw1] w1]; cbn [fst snd] in *; subst e.
  assert (Hne : tmp bw <> None) by congruence.
  specialize (Hbuf eq_refl Hne). specialize (Hsome Hne).
  destruct (tmp bw1) as [f1|] eqn:Htmp1; [| congruence].
  unfold appending in Ha. rewrite Htmp1 in Ha. destruct Ha as [Hpos Hopen].
  unfold content in Hc. rewrite Htmp1, Hbuf, append_nil_r in Hc.
  unfold os.Stat. rewrite Hopen. unfold bind, ret.
  destruct (healthy_syscall w1 Hw1) as [Hs Hw2].
  destruct (syscall w1) as [o1 w2]; cbn [fst snd] in *; subst o1.
  destruct (healthy_syscall w2 Hw2) as [Hs Hw3].
  destruct (syscall w2) as [o2 w3]; cbn [fst snd] in *; subst o2.
  cbn [fst snd]. split; [| exact Hw3].
  unfold Len. rewrite Nat2Z.id, take_all. now rewrite Hc.
Qed.

Section RoundTrip.
Context `{Package}.

(** ** A row is appended, whatever happens to the buffer *)

Lemma SetRow_appends (sw : StreamWriter) (axis : string) (col row : Z)
    (values : list CellValue) (cs : list xlsxC.t) (w : World) :
  CellNameToCoordinates axis = Ok (col, row) ->
  encodedCells col row 0 values = Some cs ->
  appending (rawData sw) ->
  content (rawData (snd (fst (SetRow sw axis values w))))
  = content (rawData sw) ++ rowMarkup row cs
  /\ appending (rawData (snd (fst (SetRow sw axis values w))))
  /\ (healthy w ->
      fst (fst (SetRow sw axis values w)) = None
      /\ healthy (snd (SetRow sw axis values w))).
Proof.
  intros Hparse Henc Happ.
  rewrite (SetRow_ok sw axis col row values cs w Hparse Henc).
  assert (Happ' : appending (appended (rawData sw) (rowMarkup row cs))).
  { unfold appending, appended in *; cbn [tmp]. exact Happ. }
  assert (Hc' : content (appended (rawData sw) (rowMarkup row cs))
                = content (rawData sw) ++ rowMarkup row cs).
  { unfold content, appended; cbn [tmp buf].
    destruct (tmp (rawData sw)); [now rewrite append_assoc | reflexivity]. }
  pose proof (Sync_keeps _ w Happ') as [Hc Ha].
  pose proof (Sync_healthy _ w Happ') as Hh.
  destruct (bufferedWriter.Sync (appended (rawData sw) (rowMarkup row cs)) w)
    as [[err bw] w']; cbn [fst snd rawData set_rawData] in *.
  split; [now rewrite Hc, Hc' |]. split; [exact Ha |]. exact Hh.
Qed.

(** [SetRow] changes nothing of the session but its buffer. *)
Lemma SetRow_frame (sw : StreamWriter) (axis : string) (values : list CellValue)
    (w : World) :
  exists bw, snd (fst (SetRow sw axis values w)) = set_rawData sw bw.
Proof.
  unfold SetRow.
  destruct (CellNameToCoordinates axis) as [[col row]|e].
  - destruct (setRowCells col row 0 values _) as [[e|] bw].
    + now exists bw.
    + unfold bind. destruct (bufferedWriter.Sync _ w) as [[e bw'] w']. now exists bw'.
  - exists (rawData sw). now destruct sw.
Qed.

(** ** The cells of a row, found by their columns *)

Lemma lastAt_other (cs : list xlsxC.t) :
  forall (col i target : Z) (acc : string),
  namesParseBack col i cs = true -> target < col + i ->
  lastAt (List.map decodedCell cs) target acc = acc.
Proof.
  induction cs as [|c cs IH]; intros col i target acc Hn Hlt; cbn [List.map lastAt];
    [reflexivity |].
  cbn [namesParseBack] in Hn. change (xlsxC.R (decodedCell c)) with (xlsxC.R c).
  destruct (CellNameToCoordinates (xlsxC.R c)) as [[k r]|e]; [| discriminate].
  apply andb_prop in Hn as [Hk Hrest]. apply Z.eqb_eq in Hk. subst k.
  destruct (Z.eqb_spec (col + i) target); [lia |].
  apply (IH col (i + 1)); [exact Hrest | lia].
Qed.

Lemma lastAt_nth (cs : list xlsxC.t) :
  forall (col i : Z) (j : nat) (c : xlsxC.t) (acc : string),
  namesParseBack col i cs = true -> cs !! j = Some c ->
  lastAt (List.map decodedCell cs) (col + i + Z.of_nat j) acc = xlsxC.V c.
Proof.
  induction cs as [|c0 cs IH]; intros col i j c acc Hn Hj; [discriminate |].
  cbn [List.map lastAt namesParseBack] in *.
  change (xlsxC.R (decodedCell c0)) with (xlsxC.R c0).
  change (xlsxC.V (decodedCell c0)) with (xlsxC.V c0).
  destruct (CellNameToCoordinates (xlsxC.R c0)) as [[k r]|e]; [| discriminate].
  apply andb_prop in Hn as [Hk Hrest]. apply Z.eqb_eq in Hk. subst k.
  destruct j as [|j].
  - cbn in Hj. inversion Hj; subst c0.
    replace (col + i + Z.of_nat 0) with (col + i) by lia. rewrite Z.eqb_refl.
    apply (lastAt_other cs col (i + 1)); [exact Hrest | lia].
  - cbn in Hj.
    destruct (Z.eqb_spec (col + i) (col + i + Z.of_nat (S j))); [lia |].
    replace (col + i + Z.of_nat (S j)) with (col + (i + 1) + Z.of_nat j) by lia.
    now apply IH.
Qed.

Lemma cellsParse_decoded (cs : list xlsxC.t) :
  forall col i, namesParseBack col i cs = true ->
  cellsParse (List.map decodedCell cs) = true.
Proof.
  induction cs as [|c cs IH]; intros col i Hn; [reflexivity |].
  cbn [List.map cellsParse forallb namesParseBack] in *.
  change (xlsxC.R (decodedCell c)) with (xlsxC.R c).
  destruct (CellNameToCoordinates (xlsxC.R c)) as [[k r]|e]; [| discriminate].
  apply andb_prop in Hn as [_ Hrest]. cbn [is_Ok andb]. exact (IH col (i + 1) Hrest).
Qed.

End RoundTrip.

Section ReadBack.
Context `{Package}.

Lemma lastAt_beyond (cs : list xlsxC.t) :
  forall (col i target : Z) (acc : string),
  namesParseBack col i cs = true ->
  col + i + Z.of_nat (List.length cs) <= target ->
  lastAt (List.map decodedCell cs) target acc = acc.
Proof.
  induction cs as [|c cs IH]; intros col i target acc Hn Hge;
    cbn [List.map lastAt List.length] in *; [reflexivity |].
  cbn [namesParseBack] in Hn. change (xlsxC.R (decodedCell c)) with (xlsxC.R c).
  destruct (CellNameToCoordinates (xlsxC.R c)) as [[k r]|e]; [| discriminate].
  apply andb_prop in Hn as [Hk Hrest]. apply Z.eqb_eq in Hk. subst k.
  destruct (Z.eqb_spec (col + i) target); [lia |].
  apply (IH col (i + 1)); [exact Hrest | lia].
Qed.

(** Scanning on a healthy system is scanning the logical content, and
    it leaves that content as it is. *)
Lemma getRowValues_healthy (sw : StreamWriter) (hrow hcol vcol : Z) (w : World) :
  appending (rawData sw) -> healthy w ->
  fst (fst (getRowValues sw hrow hcol vcol w))
  = scanContent (content (rawData sw)) hrow hcol vcol
  /\ healthy (snd (getRowValues sw hrow hcol vcol w)).
Proof.
  intros Happ Hw. unfold getRowValues, scanContent.
  destruct (vcol - hcol + 1 <? 0); [split; [reflexivity | exact Hw] |].
  unfold bind.
  destruct (Reader_healthy (rawData sw) w Happ Hw) as [Hr Hw'].
  destruct (bufferedWriter.Reader (rawData sw) w) as [[r bw'] w'];
    cbn [fst snd] in *; subst r.
  destruct (lexer.tokens (mkReader (content (rawData sw)) None)) as [toks term].
  split; [reflexivity | exact Hw'].
Qed.

Lemma getRowValues_keeps (sw : StreamWriter) (hrow hcol vcol : Z) (w : World) :
  appending (rawData sw) ->
  content (rawData (snd (fst (getRowValues sw hrow hcol vcol w)))) = content (rawData sw)
  /\ appending (rawData (snd (fst (getRowValues sw hrow hcol vcol w)))).
Proof.
  intros Happ. unfold getRowValues.
  destruct (vcol - hcol + 1 <? 0); [split; [reflexivity | exact Happ] |].
  unfold bind.
  pose proof (Reader_keeps (rawData sw) w Happ) as Hk.
  destruct (bufferedWriter.Reader (rawData sw) w) as [[r bw'] w']; cbn [fst snd] in *.
  destruct r as [r|e]; [destruct (lexer.tokens r) |]; exact Hk.
Qed.

(** The tokens of a content that holds the markup of a row after a
    prefix that the decoder leaves between two tokens. *)
Lemma tokens_row_inside (pre post : string) (row : Z) (cs : list xlsxC.t)
    (o : list Token) (k : list xmlName) :
  wellFormedCells cs = true ->
  lexer.run lexer.init pre = lexer.mkState o k (lexer.MText EmptyString) ->
  exists more,
    fst (lexer.tokens (mkReader (pre ++ rowMarkup row cs ++ post) None))
    = (o ++ rowStart row :: cellsTokens cs ++ EndElement rowName :: more)%list.
Proof.
  intros Hw Hpre. unfold lexer.tokens; cbn [rdata rerr].
  rewrite run_app, Hpre, (lex_row_then row cs o k post Hw).
  destruct (run_out post
              (lexer.mkState (o ++ rowTokens row cs) k (lexer.MText EmptyString)))
    as [m1 H1].
  destruct (finish_out None
              (lexer.run (lexer.mkState (o ++ rowTokens row cs) k
                            (lexer.MText EmptyString)) post))
    as [m2 H2].
  rewrite H2, H1. cbn [lexer.out]. exists (m1 ++ m2)%list.
  unfold rowTokens. rewrite <- !app_assoc. cbn [app].
  now rewrite <- !app_assoc.
Qed.

(** The scan of a content that holds a written row. *)
Lemma scanContent_row (pre post : string) (row col hcol vcol : Z)
    (cs : list xlsxC.t) (o : list Token) (k : list xmlName) :
  lexer.run lexer.init pre = lexer.mkState o k (lexer.MText EmptyString) ->
  noRow row o = true ->
  fitsInt64 row = true ->
  wellFormedCells cs = true ->
  namesParseBack col 0 cs = true ->
  hcol <= vcol + 1 ->
  exists res,
    scanContent (pre ++ rowMarkup row cs ++ post) row hcol vcol = Ok res
    /\ Z.of_nat (List.length res) = vcol - hcol + 1
    /\ (forall (j : nat) (c : xlsxC.t),
          cs !! j = Some c -> hcol <= col + Z.of_nat j <= vcol ->
          res !! Z.to_nat (col + Z.of_nat j - hcol) = Some (xlsxC.V c))
    /\ (forall n : Z,
          hcol <= n <= vcol ->
          n < col \/ col + Z.of_nat (List.length cs) <= n ->
          res !! Z.to_nat (n - hcol) = Some EmptyString).
Proof.
  intros Hpre Hno Hrow Hw Hn Hle. unfold scanContent.
  destruct (Z.ltb_spec (vcol - hcol + 1) 0); [lia |].
  destruct (tokens_row_inside pre post row cs o k Hw Hpre) as [more Htoks].
  destruct (lexer.tokens (mkReader (pre ++ rowMarkup row cs ++ post) None))
    as [toks term]; cbn [fst] in Htoks; subst toks.
  rewrite scanTokens_skip by exact Hno. cbn [scanTokens].
  rewrite (getRowElement_rowStart row Hrow).
  rewrite (DecodeElement_row row cs more term Hrow Hw). cbn [xlsxRow.C].
  destruct (fillCells_spec (List.map decodedCell cs) hcol vcol
              (replicate (Z.to_nat (vcol - hcol + 1)) EmptyString)
              (cellsParse_decoded cs col 0 Hn))
    as (res & Hfill & Hl & Hres).
  { rewrite length_replicate. lia. }
  rewrite length_replicate in Hl.
  exists res. split; [exact Hfill |]. split; [lia |]. split.
  - intros j c Hj Hin.
    rewrite (Hres (Z.to_nat (col + Z.of_nat j - hcol)) EmptyString)
      by (apply lookup_replicate_2; lia).
    f_equal.
    replace (hcol + Z.of_nat (Z.to_nat (col + Z.of_nat j - hcol)))
      with (col + 0 + Z.of_nat j) by lia.
    now apply lastAt_nth.
  - intros n Hin Hout.
    rewrite (Hres (Z.to_nat (n - hcol)) EmptyString)
      by (apply lookup_replicate_2; lia).
    f_equal.
    replace (hcol + Z.of_nat (Z.to_nat (n - hcol))) with n by lia.
    destruct Hout as [Hlt|Hge].
    + apply (lastAt_other cs col 0); [exact Hn | lia].
    + apply (lastAt_beyond cs col 0); [exact Hn | lia].
Qed.

End ReadBack.

(** * Writing a row and reading it back *)

Lemma boundary_state (pre : string) :
  atTokenBoundary pre = true ->
  lexer.run lexer.init pre
  = lexer.mkState (lexer.out (lexer.run lexer.init pre))
                  (lexer.stack (lexer.run lexer.init pre))
                  (lexer.MText EmptyString).
Proof.
  unfold atTokenBoundary. intros Hb.
  destruct (lexer.run lexer.init pre) as [o k m]; cbn [lexer.mode lexer.out lexer.stack] in *.
  destruct m as [raw| | | | | | | | | | | | | |]; try discriminate.
  destruct raw; [reflexivity | discriminate].
Qed.

Section RowRoundTrip.
Context `{Package}.


(** X2.  A row that was written stays readable.  Let the content of the
    buffer be a prefix after which the decoder stands between two
    tokens and which holds no row numbered [row], then the markup of
    the row [row] with well-formed cells whose references name the
    columns [col], [col + 1], ..., then anything at all.  On a system
    whose calls succeed, [getRowValues] for that row returns no error
    and one entry per column of the requested range: the text of the
    cell for a column of the row, and the empty string for every other
    column. *)
Theorem written_row_reads_back (sw : StreamWriter) (pre post : string)
    (row col hcol vcol : Z) (cs : list xlsxC.t) (w : World) :
  appending (rawData sw) -> healthy w ->
  content (rawData sw) = pre ++ rowMarkup row cs ++ post ->
  atTokenBoundary pre = true ->
  rowAbsent row pre = true ->
  fitsInt64 row = true ->
  wellFormedCells cs = true ->
  namesParseBack col 0 cs = true ->
  hcol <= vcol + 1 ->
  exists res,
    fst (fst (getRowValues sw row hcol vcol w)) = Ok res
    /\ Z.of_nat (List.length res) = vcol - hcol + 1
    /\ (forall (j : nat) (c : xlsxC.t),
          cs !! j = Some c -> hcol <= col + Z.of_nat j <= vcol ->
          res !! Z.to_nat (col + Z.of_nat j - hcol) = Some (xlsxC.V c))
    /\ (forall n : Z,
          hcol <= n <= vcol ->
          n < col \/ col + Z.of_nat (List.length cs) <= n ->
          res !! Z.to_nat (n - hcol) = Some EmptyString).
Proof.
  intros Happ Hw Hc Hb Hno Hrow Hwf Hn Hle.
  destruct (getRowValues_healthy sw row hcol vcol w Happ Hw) as [Hg _].
  rewrite Hg, Hc.
  exact (scanContent_row pre post row col hcol vcol cs _ _
           (boundary_state pre Hb) Hno Hrow Hwf Hn Hle).
Qed.

(** X3.  The round trip of a row.  On a session whose content so far
    leaves the decoder between two tokens and holds no row numbered
    [row], and on a system whose calls succeed, [SetRow] at a
    coordinate of row [row] and column [col] returns no error, and
    [getRowValues] on the session it leaves returns, at the offset of
    the column of each value, the text that the encoder produced for
    that value; the columns of the range that the row does not reach
    are empty.  The cells have to be well formed (plain references and
    types, text that XML can carry) and their references have to parse
    back to their columns. *)
Theorem SetRow_getRowValues_round_trip (sw : StreamWriter) (axis : string)
    (col row hcol vcol : Z) (values : list CellValue) (cs : list xlsxC.t)
    (w : World) :
  appending (rawData sw) -> healthy w ->
  atTokenBoundary (content (rawData sw)) = true ->
  rowAbsent row (content (rawData sw)) = true ->
  CellNameToCoordinates axis = Ok (col, row) ->
  encodedCells col row 0 values = Some cs ->
  fitsInt64 row = true ->
  wellFormedCells cs = true ->
  namesParseBack col 0 cs = true ->
  hcol <= vcol + 1 ->
  fst (fst (SetRow sw axis values w)) = None
  /\ exists res,
       fst (fst (getRowValues (snd (fst (SetRow sw axis values w))) row hcol vcol
                   (snd (SetRow sw axis values w)))) = Ok res
       /\ Z.of_nat (List.length res) = vcol - hcol + 1
       /\ (forall (j : nat) (c : xlsxC.t),
             cs !! j = Some c -> hcol <= col + Z.of_nat j <= vcol ->
             res !! Z.to_nat (col + Z.of_nat j - hcol) = Some (xlsxC.V c))
       /\ (forall n : Z,
             hcol <= n <= vcol ->
             n < col \/ col + Z.of_nat (List.length cs) <= n ->
             res !! Z.to_nat (n - hcol) = Some EmptyString).
Proof.
  intros Happ Hw Hb Hno Hparse Henc Hrow Hwf Hn Hle.
  destruct (SetRow_appends sw axis col row values cs w Hparse Henc Happ)
    as (Hc & Happ1 & Hh).
  destruct (Hh Hw) as [Herr Hw1]. split; [exact Herr |].
  destruct (getRowValues_healthy _ row hcol vcol _ Happ1 Hw1) as [Hg _].
  rewrite Hg, Hc.
  replace (content (rawData sw) ++ rowMarkup row cs)
    with (content (rawData sw) ++ rowMarkup row cs ++ EmptyString)
    by now rewrite append_nil_r.
  exact (scanContent_row _ EmptyString row col hcol vcol cs _ _
           (boundary_state _ Hb) Hno Hrow Hwf Hn Hle).
Qed.

End RowRoundTrip.


Lemma written_row_reads_back_witness :
  exists res,
    fst (fst (getRowValues twoRows 1 1 3 [])) = Ok res
    /\ res !! 0%nat = Some "Name" /\ res !! 1%nat = Some "Age"
    /\ res !! 2%nat = Some EmptyString.
Proof.
  destruct (written_row_reads_back twoRows
              (content (rawData Reference.session))
              (rowMarkup 2 [xlsxC.mk noAttr "A2" 0 "str" "Ana";
                            xlsxC.mk noAttr "B2" 0 EmptyString "30"])
              1 1 1 3
              [xlsxC.mk noAttr "A1" 0 "str" "Name";
               xlsxC.mk noAttr "B1" 0 "str" "Age"] [])
    as (res & Hres & _ & Hcells & Hrest);
    [exact I | exact healthy_nil | vm_compute; reflexivity | vm_compute; reflexivity
    | vm_compute; reflexivity | vm_compute; reflexivity | vm_compute; reflexivity
    | vm_compute; reflexivity | lia |].
  exists res. split; [exact Hres |]. split; [| split].
  - exact (Hcells 0%nat _ eq_refl ltac:(lia)).
  - exact (Hcells 1%nat _ eq_refl ltac:(lia)).
  - exact (Hrest 3 ltac:(lia) ltac:(right; simpl; lia)).
Defined.

Lemma SetRow_getRowValues_round_trip_witness :
  fst (fst (SetRow Reference.session "B2" [Vstring "Ana"; Vint Kint 30] [])) = None
  /\ exists res,
       fst (fst (getRowValues
                   (snd (fst (SetRow Reference.session "B2"
                                [Vstring "Ana"; Vint Kint 30] [])))
                   2 1 3
                   (snd (SetRow Reference.session "B2"
                           [Vstring "Ana"; Vint Kint 30] [])))) = Ok res
       /\ res !! 0%nat = Some EmptyString
       /\ res !! 1%nat = Some "Ana" /\ res !! 2%nat = Some "30".
Proof.
  destruct (SetRow_getRowValues_round_trip Reference.session "B2" 2 2 1 3
              [Vstring "Ana"; Vint Kint 30]
              [xlsxC.mk noAttr "B2" 0 "str" "Ana";
               xlsxC.mk noAttr "C2" 0 EmptyString "30"] [])
    as (Herr & res & Hres & _ & Hcells & Hrest);
    [exact I | exact healthy_nil | vm_compute; reflexivity | vm_compute; reflexivity
    | vm_compute; reflexivity | vm_compute; reflexivity | vm_compute; reflexivity
    | vm_compute; reflexivity | vm_compute; reflexivity | lia |].
  split; [exact Herr |]. exists res. split; [exact Hres |]. split; [| split].
  - exact (Hrest 1 ltac:(lia) ltac:(left; lia)).
  - exact (Hcells 0%nat _ eq_refl ltac:(lia)).
  - exact (Hcells 1%nat _ eq_refl ltac:(lia)).
Defined.

(** * The encoder and the loop of SetRow *)

Section EncoderFacts.
Context `{Package}.

Lemma setCellValFunc_R_S (c : xlsxC.t) (val : CellValue) :
  xlsxC.R (fst (setCellValFunc c val)) = xlsxC.R c
  /\ xlsxC.S (fst (setCellValFunc c val)) = xlsxC.S c.
Proof.
  unfold setCellValFunc, setCellIntFunc, withTV, withStr.
  destruct val;
    repeat match goal with
           | |- context [let '(_, _) := ?x in _] => destruct x
           | |- context [match ?x with (_, _) => _ end] => destruct x
           end; cbn; tauto.
Qed.



Lemma setRowCells_name_fail (col row : Z) (pre : list CellValue) :
  forall (i : Z) (cs : list xlsxC.t) (val : CellValue) (post : list CellValue)
         (err : error) (bw : bufferedWriter),
  encodedCells col row i pre = Some cs ->
  CoordinatesToCellName (col + (i + Z.of_nat (List.length pre))) row = Err err ->
  setRowCells col row i (pre ++ val :: post)%list bw
  = (Some err, appended bw (cellsMarkup cs)).
Proof.
  induction pre as [|v pre IH]; intros i cs val post err bw Henc Hfail; simpl in *.
  - inversion Henc; subst. rewrite Z.add_0_r in Hfail. rewrite Hfail.
    cbn [cellsMarkup]. now rewrite appended_nil.
  - unfold cellAt in Henc.
    destruct (CoordinatesToCellName (col + i) row) as [axis|e]; [| discriminate].
    destruct (unwrapCell (newC axis) v) as [c0 v0].
    destruct (setCellValFunc c0 v0) as [c' [e|]]; [discriminate |].
    destruct (encodedCells col row (i + 1) pre) as [cs'|] eqn:Hrest; [| discriminate].
    inversion Henc; subst.
    assert (Hfail' : CoordinatesToCellName
                       (col + (i + 1 + Z.of_nat (List.length pre))) row = Err err)
      by (rewrite <- Hfail; f_equal; lia).
    rewrite (IH (i + 1) cs' val post err _ Hrest Hfail').
    rewrite writeCell_appended, appended_appended. reflexivity.
Qed.

(** X4.  When the name of a cell cannot be built, after the cells
    before it were written, [SetRow] returns the error at once: the
    opening row marker and the cells written so far stay in the buffer,
    the closing row marker is not written, and the buffer is not
    synced.  The row is left open. *)
Theorem SetRow_name_failure_leaves_row_open (sw : StreamWriter) (axis : string)
    (col row : Z) (pre post : list CellValue) (val : CellValue)
    (cs : list xlsxC.t) (err : error) (w : World) :
  CellNameToCoordinates axis = Ok (col, row) ->
  encodedCells col row 0 pre = Some cs ->
  CoordinatesToCellName (col + Z.of_nat (List.length pre)) row = Err err ->
  SetRow sw axis (pre ++ val :: post)%list w
  = (Some err,
     set_rawData sw (appended (rawData sw) (rowOpen row ++ cellsMarkup cs)),
     w).
Proof.
  intros Hparse Henc Hfail. unfold SetRow. rewrite Hparse.
  rewrite (setRowCells_name_fail col row pre 0 cs val post err _ Henc Hfail).
  unfold appended, bufferedWriter.Write, rowOpen; cbn [tmp buf].
  rewrite ?append_assoc. reflexivity.
Qed.


(** X6.  The encoder fails for time values only: an error of
    [setCellValFunc] is the error that [setCellTime] returned for the
    time it was given.  Whatever the value, the encoder leaves the
    reference and the style of the cell as they were. *)
Theorem setCellValFunc_fails_on_time_only (c : xlsxC.t) (val : CellValue) :
  (forall err, snd (setCellValFunc c val) = Some err ->
     exists t, val = Vtime t /\ snd (setCellTime t) = Some err)
  /\ xlsxC.R (fst (setCellValFunc c val)) = xlsxC.R c
  /\ xlsxC.S (fst (setCellValFunc c val)) = xlsxC.S c.
Proof.
  split; [| exact (setCellValFunc_R_S c val)].
  intros err. unfold setCellValFunc, setCellIntFunc.
  destruct val as [k n|f|f|s|b|d|t|b| |s v|s v| |o];
    try (cbn; discriminate);
    try (destruct (setCellInt (to_int n)); cbn; discriminate).
  destruct (setCellTime t) as [[[ty v] b] e] eqn:Ht. cbn. intros He. exists t.
  rewrite Ht. split; [reflexivity | exact He].
Qed.

(** X7.  Every integer is converted to [int] before it is written.  A
    value that fits 64 bits with a sign is written as it is; an
    unsigned value from [2 ^ 63] on is written as the negative number
    that the conversion wraps it to, and no error is returned. *)
Theorem setCellIntFunc_wraps (c : xlsxC.t) (k : IntKind) (n : Z) :
  (- 2 ^ 63 <= n < 2 ^ 63 ->
   setCellIntFunc c k n = (withTV c (setCellInt n), None))
  /\ (2 ^ 63 <= n < 2 ^ 64 ->
      setCellIntFunc c k n = (withTV c (setCellInt (n - 2 ^ 64)), None)).
Proof.
  unfold setCellIntFunc, withTV, to_int, wrap, intSize.
  change (2 ^ (64 - 1)) with (2 ^ 63).
  split; intros Hn.
  - replace ((n + 2 ^ 63) mod 2 ^ 64 - 2 ^ 63) with n
      by (rewrite Z.mod_small by lia; lia).
    now destruct (setCellInt n).
  - replace ((n + 2 ^ 63) mod 2 ^ 64 - 2 ^ 63) with (n - 2 ^ 64).
    + now destruct (setCellInt (n - 2 ^ 64)).
    + replace (n + 2 ^ 63) with (n - 2 ^ 63 + 1 * 2 ^ 64) by lia.
      rewrite Z.mod_add by lia. rewrite Z.mod_small by lia. lia.
Qed.

End EncoderFacts.

Lemma SetRow_name_failure_leaves_row_open_witness :
  SetRow Reference.session "XFD1" [Vstring "a"; Vstring "b"] []
  = (Some (mkError AddressingError "invalid cell coordinates"),
     set_rawData Reference.session
       (appended (rawData Reference.session)
          (rowOpen 1 ++ cellsMarkup [xlsxC.mk noAttr "XFD1" 0 "str" "a"])),
     []).
Proof.
  apply (SetRow_name_failure_leaves_row_open Reference.session "XFD1" 16384 1
           [Vstring "a"] [] (Vstring "b"));
    reflexivity.
Defined.


Lemma setCellValFunc_fails_on_time_only_witness :
  exists t,
    Vtime (mkTime 5 "Local") = Vtime t
    /\ snd (setCellTime t) = Some (mkError EncodingError "only UTC time expected").
Proof.
  exact (proj1 (setCellValFunc_fails_on_time_only (newC "A1") (Vtime (mkTime 5 "Local")))
           (mkError EncodingError "only UTC time expected") eq_refl).
Defined.

Lemma setCellIntFunc_wraps_witness :
  setCellIntFunc (newC "A1") Kuint64 (2 ^ 64 - 1)
  = (withTV (newC "A1") (setCellInt (2 ^ 64 - 1 - 2 ^ 64)), None)
  /\ snd (setCellInt (2 ^ 64 - 1 - 2 ^ 64)) = "-1".
Proof.
  split; [| reflexivity].
  apply (setCellIntFunc_wraps (newC "A1") Kuint64 (2 ^ 64 - 1)). lia.
Defined.

(** * The buffer *)

Lemma Bytes_world (bw : bufferedWriter) (w : World) :
  appending bw -> healthy w -> healthy (snd (bufferedWriter.Bytes bw w)).
Proof.
  intros Happ Hw. unfold bufferedWriter.Bytes.
  destruct (tmp bw) as [f|] eqn:Htmp; [| exact Hw].
  unfold bind.
  pose proof (Flush_keeps bw w Happ) as (Hc & Ha & _ & Hsome & Hbuf).
  pose proof (Flush_healthy bw w Happ Hw) as [He Hw1].
  destruct (bufferedWriter.Flush bw w) as [[e bw1] w1]; simpl in *; subst e.
  assert (Hne : tmp bw <> None) by congruence.
  specialize (Hsome Hne).
  destruct (tmp bw1) as [f1|] eqn:Htmp1; [| congruence].
  unfold appending in Ha. rewrite Htmp1 in Ha. destruct Ha as [Hpos Hopen].
  unfold os.Stat, os.Seek0, os.ReadAll, bind, ret. rewrite Hopen.
  destruct (healthy_syscall w1 Hw1) as [Hs Hw2].
  destruct (syscall w1) as [o1 w2]; cbn [fst snd] in *; subst o1.
  repeat match goal with
         | |- context [if ?b then _ else _] => destruct b
         end; cbn [fst snd fclosed]; try exact Hw2;
    rewrite ?Hopen;
    destruct (healthy_syscall w2 Hw2) as [Hs Hw3];
    destruct (syscall w2) as [o2 w3]; cbn [fst snd] in *; subst o2;
    cbn [fclosed]; rewrite ?Hopen;
    destruct (healthy_syscall w3 Hw3) as [Hs' Hw4];
    destruct (syscall w3) as [o3 w4]; cbn [fst snd] in *; subst o3;
    exact Hw4.
Qed.

(** X8.  [Sync] bounds the memory in use.  On a system whose calls
    succeed, [Sync] returns no error, keeps the logical content of the
    buffer, and leaves fewer than [2 ^ 24] bytes in memory; while the
    in-memory region is shorter than that, [Sync] changes nothing and
    makes no system call. *)
Theorem Sync_bounds_memory (bw : bufferedWriter) (w : World) :
  appending bw -> healthy w ->
  fst (fst (bufferedWriter.Sync bw w)) = None
  /\ content (snd (fst (bufferedWriter.Sync bw w))) = content bw
  /\ Len (buf (snd (fst (bufferedWriter.Sync bw w)))) < 2 ^ 24
  /\ (Len (buf bw) < 2 ^ 24 -> bufferedWriter.Sync bw w = (None, bw, w)).
Proof.
  intros Happ Hw.
  destruct (Sync_healthy bw w Happ Hw) as [He _].
  destruct (Sync_keeps bw w Happ) as [Hc _].
  split; [exact He |]. split; [exact Hc |]. split.
  - destruct (Z.lt_ge_cases (Len (buf bw)) bufferedWriter.chunk) as [Hlt|Hge].
    + now rewrite (Sync_below bw w Hlt).
    + destruct (tmp bw) as [f|] eqn:Htmp.
      * unfold bufferedWriter.Sync.
        apply Z.ltb_ge in Hge. rewrite Hge, Htmp.
        pose proof (Flush_keeps bw w Happ) as (_ & _ & _ & _ & Hbuf).
        pose proof (Flush_healthy bw w Happ Hw) as [He' _].
        cbv zeta in Hbuf. rewrite (Hbuf He') by congruence. reflexivity.
      * destruct (Sync_spills bw w Hge Htmp Hw) as (f & w' & Hs & _).
        rewrite Hs. reflexivity.
  - intros Hlt. now apply Sync_below.
Qed.

(** X9.  [Close] always releases the buffer.  Whatever the system
    calls do, after [Close] the in-memory region is empty and the temp
    file, if there is one, is closed, with its content untouched.
    Without a temp file [Close] makes no system call and returns no
    error.  With an open temp file, on a system whose calls succeed,
    [Close] returns no error and the file is removed. *)
Theorem Close_releases (bw : bufferedWriter) (w : World) :
  disposed (snd (fst (bufferedWriter.Close bw w)))
  /\ (tmp bw = None -> bufferedWriter.Close bw w = (None, mkBW None EmptyString, w))
  /\ (forall f, tmp bw = Some f ->
        exists f',
          tmp (snd (fst (bufferedWriter.Close bw w))) = Some f'
          /\ fdata f' = fdata f
          /\ (fclosed f = false -> healthy w ->
              fst (fst (bufferedWriter.Close bw w)) = None /\ fremoved f' = true)).
Proof.
  split; [exact (Close_disposes bw w) |]. split.
  - intros Htmp. unfold bufferedWriter.Close. now rewrite Htmp.
  - intros f Htmp. unfold bufferedWriter.Close. rewrite Htmp.
    unfold os.Close, os.Remove, bind, ret.
    destruct (fclosed f) eqn:Hc.
    + destruct (syscall w) as [[|m] w1]; eexists; cbn [fst snd tmp fdata];
        (split; [reflexivity |]); (split; [reflexivity |]); discriminate.
    + pose proof (healthy_syscall w) as Hw1.
      destruct (syscall w) as [o1 w1]; cbn [fst snd] in Hw1.
      pose proof (healthy_syscall w1) as Hw2.
      destruct o1 as [|m1]; cbv beta iota;
        destruct (syscall w1) as [o2 w2]; cbn [fst snd] in Hw2;
        destruct o2 as [|m2]; eexists; cbn [fst snd tmp fdata fremoved];
        (split; [reflexivity |]); (split; [reflexivity |]); intros _ Hw;
        destruct (Hw1 Hw) as [Ho1 Hh1]; try discriminate;
        destruct (Hw2 Hh1) as [Ho2 _]; try discriminate; split; reflexivity.
Qed.

Lemma Sync_bounds_memory_witness :
  fst (fst (bufferedWriter.Sync (mkBW (Some (mkOSFile "ab" 2 false false)) "c") []))
  = None
  /\ content (snd (fst (bufferedWriter.Sync
                          (mkBW (Some (mkOSFile "ab" 2 false false)) "c") [])))
     = "abc".
Proof.
  destruct (Sync_bounds_memory (mkBW (Some (mkOSFile "ab" 2 false false)) "c") []
              (conj eq_refl eq_refl) healthy_nil) as (He & Hc & _).
  split; [exact He | exact Hc].
Defined.

Lemma Close_releases_witness :
  exists f',
    tmp (snd (fst (bufferedWriter.Close
                     (mkBW (Some (mkOSFile "abc" 3 false false)) "de") []))) = Some f'
    /\ fdata f' = "abc" /\ fremoved f' = true.
Proof.
  destruct (proj2 (proj2 (Close_releases
                            (mkBW (Some (mkOSFile "abc" 3 false false)) "de") []))
              (mkOSFile "abc" 3 false false) eq_refl)
    as (f' & Ht & Hd & Hr).
  exists f'. split; [exact Ht |]. split; [exact Hd |].
  exact (proj2 (Hr eq_refl healthy_nil)).
Defined.

(** * The session: opening, rows, tables, the end *)

Lemma concat_cons (f : string) (l : list string) :
  String.concat EmptyString (f :: l) = f ++ String.concat EmptyString l.
Proof.
  destruct l; cbn [String.concat String.append]; [now rewrite append_nil_r | reflexivity].
Qed.

Lemma bulkAppendFrom_range (fields : list string) (from to : Z) :
  forall (i : Z) (w : bufferedWriter),
  bulkAppendFrom i fields from to w
  = appended w
      (String.concat EmptyString
         (firstn (Z.to_nat (to + 1 - Z.max from i))
                 (skipn (Z.to_nat (from - i)) fields))).
Proof.
  induction fields as [|f fields IH]; intros i w; cbn [bulkAppendFrom].
  - rewrite skipn_nil, firstn_nil. cbn [String.concat]. now rewrite appended_nil.
  - rewrite IH.
    destruct (Z.leb_spec from i) as [Hfi|Hfi]; cbn [andb].
    + replace (Z.to_nat (from - i)) with O by lia.
      replace (Z.to_nat (from - (i + 1))) with O by lia. cbn [skipn].
      replace (Z.max from (i + 1)) with (i + 1) by lia.
      replace (Z.max from i) with i by lia.
      destruct (Z.leb_spec i to) as [Hit|Hit].
      * replace (Z.to_nat (to + 1 - i)) with (S (Z.to_nat (to + 1 - (i + 1)))) by lia.
        cbn [firstn]. rewrite concat_cons.
        unfold bufferedWriter.Write, appended; cbn [tmp buf].
        now rewrite append_assoc.
      * replace (Z.to_nat (to + 1 - i)) with O by lia.
        replace (Z.to_nat (to + 1 - (i + 1))) with O by lia.
        rewrite firstn_O. cbn [firstn]. reflexivity.
    + replace (Z.to_nat (from - i)) with (S (Z.to_nat (from - (i + 1)))) by lia.
      cbn [skipn].
      replace (Z.max from (i + 1)) with from by lia.
      replace (Z.max from i) with from by lia. reflexivity.
Qed.

Lemma bulkAppendFields_appended (w : bufferedWriter) (ws : xlsxWorksheet) (from to : Z) :
  0 <= from ->
  bulkAppendFields w ws from to = appended w (fieldRange ws from to).
Proof.
  intros Hfrom. unfold bulkAppendFields, fieldRange. rewrite bulkAppendFrom_range.
  replace (Z.max from 0) with from by lia.
  now replace (from - 0) with from by lia.
Qed.

Lemma closingBuffer_appended (sw : StreamWriter) :
  closingBuffer sw = appended (rawData sw) (closingMarkup sw).
Proof.
  unfold closingBuffer, closingMarkup.
  rewrite !bulkAppendFields_appended by lia.
  unfold bufferedWriter.WriteString, appended; cbn [tmp buf].
  now rewrite !append_assoc.
Qed.

Lemma appended_keeps (bw : bufferedWriter) (s : string) :
  content (appended bw s) = content bw ++ s
  /\ (appending bw -> appending (appended bw s)).
Proof. exact (Write_keeps bw s). Qed.

(** X10.  [bulkAppendFields] appends to the in-memory region the
    fields of the worksheet whose indices lie in the range, in the order
    of the fields, and nothing else; the temp file is not touched.  An
    empty range appends nothing. *)
Theorem bulkAppendFields_range (w : bufferedWriter) (ws : xlsxWorksheet) (from to : Z) :
  0 <= from ->
  bulkAppendFields w ws from to
  = mkBW (tmp w)
         (buf w ++ String.concat EmptyString
                     (firstn (Z.to_nat (to + 1 - from))
                             (skipn (Z.to_nat from) (wsFields ws))))
  /\ (to < from -> bulkAppendFields w ws from to = w).
Proof.
  intros Hfrom. rewrite (bulkAppendFields_appended w ws from to Hfrom).
  split; [reflexivity |].
  intros Hlt. unfold fieldRange. replace (Z.to_nat (to + 1 - from)) with O by lia.
  rewrite firstn_O. cbn [String.concat]. apply appended_nil.
Qed.

Section SessionFacts.
Context `{Package}.

Lemma Flush_healthy_installs (sw : StreamWriter) (w : World) :
  appending (rawData sw) -> healthy w ->
  fst (fst (Flush sw w)) = None
  /\ XLSX (SWFile (snd (fst (Flush sw w)))) !! sheetXMLPath (SheetID sw)
     = Some (content (rawData sw) ++ closingMarkup sw)
  /\ (forall p, p <> sheetXMLPath (SheetID sw) ->
        XLSX (SWFile (snd (fst (Flush sw w)))) !! p = XLSX (SWFile sw) !! p)
  /\ Sheet (SWFile (snd (fst (Flush sw w))))
     = delete (sheetXMLPath (SheetID sw)) (Sheet (SWFile sw))
  /\ checked (SWFile (snd (fst (Flush sw w))))
     = delete (sheetXMLPath (SheetID sw)) (checked (SWFile sw))
  /\ disposed (rawData (snd (fst (Flush sw w))))
  /\ healthy (snd (Flush sw w)).
Proof.
  intros Happ Hw. unfold Flush. fold (closingBuffer sw).
  assert (Happ0 : appending (closingBuffer sw)).
  { rewrite closingBuffer_appended. now apply appended_keeps. }
  assert (Hc0 : content (closingBuffer sw) = content (rawData sw) ++ closingMarkup sw).
  { rewrite closingBuffer_appended. apply appended_keeps. }
  unfold bind.
  pose proof (Flush_keeps _ w Happ0) as (Hc1 & Happ1 & _).
  pose proof (Flush_healthy _ w Happ0 Hw) as [He1 Hw1].
  destruct (bufferedWriter.Flush (closingBuffer sw) w) as [[e1 bw1] w1];
    cbn [fst snd] in *; subst e1.
  pose proof (Bytes_healthy bw1 w1 Happ1 Hw1) as Hb.
  pose proof (Bytes_world bw1 w1 Happ1 Hw1) as Hw2.
  destruct (bufferedWriter.Bytes bw1 w1) as [[r bw2] w2]; cbn [fst snd] in *; subst r.
  pose proof (Close_disposes bw2 w2) as Hd.
  assert (Hw3 : healthy (snd (bufferedWriter.Close bw2 w2))).
  { unfold bufferedWriter.Close. destruct (tmp bw2) as [f|]; [| exact Hw2].
    unfold os.Close, os.Remove, bind, ret.
    destruct (fclosed f).
    - destruct (healthy_syscall w2 Hw2) as [Ho Hh].
      destruct (syscall w2) as [o w3]; cbn [fst snd] in *; subst o. exact Hh.
    - destruct (healthy_syscall w2 Hw2) as [Ho Hh].
      destruct (syscall w2) as [o w3]; cbn [fst snd] in *; subst o.
      destruct (healthy_syscall w3 Hh) as [Ho' Hh'].
      destruct (syscall w3) as [o' w4]; cbn [fst snd] in *; subst o'. exact Hh'. }
  destruct (bufferedWriter.Close bw2 w2) as [[e3 bw3] w3]; cbn [fst snd] in *.
  unfold ret; cbn [fst snd SWFile set_rawData set_File rawData XLSX Sheet checked].
  split; [reflexivity |]. split; [rewrite lookup_insert_eq, Hc1, Hc0; reflexivity |].
  split; [intros p Hp; now rewrite lookup_insert_ne by congruence |].
  split; [reflexivity |]. split; [reflexivity |]. split; [exact Hd | exact Hw3].
Qed.

(** X11.  [Flush] installs the finished sheet.  On a system whose
    calls succeed, whether the buffer has spilled to its temp file or
    not, [Flush] returns no error; the part of the package at
    [xl/worksheets/sheet<ID>.xml] is everything that was written to the
    buffer, followed by the closing markup (the end of the sheet data,
    the fields 7 to 37 of the worksheet, the table reference, the field
    39, the end of the worksheet); the other parts are as they were;
    the sheet is dropped from the two caches; the buffer is disposed
    of. *)
Theorem Flush_installs_document (sw : StreamWriter) (w : World) :
  appending (rawData sw) -> healthy w ->
  fst (fst (Flush sw w)) = None
  /\ XLSX (SWFile (snd (fst (Flush sw w)))) !! sheetXMLPath (SheetID sw)
     = Some (content (rawData sw) ++ closingMarkup sw)
  /\ (forall p, p <> sheetXMLPath (SheetID sw) ->
        XLSX (SWFile (snd (fst (Flush sw w)))) !! p = XLSX (SWFile sw) !! p)
  /\ Sheet (SWFile (snd (fst (Flush sw w))))
     = delete (sheetXMLPath (SheetID sw)) (Sheet (SWFile sw))
  /\ checked (SWFile (snd (fst (Flush sw w))))
     = delete (sheetXMLPath (SheetID sw)) (checked (SWFile sw))
  /\ disposed (rawData (snd (fst (Flush sw w)))).
Proof.
  intros Happ Hw.
  destruct (Flush_healthy_installs sw w Happ Hw) as (H1 & H2 & H3 & H4 & H5 & H6 & _).
  split; [exact H1 |]. split; [exact H2 |]. split; [exact H3 |].
  split; [exact H4 |]. split; [exact H5 | exact H6].
Qed.

(** ** The rows of a caller *)

Lemma setRows_appends (rows : list (string * list CellValue)) :
  forall (sw : StreamWriter) (w : World) (m : string),
  rowsMarkup rows = Some m ->
  appending (rawData sw) ->
  content (rawData (snd (fst (setRows sw rows w)))) = content (rawData sw) ++ m
  /\ appending (rawData (snd (fst (setRows sw rows w))))
  /\ (exists bw, snd (fst (setRows sw rows w)) = set_rawData sw bw)
  /\ (healthy w ->
      Forall (fun e => e = None) (fst (fst (setRows sw rows w)))
      /\ healthy (snd (setRows sw rows w))).
Proof.
  induction rows as [|[axis values] rows IH]; intros sw w m Hm Happ;
    cbn [rowsMarkup setRows] in *.
  - inversion Hm; subst. unfold ret; cbn [fst snd]. rewrite append_nil_r.
    split; [reflexivity |]. split; [exact Happ |]. split.
    + exists (rawData sw). now destruct sw.
    + intros Hw. split; [constructor | exact Hw].
  - destruct (CellNameToCoordinates axis) as [[col row]|e] eqn:Hparse; [| discriminate].
    destruct (encodedCells col row 0 values) as [cs|] eqn:Henc; [| discriminate].
    destruct (rowsMarkup rows) as [m'|] eqn:Hrest; [| discriminate].
    inversion Hm; subst m.
    destruct (SetRow_appends sw axis col row values cs w Hparse Henc Happ)
      as (Hc1 & Happ1 & Hh1).
    destruct (SetRow_frame sw axis values w) as [bw1 Hf1].
    unfold bind.
    destruct (SetRow sw axis values w) as [[e1 sw1] w1]; cbn [fst snd] in *.
    destruct (IH sw1 w1 m' eq_refl Happ1) as (Hc2 & Happ2 & [bw2 Hf2] & Hh2).
    destruct (setRows sw1 rows w1) as [[errs sw2] w2]; cbn [fst snd] in *.
    unfold ret; cbn [fst snd].
    split; [now rewrite Hc2, Hc1, append_assoc |]. split; [exact Happ2 |]. split.
    + exists bw2. rewrite Hf2, Hf1. reflexivity.
    + intros Hw. destruct (Hh1 Hw) as [He1 Hw1]. destruct (Hh2 Hw1) as [He2 Hw2].
      split; [constructor; assumption | exact Hw2].
Qed.

Lemma NewStreamWriter_ok (f f' : File) (sheet : string) (sw : StreamWriter) :
  NewStreamWriter f sheet = (Ok sw, f') ->
  rawData sw = mkBW None (openingMarkup (worksheet sw))
  /\ SheetID sw = GetSheetIndex f sheet
  /\ GetSheetIndex f sheet <> 0
  /\ workSheetReader f sheet = (Ok (worksheet sw), f')
  /\ SWFile sw = f' /\ SWSheet sw = sheet /\ tableParts sw = EmptyString.
Proof.
  unfold NewStreamWriter.
  destruct (Z.eqb_spec (GetSheetIndex f sheet) 0) as [|Hne]; [discriminate |].
  destruct (workSheetReader f sheet) as [[ws|e] f1]; [| discriminate].
  intros Heq. inversion Heq; subst; cbn [rawData worksheet SheetID SWFile SWSheet tableParts].
  rewrite bulkAppendFields_appended by lia.
  unfold openingMarkup, bufferedWriter.WriteString, bufferedWriter.empty, appended;
    cbn [tmp buf String.append].
  repeat split; try assumption. f_equal. now rewrite !append_assoc.
Qed.

(** X12.  The document of a session, from its opening to its end.  A
    session is opened on a sheet, rows are written one after the other
    with [SetRow], each with a starting coordinate that parses and
    values that are all named and encoded, and [Flush] ends the
    session.  On a system whose calls succeed no call returns an
    error, however often the buffer spills to its temp file, and the
    sheet installed in the package is the opening markup, the markup of
    the rows in the order of the calls, and the closing markup. *)
Theorem streamed_document (f f' : File) (sheet : string) (sw : StreamWriter)
    (rows : list (string * list CellValue)) (m : string) (w : World) :
  NewStreamWriter f sheet = (Ok sw, f') ->
  rowsMarkup rows = Some m ->
  healthy w ->
  Forall (fun e => e = None) (fst (fst (setRows sw rows w)))
  /\ fst (fst (Flush (snd (fst (setRows sw rows w))) (snd (setRows sw rows w)))) = None
  /\ XLSX (SWFile (snd (fst (Flush (snd (fst (setRows sw rows w)))
                               (snd (setRows sw rows w))))))
       !! sheetXMLPath (GetSheetIndex f sheet)
     = Some (openingMarkup (worksheet sw) ++ m ++ closingMarkup sw).
Proof.
  intros Hnew Hm Hw.
  destruct (NewStreamWriter_ok f f' sheet sw Hnew) as (Hraw & Hid & _).
  assert (Happ : appending (rawData sw)) by (rewrite Hraw; exact I).
  destruct (setRows_appends rows sw w m Hm Happ) as (Hc & Happ1 & [bw Hf] & Hh).
  destruct (Hh Hw) as [Herrs Hw1].
  destruct (setRows sw rows w) as [[errs sw1] w1]; cbn [fst snd] in *.
  destruct (Flush_healthy_installs sw1 w1 Happ1 Hw1) as (He & Hx & _).
  split; [exact Herrs |]. split; [exact He |].
  assert (Hid1 : SheetID sw1 = SheetID sw) by now rewrite Hf.
  assert (Hcm : closingMarkup sw1 = closingMarkup sw) by now rewrite Hf.
  rewrite <- Hid, <- Hid1, Hx, Hc, Hcm, Hraw. unfold content; cbn [tmp buf].
  now rewrite append_assoc.
Qed.

(** ** Tables *)

Lemma getRowValues_frame (sw : StreamWriter) (hrow hcol vcol : Z) (w : World) :
  exists bw, snd (fst (getRowValues sw hrow hcol vcol w)) = set_rawData sw bw.
Proof.
  unfold getRowValues.
  destruct (vcol - hcol + 1 <? 0); [exists (rawData sw); now destruct sw |].
  unfold bind.
  destruct (bufferedWriter.Reader (rawData sw) w) as [[[r|e] bw] w']; exists bw;
    [now destruct (lexer.tokens r) | reflexivity].
Qed.

Lemma registerTable_frame (sw : StreamWriter) (formatSet : formatTable)
    (ref : string) (tableHeaders : list string) :
  rawData (registerTable sw formatSet ref tableHeaders) = rawData sw
  /\ worksheet (registerTable sw formatSet ref tableHeaders) = worksheet sw
  /\ SheetID (registerTable sw formatSet ref tableHeaders) = SheetID sw
  /\ SWSheet (registerTable sw formatSet ref tableHeaders) = SWSheet sw.
Proof.
  unfold registerTable. destruct (addRels _ _ _ _ _) as [rID f]. repeat split.
Qed.

Lemma AddTable_effects (sw : StreamWriter) (hcell vcell format : string)
    (w : World) :
  appending (rawData sw) ->
  content (rawData (snd (fst (AddTable sw hcell vcell format w))))
  = content (rawData sw)
  /\ appending (rawData (snd (fst (AddTable sw hcell vcell format w))))
  /\ worksheet (snd (fst (AddTable sw hcell vcell format w))) = worksheet sw
  /\ SheetID (snd (fst (AddTable sw hcell vcell format w))) = SheetID sw
  /\ (forall err, fst (fst (AddTable sw hcell vcell format w)) = Some err ->
        SWFile (snd (fst (AddTable sw hcell vcell format w))) = SWFile sw
        /\ tableParts (snd (fst (AddTable sw hcell vcell format w))) = tableParts sw)
  /\ (fst (fst (AddTable sw hcell vcell format w)) = None ->
      exists rID,
        tableParts (snd (fst (AddTable sw hcell vcell format w))) = tablePartsMarkup rID).
Proof.
  intros Happ. unfold AddTable.
  destruct (parseFormatTableSet format) as [formatSet|e];
    [| cbn; repeat split; auto; discriminate].
  destruct (areaRangeToCoordinates hcell vcell) as [coordinates|e];
    [| cbn; repeat split; auto; discriminate].
  destruct (tableArea coordinates) as [[[c0 c1] c2] c3].
  destruct (coordinatesToAreaRef (c0, c1, c2, c3)) as [ref|e];
    [| cbn; repeat split; auto; discriminate].
  unfold bind.
  pose proof (getRowValues_keeps sw c1 c0 c2 w Happ) as [Hc Ha].
  destruct (getRowValues_frame sw c1 c0 c2 w) as [bw Hf].
  destruct (getRowValues sw c1 c0 c2 w) as [[[headers|e] sw1] w1]; cbn [fst snd] in *.
  - unfold ret; cbn [fst snd].
    destruct (registerTable_frame sw1 formatSet ref headers) as (Hr & Hws & Hid & _).
    destruct (registerTable_keeps sw1 formatSet ref headers) as [_ Hparts].
    rewrite Hr, Hws, Hid, Hf. cbn [worksheet SheetID set_rawData].
    rewrite Hf in Hc, Ha, Hparts. cbn [rawData set_rawData] in Hc, Ha.
    split; [exact Hc |]. split; [exact Ha |]. split; [reflexivity |].
    split; [reflexivity |]. split; [intros err Herr; discriminate |].
    intros _. exact Hparts.
  - unfold ret; cbn [fst snd]. rewrite Hf in *. cbn [rawData set_rawData] in *.
    split; [exact Hc |]. split; [exact Ha |]. split; [reflexivity |].
    split; [reflexivity |]. split; [intros err _; split; reflexivity |].
    discriminate.
Qed.

(** X13.  [AddTable] only reads the buffer.  Whatever its arguments
    and whatever the system calls do, the logical content of the buffer
    after the call is the content before it, the temp file, if any,
    stays open with its cursor at its end, and the worksheet and the
    sheet of the session are the same.  A call that returns an error
    registers nothing: the package and the table reference kept for
    [Flush] are as they were. *)
Theorem AddTable_only_reads (sw : StreamWriter) (hcell vcell format : string)
    (w : World) :
  appending (rawData sw) ->
  content (rawData (snd (fst (AddTable sw hcell vcell format w))))
  = content (rawData sw)
  /\ appending (rawData (snd (fst (AddTable sw hcell vcell format w))))
  /\ worksheet (snd (fst (AddTable sw hcell vcell format w))) = worksheet sw
  /\ SheetID (snd (fst (AddTable sw hcell vcell format w))) = SheetID sw
  /\ (forall err, fst (fst (AddTable sw hcell vcell format w)) = Some err ->
        SWFile (snd (fst (AddTable sw hcell vcell format w))) = SWFile sw
        /\ tableParts (snd (fst (AddTable sw hcell vcell format w))) = tableParts sw).
Proof.
  intros Happ.
  destruct (AddTable_effects sw hcell vcell format w Happ)
    as (H1 & H2 & H3 & H4 & H5 & _).
  split; [exact H1 |]. split; [exact H2 |]. split; [exact H3 |].
  split; [exact H4 | exact H5].
Qed.




End SessionFacts.

(** ** The row elements that the scan looks for *)

Lemma rowAttrMatches_iff (attrs : list xmlAttr) (hrow : Z) :
  rowAttrMatches attrs hrow = true
  <-> exists a, In a attrs /\ Local (Name a) = "r" /\ Atoi (Value a) = hrow.
Proof.
  induction attrs as [|a attrs IH]; cbn [rowAttrMatches In].
  - split; [discriminate | intros (a & [] & _)].
  - destruct (String.eqb_spec (Local (Name a)) "r") as [Hr|Hr]; cbn [negb].
    + destruct (Z.eqb_spec (Atoi (Value a)) hrow) as [Hv|Hv].
      * split; [intros _; exists a; auto | reflexivity].
      * rewrite IH. split.
        -- intros (b & Hb & Hrest). exists b. auto.
        -- intros (b & [Hb|Hb] & Hl & Hval); [subst b; contradiction |].
           exists b. auto.
    + rewrite IH. split.
      * intros (b & Hb & Hrest). exists b. auto.
      * intros (b & [Hb|Hb] & Hl & Hval); [subst b; contradiction |].
        exists b. auto.
Qed.

(** X15.  The scan takes a token for the row it looks for exactly
    when the token is a start element whose local name is [row],
    whatever its name space, and one of its attributes has the local
    name [r] and a value that [strconv.Atoi] reads as the row number.
    An attribute [r] that is not a number is read as zero, so such an
    element is taken for the row 0. *)
Theorem getRowElement_iff (token : Token) (hrow : Z) :
  (getRowElement token hrow = true
   <-> exists name attrs a,
         token = StartElement name attrs
         /\ Local name = "row"
         /\ In a attrs /\ Local (Name a) = "r" /\ Atoi (Value a) = hrow)
  /\ (forall space rspace v,
        parseDecimal v = None ->
        getRowElement (StartElement (mkName space "row") [mkAttr (mkName rspace "r") v]) 0
        = true).
Proof.
  split.
  - destruct token as [name attrs|name|data|target inst]; cbn [getRowElement];
      try (split; [discriminate | intros (n & at' & a & Heq & _); discriminate]).
    split.
    + intros Hm. apply andb_prop in Hm as [Hname Hattrs].
      apply String.eqb_eq in Hname. apply rowAttrMatches_iff in Hattrs as (a & Ha).
      exists name, attrs, a. tauto.
    + intros (n & at' & a & Heq & Hname & Ha). inversion Heq; subst n at'.
      apply andb_true_intro. split; [now apply String.eqb_eq |].
      apply rowAttrMatches_iff. exists a. exact Ha.
  - intros space rspace v Hv. cbn [getRowElement rowAttrMatches Local Name Value].
    change ("row" =? "row")%string with true. change ("r" =? "r")%string with true.
    cbn [negb andb]. unfold Atoi. now rewrite Hv.
Qed.

Lemma bulkAppendFields_range_witness :
  bulkAppendFields (mkBW None "<x>") (mkWorksheet ["f0"; "f1"; "f2"; "f3"]) 1 2
  = mkBW None "<x>f1f2".
Proof.
  exact (proj1 (bulkAppendFields_range (mkBW None "<x>")
                  (mkWorksheet ["f0"; "f1"; "f2"; "f3"]) 1 2 ltac:(lia))).
Defined.

Lemma Flush_installs_document_witness :
  fst (fst (Flush (set_rawData Reference.session
                     (mkBW (Some (mkOSFile "<a>" 3 false false)) "<b>")) []))
  = None
  /\ XLSX (SWFile (snd (fst (Flush (set_rawData Reference.session
                                      (mkBW (Some (mkOSFile "<a>" 3 false false)) "<b>"))
                               []))))
       !! "xl/worksheets/sheet1.xml"
     = Some ("<a><b>" ++ "</sheetData></worksheet>").
Proof.
  destruct (Flush_installs_document
              (set_rawData Reference.session
                 (mkBW (Some (mkOSFile "<a>" 3 false false)) "<b>")) []
              (conj eq_refl eq_refl) healthy_nil) as (He & Hx & _).
  split; [exact He | exact Hx].
Defined.

Lemma streamed_document_witness :
  XLSX (SWFile (snd (fst (Flush
         (snd (fst (setRows Reference.session
                      [("A1", [Vstring "Name"; Vstring "Age"]);
                       ("A2", [Vstring "Ana"; Vint Kint 30])] [])))
         (snd (setRows Reference.session
                 [("A1", [Vstring "Name"; Vstring "Age"]);
                  ("A2", [Vstring "Ana"; Vint Kint 30])] []))))))
    !! sheetXMLPath (GetSheetIndex Reference.file "Sheet1")
  = Some (openingMarkup (worksheet Reference.session)
          ++ (rowMarkup 1 [xlsxC.mk noAttr "A1" 0 "str" "Name";
                           xlsxC.mk noAttr "B1" 0 "str" "Age"]
              ++ rowMarkup 2 [xlsxC.mk noAttr "A2" 0 "str" "Ana";
                              xlsxC.mk noAttr "B2" 0 EmptyString "30"]
              ++ EmptyString)
          ++ closingMarkup Reference.session).
Proof.
  exact (proj2 (proj2 (streamed_document Reference.file Reference.file "Sheet1"
                         Reference.session
                         [("A1", [Vstring "Name"; Vstring "Age"]);
                          ("A2", [Vstring "Ana"; Vint Kint 30])]
                         _ [] eq_refl eq_refl healthy_nil))).
Defined.

Lemma AddTable_only_reads_witness :
  content (rawData (snd (fst (AddTable twoRows "A1" "B2" EmptyString []))))
  = content (rawData twoRows).
Proof.
  exact (proj1 (AddTable_only_reads twoRows "A1" "B2" EmptyString [] I)).
Defined.


Lemma getRowElement_iff_witness :
  getRowElement
    (StartElement (mkName "x" "row") [mkAttr (mkName EmptyString "r") "abc"]) 0
  = true.
Proof.
  exact (proj2 (getRowElement_iff (CharData EmptyString) 0) "x" EmptyString "abc" eq_refl).
Defined.


(** * Reading the buffer, opening a session, the markup of a cell *)

(** X17.  [Reader] gives read access to everything that was written.
    On a system whose calls succeed the reader delivers the whole
    logical content of the buffer, what is on the temp file followed by
    what was still in memory, and then the end of the stream.  Whatever
    the system calls do, [Reader] loses nothing: the logical content is
    the same after it, and the temp file, if any, is still open with
    its cursor at its end, so that later writes go after what was
    written. *)
Theorem Reader_delivers_content (bw : bufferedWriter) (w : World) :
  appending bw ->
  content (snd (fst (bufferedWriter.Reader bw w))) = content bw
  /\ appending (snd (fst (bufferedWriter.Reader bw w)))
  /\ (healthy w ->
      fst (fst (bufferedWriter.Reader bw w)) = Ok (mkReader (content bw) None)).
Proof.
  intros Happ. destruct (Reader_keeps bw w Happ) as [Hc Ha].
  split; [exact Hc |]. split; [exact Ha |].
  intros Hw. exact (proj1 (Reader_healthy bw w Happ Hw)).
Qed.

Lemma Reader_delivers_content_witness :
  fst (fst (bufferedWriter.Reader (mkBW (Some (mkOSFile "ab" 2 false false)) "c") []))
  = Ok (mkReader "abc" None).
Proof.
  exact (proj2 (proj2 (Reader_delivers_content
                         (mkBW (Some (mkOSFile "ab" 2 false false)) "c") []
                         (conj eq_refl eq_refl))) healthy_nil).
Defined.

Section Opening.
Context `{Package}.

(** X18.  [NewStreamWriter] opens a session in memory.  For a sheet
    that the workbook does not have (index 0) it returns the error
    "sheet ... is not exist" and leaves the file alone.  When it
    succeeds, the session has no temp file and no table reference, its
    sheet number is the index of the sheet, which is not 0, its
    worksheet is the one that [workSheetReader] returned, and its
    buffer holds the opening markup: the XML header, the start of the
    worksheet element, the fields 1 to 5 of the worksheet and the start
    of the sheet data. *)
Theorem NewStreamWriter_opens (f : File) (sheet : string) :
  (GetSheetIndex f sheet = 0 ->
   NewStreamWriter f sheet
   = (Err (mkError AddressingError ("sheet " ++ sheet ++ " is not exist")), f))
  /\ (forall sw f',
        NewStreamWriter f sheet = (Ok sw, f') ->
        tmp (rawData sw) = None
        /\ buf (rawData sw)
           = XMLHeader ++ "<worksheet" ++ templateNamespaceIDMap
             ++ fieldRange (worksheet sw) 1 5 ++ "<sheetData>"
        /\ tableParts sw = EmptyString
        /\ SheetID sw = GetSheetIndex f sheet
        /\ SheetID sw <> 0
        /\ workSheetReader f sheet = (Ok (worksheet sw), f')
        /\ SWFile sw = f').
Proof.
  split.
  - intros Hid. unfold NewStreamWriter. now rewrite Hid.
  - intros sw f' Hnew.
    destruct (NewStreamWriter_ok f f' sheet sw Hnew)
      as (Hraw & Hid & Hne & Hws & Hf & _ & Htp).
    rewrite Hraw. cbn [tmp buf]. unfold openingMarkup.
    split; [reflexivity |]. split; [reflexivity |]. split; [exact Htp |].
    split; [exact Hid |]. split; [now rewrite Hid |]. split; [exact Hws | exact Hf].
Qed.

End Opening.

Lemma NewStreamWriter_opens_witness :
  NewStreamWriter Reference.file "Sheet9"
  = (Err (mkError AddressingError ("sheet " ++ "Sheet9" ++ " is not exist")),
     Reference.file)
  /\ tmp (rawData Reference.session) = None
  /\ tableParts Reference.session = EmptyString.
Proof.
  split.
  - apply (proj1 (NewStreamWriter_opens Reference.file "Sheet9")). reflexivity.
  - destruct (proj2 (@NewStreamWriter_opens Reference.package Reference.file "Sheet1")
                Reference.session Reference.file eq_refl)
      as (Ht & _ & Hp & _).
    split; [exact Ht | exact Hp].
Defined.

(** X19.  The markup that [writeCell] writes for a cell is one element
    that reads back as the cell.  For a well-formed cell (a plain
    reference and type, an [xml:space] marker if any, text that XML can
    carry) the decoder reads the markup, to a clean end of the stream,
    with the names as they are written (prefixes are not resolved),
    as: the start of a [c] element with the attributes of the cell in
    the order space, [r], [s] (when the style is not 0), [t] (when the
    type is not empty); when the text is not empty, a [v] element
    holding exactly the text of the cell, whatever characters had to be
    escaped; the end of the [c] element. *)
Theorem cell_markup_decodes (c : xlsxC.t) :
  wellFormedCell c = true ->
  lexer.tokens (mkReader (cellMarkup c) None) = (cellTokens c, EOF).
Proof.
  intros Hw. unfold lexer.tokens; cbn [rdata rerr].
  rewrite <- (append_nil_r (cellMarkup c)).
  unfold lexer.init. rewrite (lex_cell_then c [] [] EmptyString Hw).
  cbn [lexer.run app]. unfold lexer.finish.
  cbn [lexer.mode lexer.out lexer.stack isEmpty]. reflexivity.
Qed.

Lemma cell_markup_decodes_witness :
  lexer.tokens (mkReader (cellMarkup (xlsxC.mk noAttr "B2" 3 "str" "a<b & c")) None)
  = ([StartElement cName [attrNamed "r" "B2"; attrNamed "s" "3"; attrNamed "t" "str"];
      StartElement vName []; CharData "a<b & c"; EndElement vName;
      EndElement cName], EOF).
Proof.
  exact (cell_markup_decodes (xlsxC.mk noAttr "B2" 3 "str" "a<b & c") eq_refl).
Defined.

(** * Flush when the spilled content cannot be read back *)

Lemma Flush_write_ok (bw : bufferedWriter) (f : OSFile) (w : World) :
  tmp bw = Some f -> fclosed f = false -> 0 < Len (buf bw) ->
  bufferedWriter.Flush bw (IOok :: w)
  = (None,
     mkBW (Some (mkOSFile (os.pwrite (fdata f) (fpos f) (buf bw))
                          (fpos f + String.length (buf bw)) false (fremoved f)))
          EmptyString,
     w).
Proof.
  intros Htmp Hopen Hlen. unfold bufferedWriter.Flush. rewrite Htmp.
  unfold bufferedWriter.buf_WriteTo. apply Z.ltb_lt in Hlen. rewrite Hlen.
  unfold os.Write. rewrite Hopen. unfold bind, ret, syscall. cbn [fst snd].
  reflexivity.
Qed.

Lemma Bytes_seek_fails (f : OSFile) (o : IOFault) (m : nat) (w : World) :
  fclosed f = false ->
  bufferedWriter.Bytes (mkBW (Some f) EmptyString) (o :: IOfail m :: w)
  = (Err (errIO "seek"), mkBW (Some f) EmptyString, w).
Proof.
  intros Hopen. unfold bufferedWriter.Bytes; cbn [tmp buf].
  unfold bufferedWriter.Flush, bufferedWriter.buf_WriteTo; cbn [tmp buf].
  change (0 <? Len EmptyString) with false. cbv iota.
  unfold bind, ret; cbn [tmp buf].
  unfold os.Stat, os.Seek0. rewrite Hopen. unfold bind, ret, syscall.
  destruct o as [|k].
  - unfold to_int, to_int64, intSize. rewrite !wrap_idem by lia.
    rewrite Z.eqb_refl. cbn [negb]. rewrite andb_false_r. reflexivity.
  - reflexivity.
Qed.

Section FlushLate.
Context `{Package}.

Lemma Flush_bytes_error (sw : StreamWriter) (w w1 w2 : World)
    (bw1 bw2 : bufferedWriter) (e : error) :
  bufferedWriter.Flush (closingBuffer sw) w = (None, bw1, w1) ->
  bufferedWriter.Bytes bw1 w1 = (Err e, bw2, w2) ->
  Flush sw w
  = (Some e,
     set_rawData
       (set_File sw
          (mkFile (XLSX (SWFile sw))
                  (delete (sheetXMLPath (SheetID sw)) (Sheet (SWFile sw)))
                  (delete (sheetXMLPath (SheetID sw)) (checked (SWFile sw)))
                  (sheetMap (SWFile sw)) (packaging (SWFile sw))))
       (snd (fst (bufferedWriter.Close bw2 w2))),
     snd (bufferedWriter.Close bw2 w2)).
Proof.
  intros Hf Hb. unfold Flush. fold (closingBuffer sw). unfold bind.
  rewrite Hf. cbn [XLSX Sheet checked sheetMap packaging]. rewrite Hb.
  now destruct (bufferedWriter.Close bw2 w2) as [[e' bw3] w3].
Qed.

(** X20.  [Flush] that cannot read back the temp file.  On a session
    that has spilled, when the closing markup is written to the temp
    file but the file cannot be rewound for reading (the outcome of
    [Stat] before it is ignored), [Flush] returns the error of [Seek].
    By then the sheet was already deleted from the two caches of the
    file, so they stay without it, while no part is installed in the
    package; the deferred [Close] runs, so the buffer is disposed
    of. *)
Theorem Flush_seek_failure (sw : StreamWriter) (f : OSFile) (o : IOFault) (m : nat)
    (w : World) :
  tmp (rawData sw) = Some f -> fclosed f = false ->
  fst (fst (Flush sw (IOok :: o :: IOfail m :: w))) = Some (errIO "seek")
  /\ XLSX (SWFile (snd (fst (Flush sw (IOok :: o :: IOfail m :: w)))))
     = XLSX (SWFile sw)
  /\ Sheet (SWFile (snd (fst (Flush sw (IOok :: o :: IOfail m :: w)))))
     = delete (sheetXMLPath (SheetID sw)) (Sheet (SWFile sw))
  /\ checked (SWFile (snd (fst (Flush sw (IOok :: o :: IOfail m :: w)))))
     = delete (sheetXMLPath (SheetID sw)) (checked (SWFile sw))
  /\ disposed (rawData (snd (fst (Flush sw (IOok :: o :: IOfail m :: w))))).
Proof.
  intros Htmp Hopen.
  pose proof (closingBuffer_tmp sw) as Ht. rewrite Htmp in Ht.
  rewrite (Flush_bytes_error sw _ _ _ _ _ _
             (Flush_write_ok (closingBuffer sw) f _ Ht Hopen (closingBuffer_Len sw))
             (Bytes_seek_fails
                (mkOSFile (os.pwrite (fdata f) (fpos f) (buf (closingBuffer sw)))
                          (fpos f + String.length (buf (closingBuffer sw)))
                          false (fremoved f))
                o m w eq_refl)).
  cbn [fst snd SWFile rawData set_rawData set_File XLSX Sheet checked].
  split; [reflexivity |]. split; [reflexivity |]. split; [reflexivity |].
  split; [reflexivity |]. apply Close_disposes.
Qed.

End FlushLate.

Lemma Flush_seek_failure_witness :
  fst (fst (Flush (set_rawData Reference.session
                     (mkBW (Some (mkOSFile "<a>" 3 false false)) "<b>"))
              [IOok; IOok; IOfail 0]))
  = Some (errIO "seek").
Proof.
  exact (proj1 (Flush_seek_failure
                  (set_rawData Reference.session
                     (mkBW (Some (mkOSFile "<a>" 3 false false)) "<b>"))
                  (mkOSFile "<a>" 3 false false) IOok 0 [] eq_refl eq_refl)).
Defined.

(** * A spill that fails *)

(** X21.  A spill that fails loses nothing and can be tried again.
    Whatever the system calls do, and whether it returns an error or
    not, [Sync] keeps the logical content of the buffer: what a failing
    write did transfer is on the temp file and the rest is still in
    memory, in order; the temp file stays open with its cursor at its
    end.  A [Sync] that follows on a system whose calls succeed returns
    no error and the content is still the same. *)
Theorem failed_spill_loses_nothing (bw : bufferedWriter) (w w' : World) :
  appending bw ->
  content (snd (fst (bufferedWriter.Sync bw w))) = content bw
  /\ appending (snd (fst (bufferedWriter.Sync bw w)))
  /\ (healthy w' ->
      fst (fst (bufferedWriter.Sync (snd (fst (bufferedWriter.Sync bw w))) w')) = None
      /\ content (snd (fst (bufferedWriter.Sync
                              (snd (fst (bufferedWriter.Sync bw w))) w')))
         = content bw).
Proof.
  intros Happ. destruct (Sync_keeps bw w Happ) as [Hc Ha].
  split; [exact Hc |]. split; [exact Ha |].
  intros Hw. destruct (Sync_healthy _ w' Ha Hw) as [He _].
  destruct (Sync_keeps _ w' Ha) as [Hc' _].
  split; [exact He |]. now rewrite Hc'.
Qed.

Lemma failed_spill_loses_nothing_witness :
  content (snd (fst (bufferedWriter.Sync
                       (mkBW (Some (mkOSFile "ab" 2 false false)) big) [IOfail 3])))
  = content (mkBW (Some (mkOSFile "ab" 2 false false)) big).
Proof.
  exact (proj1 (failed_spill_loses_nothing
                  (mkBW (Some (mkOSFile "ab" 2 false false)) big) [IOfail 3] []
                  (conj eq_refl eq_refl))).
Defined.
